(** * VSAVM documentation site generator

    A shallow embedding of [docs/tools/generate_site_pages.py]: the page
    model, the SVG and HTML rendering functions, the two page registries,
    and the build entry point [main] over an explicit model of the part of
    the file system the script touches.

    Conventions.
    - Python [str] values are [string]s holding the UTF-8 bytes that
      [write_text(..., encoding="utf-8")] puts on disk.
    - Python [int] values are [Z]; [str_int] is [str()] on an [int].
    - String literals of the source that contain the double quote character
      are written through [txt], with a backquote standing for the double
      quote (the source has no backquote anywhere).
    - A list comprehension is a [map]; [sep.join(xs)] is
      [String.concat sep xs]; a [for] loop over a list is a [foldl] or a
      recursion on that list. *)

From Stdlib Require Import ZArith Ascii String DecimalString DecimalZ.
From stdpp Require Import gmap strings list.

Local Open Scope string_scope.
Local Open Scope Z_scope.
Local Open Scope list_scope.

(** ** Text *)

Definition nl : string := String "010" EmptyString.

Definition dquote : ascii := "034".

Fixpoint txt (s : string) : string :=
  match s with
  | EmptyString => EmptyString
  | String c rest => String (if Ascii.eqb c "`" then dquote else c) (txt rest)
  end.

(** [str(n)] for a Python [int]. *)
Definition str_int (n : Z) : string := NilZero.string_of_int (Z.to_int n).

(** The floats of [svg_chip] are sums of integers and of one integer halved,
    so each is a multiple of one half; such a float is kept as twice its
    value.  [repr_halves] is Python's [repr] (what an f-string hole prints)
    on that float; it is exact while the magnitude stays below 2^52, where
    every multiple of one half is a float and [repr] prints positional
    notation.  Beyond that the floats of Python round, and from 10^16 on
    [repr] prints an exponent; the unbounded integers here do neither. *)
Definition halves := Z.

Definition of_int (n : Z) : halves := 2 * n.
Definition true_div2 (n : Z) : halves := n.
Definition fadd (a b : halves) : halves := a + b.

Definition repr_halves (a : halves) : string :=
  if Z.even a then str_int (a / 2) +:+ ".0"
  else (if a <? 0 then "-" else EmptyString) +:+ str_int (Z.abs a / 2) +:+ ".5".

(** ** Page model *)

Record Page := {
  slug : string;
  title : string;
  kind : string;  (* "theory" | "wiki" *)
  aria : string;
  svg : string;
  caption : string;
  sections : list (string * string);
  references : list (string * string)
}.

(** ** HTML shell *)

Definition html_page (title content prefix : string) : string :=
  "<!doctype html>" +:+ nl
  +:+ txt "<html lang=`en`>" +:+ nl
  +:+ "  <head>" +:+ nl
  +:+ txt "    <meta charset=`utf-8`>" +:+ nl
  +:+ txt "    <meta name=`viewport` content=`width=device-width, initial-scale=1`>" +:+ nl
  +:+ "    <title>" +:+ title +:+ " | VSAVM</title>" +:+ nl
  +:+ txt "    <link rel=`preconnect` href=`https://fonts.googleapis.com`>" +:+ nl
  +:+ txt "    <link rel=`preconnect` href=`https://fonts.gstatic.com` crossorigin>" +:+ nl
  +:+ txt "    <link href=`https://fonts.googleapis.com/css2?family=Fraunces:wght@400;600&family=Space+Grotesk:wght@400;500;600&display=swap` rel=`stylesheet`>" +:+ nl
  +:+ txt "    <link rel=`stylesheet` href=`" +:+ prefix +:+ txt "assets/site.css`>" +:+ nl
  +:+ "  </head>" +:+ nl
  +:+ "  <body>" +:+ nl
  +:+ txt "    <div class=`site`>" +:+ nl
  +:+ txt "      <header class=`header`>" +:+ nl
  +:+ txt "        <div class=`brand`>VSAVM</div>" +:+ nl
  +:+ txt "        <nav class=`nav`>" +:+ nl
  +:+ txt "          <a href=`" +:+ prefix +:+ txt "index.html`>Home</a>" +:+ nl
  +:+ txt "          <a href=`" +:+ prefix +:+ txt "specs.html`>Specs</a>" +:+ nl
  +:+ txt "          <a href=`" +:+ prefix +:+ txt "theory/index.html`>Theory</a>" +:+ nl
  +:+ txt "          <a href=`" +:+ prefix +:+ txt "wiki/index.html`>Wiki</a>" +:+ nl
  +:+ "        </nav>" +:+ nl
  +:+ "      </header>" +:+ nl
  +:+ txt "      <main class=`main content`>" +:+ nl
  +:+ "        " +:+ content +:+ nl
  +:+ "      </main>" +:+ nl
  +:+ txt "      <footer class=`footer`>" +:+ nl
  +:+ "        VSAVM is an Axiologic Research experiment within the Achilles project. This static documentation is written in clear academic English for engineers." +:+ nl
  +:+ "      </footer>" +:+ nl
  +:+ "    </div>" +:+ nl
  +:+ "  </body>" +:+ nl
  +:+ "</html>" +:+ nl.

(** ** Diagram primitives *)

Definition svg_wrap (viewbox aria body : string) : string :=
  txt "<svg viewBox=`" +:+ viewbox +:+ txt "` role=`img` aria-label=`" +:+ aria +:+ txt "`>" +:+ nl
  +:+ "  <defs>" +:+ nl
  +:+ txt "    <linearGradient id=`sky` x1=`0` y1=`0` x2=`1` y2=`1`>" +:+ nl
  +:+ txt "      <stop offset=`0` stop-color=`#e8f3ff`/>" +:+ nl
  +:+ txt "      <stop offset=`1` stop-color=`#d6f5e8`/>" +:+ nl
  +:+ "    </linearGradient>" +:+ nl
  +:+ txt "    <linearGradient id=`deep` x1=`0` y1=`0` x2=`1` y2=`1`>" +:+ nl
  +:+ txt "      <stop offset=`0` stop-color=`#0b6eff`/>" +:+ nl
  +:+ txt "      <stop offset=`1` stop-color=`#16b879`/>" +:+ nl
  +:+ "    </linearGradient>" +:+ nl
  +:+ "  </defs>" +:+ nl
  +:+ "  " +:+ body +:+ nl
  +:+ "</svg>".

Definition svg_chip (x y w h : Z) (text : string) : string :=
  let cx := fadd (of_int x) (true_div2 w) in
  let cy := fadd (fadd (of_int y) (true_div2 h)) (of_int 4) in
  txt "<rect x=`" +:+ str_int x +:+ txt "` y=`" +:+ str_int y +:+ txt "` rx=`18` ry=`18` width=`" +:+ str_int w +:+ txt "` height=`" +:+ str_int h +:+ txt "` fill=`url(#sky)` stroke=`#7fb3e6` stroke-width=`2`/>" +:+ nl
  +:+ txt "<text x=`" +:+ repr_halves cx +:+ txt "` y=`" +:+ repr_halves cy +:+ txt "` text-anchor=`middle` font-size=`13` fill=`#0b1a2b` font-family=`Space Grotesk`>" +:+ text +:+ "</text>".

(** The default value of [svg_arrow]'s [color] parameter. *)
Definition svg_arrow_color : string := "url(#deep)".

Definition svg_arrow (x1 y1 x2 y2 : Z) (color : string) : string :=
  txt "<line x1=`" +:+ str_int x1 +:+ txt "` y1=`" +:+ str_int y1 +:+ txt "` x2=`" +:+ str_int x2 +:+ txt "` y2=`" +:+ str_int y2 +:+ txt "` stroke=`" +:+ color +:+ txt "` stroke-width=`4` stroke-linecap=`round`/>" +:+ nl
  +:+ txt "<polygon points=`" +:+ str_int (x2 - 10) +:+ "," +:+ str_int (y2 - 7) +:+ " " +:+ str_int (x2 - 10) +:+ "," +:+ str_int (y2 + 7) +:+ " " +:+ str_int (x2 + 10) +:+ "," +:+ str_int y2 +:+ txt "` fill=`#16b879`/>".

Definition svg_note (x y w h : Z) (text : string) : string :=
  let cx := x + 16 in
  let cy := y + 22 in
  txt "<rect x=`" +:+ str_int x +:+ txt "` y=`" +:+ str_int y +:+ txt "` rx=`16` ry=`16` width=`" +:+ str_int w +:+ txt "` height=`" +:+ str_int h +:+ txt "` fill=`none` stroke=`#7fb3e6` stroke-width=`2`/>" +:+ nl
  +:+ txt "<text x=`" +:+ str_int cx +:+ txt "` y=`" +:+ str_int cy +:+ txt "` text-anchor=`start` font-size=`12` fill=`#2f4a63` font-family=`Space Grotesk`>" +:+ text +:+ "</text>".

(** One turn of the [for line in lines] loop of [svg_legend]: the loop
    state is the list [parts] and the running ordinate [yy]. *)
Definition svg_legend_step (x : Z) (st : list string * Z) (line : string)
    : list string * Z :=
  let '(parts, yy) := st in
  (parts ++ [txt "<text x=`" +:+ str_int (x + 16) +:+ txt "` y=`" +:+ str_int yy +:+ txt "` text-anchor=`start` font-size=`12` fill=`#2f4a63` font-family=`Space Grotesk`>" +:+ line +:+ "</text>"],
   yy + 18).

Definition svg_legend_parts (x y : Z) (lines : list string) : list string :=
  let height := 24 + 18 * Z.of_nat (length lines) in
  let parts :=
    [txt "<rect x=`" +:+ str_int x +:+ txt "` y=`" +:+ str_int y +:+ txt "` width=`360` height=`" +:+ str_int height +:+ txt "` rx=`16` ry=`16` fill=`none` stroke=`#7fb3e6` stroke-width=`2`/>";
     txt "<text x=`" +:+ str_int (x + 16) +:+ txt "` y=`" +:+ str_int (y + 22) +:+ txt "` text-anchor=`start` font-size=`12` fill=`#2f4a63` font-family=`Space Grotesk`>Legend</text>"] in
  let yy := y + 44 in
  fst (foldl (svg_legend_step x) (parts, yy) lines).

Definition svg_legend (x y : Z) (lines : list string) : string :=
  String.concat nl (svg_legend_parts x y lines).

(** ** Page fragments *)

Definition h2_sections (sections : list (string * string)) : string :=
  String.concat nl
    (map (fun '(h, t) => "<h2>" +:+ h +:+ "</h2>" +:+ nl +:+ "<p>" +:+ t +:+ "</p>") sections).

Definition references_paragraph (references : list (string * string)) : string :=
  let links :=
    String.concat " "
      (map (fun '(name, url) => txt "<a href=`" +:+ url +:+ txt "`>" +:+ name +:+ "</a>") references) in
  "<h2>References</h2>" +:+ nl +:+ "<p>" +:+ links +:+ "</p>".

Definition related_wiki_paragraph (prefix : string) : string :=
  txt "<p>Related wiki pages: <a href=`" +:+ prefix +:+ txt "vm.html`>VM</a>, <a href=`" +:+ prefix +:+ txt "event-stream.html`>event stream</a>, "
  +:+ txt "<a href=`" +:+ prefix +:+ txt "vsa.html`>VSA</a>, <a href=`" +:+ prefix +:+ txt "bounded-closure.html`>bounded closure</a>, "
  +:+ txt "<a href=`" +:+ prefix +:+ txt "consistency-contract.html`>consistency contract</a>.</p>".

(** ** Content registry *)

Definition build_theory_pages : list Page :=
  [{|
      slug := "vision";
      title := "System vision";
      kind := "theory";
      aria := "Diagram of interface, executable VM core, and consistency contract";
      svg :=
        svg_wrap "0 0 900 320" "System vision diagram"
          (String.concat nl
             [svg_chip 70 70 240 70 "LLM-like interface";
              svg_chip 330 70 240 70 "Executable VM core";
              svg_chip 590 70 240 70 "Consistency contract";
              svg_arrow 310 105 330 105 svg_arrow_color;
              svg_arrow 570 105 590 105 svg_arrow_color;
              svg_chip 240 170 520 70 "Bounded closure gates what may be stated";
              svg_arrow 710 140 520 170 "#0b6eff";
              svg_legend 70 255
                ["Green arrows: primary runtime flow.";
                 "Blue arrow: contract constrains emission.";
                 "Boxes are subsystems with explicit roles."]]);
      caption := "The system vision: a familiar interface backed by executable state, with an explicit contract that governs emission.";
      sections :=
        [("Overview",
          "VSAVM aims to keep the ergonomics of an LLM-like interface while changing what an answer means internally. Instead of treating understanding as a latent numeric state, the system constructs and executes programs inside an explicit virtual machine. The user experience can remain conversational, but the internal semantics are grounded in execution and trace.");
         ("Core concepts",
          "A virtual machine is a state transition engine with explicit memory, instructions, and an execution trace. A consistency contract is a rule that ties output permission to budgeted checks. Bounded closure is the controlled exploration of consequences that turns correctness into a measurable property of search effort rather than a vague promise.");
         ("Runtime story",
          "Input is normalized into a structured event stream. Candidate interpretations are compiled into programs and executed to build VM state. Next-phrase generation proposes continuations, but acceptance is gated by closure checks that reject candidates introducing contradictions within scope.");
         ("Boundary behavior",
          "When budget is insufficient, the system must degrade honestly. It can emit conditional claims that explicitly depend on assumptions, or it can declare indeterminacy. In both cases, the system avoids substituting fluency for verification by making the exploration boundary explicit.")];
      references :=
        [("Virtual machine (Wikipedia)",
          "https://en.wikipedia.org/wiki/Virtual_machine");
         ("Symbolic execution (Wikipedia)",
          "https://en.wikipedia.org/wiki/Symbolic_execution");
         ("Consistency (Wikipedia)",
          "https://en.wikipedia.org/wiki/Consistency");
         ("Non-monotonic logic (SEP)",
          "https://plato.stanford.edu/entries/logic-nonmonotonic/")]
   |};
   {|
      slug := "unified-input";
      title := "Unified input representation";
      kind := "theory";
      aria := "Diagram of event stream and reversible macro units";
      svg :=
        svg_wrap "0 0 900 340" "Unified input representation diagram"
          (String.concat nl
             [svg_chip 70 45 760 60 "Event stream (type + payload + structural context)";
              svg_arrow 450 105 450 135 svg_arrow_color;
              svg_chip 110 135 320 80 "Lexical layer (reversible tokens)";
              svg_chip 470 135 320 80 "Phrase layer (reversible macro units)";
              svg_arrow 270 215 270 245 svg_arrow_color;
              svg_arrow 630 215 630 245 svg_arrow_color;
              svg_chip 110 245 320 65 "Deterministic expansion for scoring";
              svg_chip 470 245 320 65 "Stable units for retrieval and schemas";
              svg_legend 70 312
                ["Structure carries scope across modalities.";
                 "Reversibility prevents semantic drift.";
                 "Representation is shared by the VM."]]);
      caption := "A single symbolic substrate supports multimodal inputs while preserving structure, scope, and reversible compression.";
      sections :=
        [("Overview",
          "Multimodality becomes tractable when all inputs are mapped into a single canonical representation. VSAVM uses an event stream where each event is discrete and typed and carries an explicit structural context. This creates a shared substrate so that execution, closure, and auditing do not fragment across modality-specific pipelines.");
         ("Terminology",
          "An event has a type and a discrete payload, plus a context path such as document → section → paragraph → sentence → span. Structural separators are explicit events that delimit scopes for reasoning. Macro units are compressed patterns discovered by learning, but they must remain reversible into lexical events so evaluation and decoding remain deterministic.");
         ("How it supports reasoning",
          "Stable structure and scope allow the VM to build local theories and to avoid global inconsistency. The event stream also provides stable indexing hooks for retrieval, schema discovery, and program construction. Reversible compression reduces cost while keeping the ability to reconstruct the exact basis of a claim.");
         ("Implementation considerations",
          "Representation fails when boundaries are ambiguous or when compression cannot expand deterministically. VSAVM therefore prioritizes deterministic segmentation and deterministic expansion. This makes later stages predictable and keeps the correctness contract enforceable.")];
      references :=
        [("Event stream processing (Wikipedia)",
          "https://en.wikipedia.org/wiki/Event_stream_processing");
         ("Tokenization (Wikipedia)",
          "https://en.wikipedia.org/wiki/Tokenization_(lexical_analysis)");
         ("Multimodal learning (Wikipedia)",
          "https://en.wikipedia.org/wiki/Multimodal_learning")]
   |};
   {|
      slug := "structure-and-scope";
      title := "Structural boundaries and scope";
      kind := "theory";
      aria := "Diagram of nested scopes controlling inference";
      svg :=
        svg_wrap "0 0 900 320" "Scope diagram"
          (String.concat nl
             [(txt "<rect x=`90` y=`55` width=`720` height=`210` rx=`26` ry=`26` fill=`none` stroke=`#7fb3e6` stroke-width=`3`/>");
              (txt "<text x=`120` y=`85` text-anchor=`start` font-size=`13` fill=`#2f4a63` font-family=`Space Grotesk`>Document scope</text>");
              (txt "<rect x=`150` y=`95` width=`600` height=`160` rx=`24` ry=`24` fill=`none` stroke=`#0b6eff` stroke-width=`3`/>");
              (txt "<text x=`180` y=`125` text-anchor=`start` font-size=`13` fill=`#2f4a63` font-family=`Space Grotesk`>Section scope</text>");
              (txt "<rect x=`230` y=`140` width=`440` height=`90` rx=`20` ry=`20` fill=`none` stroke=`#16b879` stroke-width=`3`/>");
              (txt "<text x=`260` y=`170` text-anchor=`start` font-size=`13` fill=`#2f4a63` font-family=`Space Grotesk`>Local context (quote / procedure / paragraph)</text>");
              svg_legend 90 275
                ["Scope defines what can interact under closure.";
                 "Conflicts are meaningful only in-scope.";
                 "Local theories reduce global inconsistency."]]);
      caption := "Scope makes contradiction detection meaningful by restricting which facts may interact during closure.";
      sections :=
        [("Overview",
          "Correctness claims require scope. Real corpora contain incompatible sources, hypothetical statements, and quoted passages. If the system treats all statements as globally active, bounded closure either explodes in contradictions or becomes meaningless because conflicts are ignored.");
         ("Boundaries as signals",
          "Structural boundaries include headings, paragraphs, lists, quotes, definitions, and procedural steps. In multimodal inputs, boundaries also include temporal segments and scene changes. VSAVM treats these separators as explicit events so the VM can localize inference without guessing.");
         ("Scope-aware correctness",
          "A contradiction is defined canonically as the same fact identifier appearing with opposing polarity inside the same scope. Structural separators define that scope, and the VM carries scope through execution. This enables local theories that remain coherent even when global reconciliation is not possible under budget.");
         ("Practical outcomes",
          "Scope enables conditional reasoning across sources. A claim can be robust within a scope while being conditional across scopes. This makes the system useful under real-world inconsistency without abandoning the non-contradiction promise.")];
      references :=
        [("Scope (computer science) (Wikipedia)",
          "https://en.wikipedia.org/wiki/Scope_(computer_science)");
         ("Context (computing) (Wikipedia)",
          "https://en.wikipedia.org/wiki/Context_(computing)");
         ("Consistency (Wikipedia)",
          "https://en.wikipedia.org/wiki/Consistency")]
   |};
   {|
      slug := "training-and-emergence";
      title := "Training and emergent compilation";
      kind := "theory";
      aria := "Diagram of prediction-search-consolidation loop";
      svg :=
        svg_wrap "0 0 900 320" "Training loop diagram"
          (String.concat nl
             [(txt "<circle cx=`450` cy=`150` r=`96` fill=`none` stroke=`#0b6eff` stroke-width=`6`/>");
              (txt "<path d=`M520 70 L555 82 L525 108` fill=`#16b879`/>");
              svg_chip 110 80 250 70 "Next-phrase prediction";
              svg_chip 540 80 250 70 "Program search";
              svg_chip 325 210 250 70 "Consolidation";
              svg_note 110 165 330 48 "Prediction pressure favors compact executable explanations.";
              svg_note 500 165 330 48 "Search proposes candidate programs; closure rejects unstable ones.";
              svg_legend 110 270
                ["Two loops: predict and search.";
                 "Consolidate repeated winners into macros.";
                 "Consistency signals constrain consolidation."]]);
      caption := "Compilation emerges when prediction pressure makes compact executable programs the cheapest explanation for recurring patterns.";
      sections :=
        [("Overview",
          "VSAVM treats compilation as a learned capability. Next-phrase prediction provides a broad surface prior, but repeated patterns create pressure to represent intent as executable programs that compress the data. This creates a path from language modeling to program induction without hardcoded templates.");
         ("What emerges and why",
          "Repeated question forms and reasoning moves become schemas and macro programs because they reduce description length. VSA accelerates the emergence by clustering paraphrases and providing fast retrieval of nearby patterns. The VM provides the semantics by executing candidates and maintaining explicit state.");
         ("Consolidation",
          "Consolidation is the point where a candidate program becomes a macro instruction. It improves performance, but it also improves stability because the system can treat the macro as a unit that can be tested, audited, versioned, and federated. Consolidation is therefore an engineering mechanism, not only a learning trick.");
         ("Risks and mitigations",
          "Compression can consolidate spurious patterns if prediction alone is the criterion. VSAVM mitigates this by using bounded closure as a validator and by using scope to prevent unstable rules from contaminating unrelated contexts. Rules that cause branching blow-ups or frequent contradictions should be demoted or isolated.")];
      references :=
        [("Minimum description length (Wikipedia)",
          "https://en.wikipedia.org/wiki/Minimum_description_length");
         ("The MDL Book (Grünwald)",
          "https://www.grunwald.nl/mdlbook/");
         ("Program synthesis (Wikipedia)",
          "https://en.wikipedia.org/wiki/Program_synthesis")]
   |};
   {|
      slug := "rl-shaping";
      title := "RL as shaping for stable choices";
      kind := "theory";
      aria := "Diagram of candidates, signals, and selection policy";
      svg :=
        svg_wrap "0 0 900 320" "RL shaping diagram"
          (String.concat nl
             [svg_chip 80 70 250 70 "Candidates";
              svg_chip 340 70 250 70 "Signals";
              svg_chip 600 70 240 70 "Selection policy";
              svg_arrow 330 105 340 105 svg_arrow_color;
              svg_arrow 590 105 600 105 svg_arrow_color;
              svg_chip 220 170 520 70 "Penalty when closure reveals in-scope contradictions";
              svg_arrow 465 140 465 170 "#0b6eff";
              svg_legend 80 255
                ["Actions are coarse: choose a program or mode.";
                 "Signals are derived from consistency checks.";
                 "RL is a tiebreaker and stability prior."]]);
      caption := "RL provides shaping signals for discrete choices, prioritizing candidates that remain stable under bounded closure.";
      sections :=
        [("Overview",
          "VSAVM uses RL as shaping rather than as a replacement for language training. The system often faces multiple plausible candidate programs or response modes. A learned preference can bias selection toward candidates that have historically remained consistent under closure.");
         ("What is optimized",
          "The action space is intentionally small: selecting among candidate programs, schemas, or response modes. This avoids token-level RL, which is expensive and difficult to audit. Each action corresponds to a semantic decision that can be logged and evaluated.");
         ("Signals and discipline",
          "Bounded closure naturally provides negative feedback when contradictions are detected. Additional shaping can penalize branching blow-ups and reward compact programs. The resulting preferences steer search toward stable solutions without overriding the explicit consistency gate.");
         ("Trade-offs",
          "Shaping can overfit to a narrow verifier if the verifier does not reflect the real failure modes. The safe approach is to keep RL as a stability prior while maintaining the correctness guarantee in explicit closure checks and deterministic boundary behavior.")];
      references :=
        [("Reinforcement learning (Wikipedia)",
          "https://en.wikipedia.org/wiki/Reinforcement_learning");
         ("Sutton & Barto (book)",
          "http://incompleteideas.net/book/the-book-2nd.html");
         ("Multi-armed bandit (Wikipedia)",
          "https://en.wikipedia.org/wiki/Multi-armed_bandit")]
   |};
   {|
      slug := "question-compilation";
      title := "Question compilation pipeline";
      kind := "theory";
      aria := "Diagram of normalize-retrieve-fill-compile with beam evaluation";
      svg :=
        svg_wrap "0 0 900 340" "Question compilation diagram"
          (String.concat nl
             [svg_chip 80 60 180 70 "Normalize";
              svg_chip 280 60 180 70 "Retrieve";
              svg_chip 480 60 180 70 "Fill slots";
              svg_chip 680 60 180 70 "Program";
              svg_arrow 260 95 280 95 svg_arrow_color;
              svg_arrow 460 95 480 95 svg_arrow_color;
              svg_arrow 660 95 680 95 svg_arrow_color;
              svg_chip 210 170 480 70 "Beam: evaluate fit and early consistency";
              svg_arrow 570 130 450 170 "#0b6eff";
              svg_legend 80 260
                ["Retrieval narrows search surface (VSA).";
                 "Slot filling stays discrete and auditable.";
                 "Beam keeps ambiguity explicit under budget."]]);
      caption := "Questions are compiled into executable programs through explicit stages, with ambiguity managed by beam evaluation and consistency checks.";
      sections :=
        [("Overview",
          "A question is treated as a request to produce an executable query program. The pipeline is explicit to support audit and control: normalization creates a structured span, retrieval proposes candidate schemas, slot filling binds discrete values, and compilation emits a program in the VM instruction set.");
         ("Retrieval and slot filling",
          "Retrieval uses VSA to propose nearby schemas and macro programs. Slot filling binds entities, roles, and references using discrete matching and coreference heuristics, augmented by associative retrieval. The result is an executable artifact rather than a textual template.");
         ("Managing ambiguity",
          "Instead of forcing a single interpretation, VSAVM carries multiple candidate programs in a beam. Candidates are evaluated by explanatory fit and by early closure checks that detect contradictions. This makes uncertainty explicit and supports conditional outputs when necessary.");
         ("Engineering implications",
          "Because compilation is explicit, it is testable. You can measure how often a schema is retrieved, how often slot filling is ambiguous, and how often a candidate fails under closure. These metrics can guide consolidation and improve robustness over time.")];
      references :=
        [("Program synthesis (Wikipedia)",
          "https://en.wikipedia.org/wiki/Program_synthesis");
         ("Beam search (Wikipedia)",
          "https://en.wikipedia.org/wiki/Beam_search");
         ("Information retrieval (Wikipedia)",
          "https://en.wikipedia.org/wiki/Information_retrieval")]
   |};
   {|
      slug := "controlled-generation";
      title := "Controlled generation with closure gating";
      kind := "theory";
      aria := "Diagram of proposal, simulation, closure check, acceptance";
      svg :=
        svg_wrap "0 0 900 340" "Controlled generation diagram"
          (String.concat nl
             [svg_chip 80 70 260 70 "Propose phrases";
              svg_chip 360 70 240 70 "Simulate";
              svg_chip 620 70 200 70 "Accept";
              svg_arrow 340 105 360 105 svg_arrow_color;
              svg_arrow 600 105 620 105 svg_arrow_color;
              svg_chip 210 170 480 70 "Gate: bounded closure rejects contradictions";
              svg_arrow 480 140 450 170 "#0b6eff";
              svg_note 210 250 580 48 "Increasing budget deepens closure and changes what can be claimed.";
              svg_legend 80 295
                ["Generation is proposal + verification.";
                 "Closure is a gate, not an afterthought.";
                 "Budget controls robustness vs cost."]]);
      caption := "Generation is treated as proposal followed by verification: candidates must pass closure-based consistency checks before being emitted.";
      sections :=
        [("Overview",
          "VSAVM does not treat generation as free-form continuation. Candidates are proposed by learned distributions and schema constraints, but they must be verified against the VM state. This prevents the surface generator from introducing unsupported claims that violate correctness.");
         ("Candidate sources",
          "Candidates can come from a discrete language model over macro units, from the active schema, and from VSA retrieval of similar completions. The LM provides fluency, the schema provides structure, and VSA provides pattern-driven recall. The acceptance gate is what prevents any source from dominating truth.");
         ("Closure gating",
          "Before accepting a candidate, the system simulates its effect and runs a local bounded closure to detect contradictions. If contradictions are detected, the candidate is rejected in strict mode. If exploration is incomplete, the system can emit a conditional result rather than an unconditional claim.");
         ("Budget as user-controlled effort",
          "When a user asks the system to think more, the budget increases. This increases the depth or breadth of closure and therefore changes what is safe to claim. The system should surface that budget explicitly because it defines the strength of the response.")];
      references :=
        [("Beam search (Wikipedia)",
          "https://en.wikipedia.org/wiki/Beam_search");
         ("Transitive closure (Wikipedia)",
          "https://en.wikipedia.org/wiki/Transitive_closure");
         ("Verification and validation (Wikipedia)",
          "https://en.wikipedia.org/wiki/Verification_and_validation")]
   |};
   {|
      slug := "decoding";
      title := "Faithful surface realization";
      kind := "theory";
      aria := "Diagram of VM results mapped to constrained output forms";
      svg :=
        svg_wrap "0 0 900 320" "Decoding diagram"
          (String.concat nl
             [svg_chip 90 70 300 70 "VM result (object + trace)";
              svg_chip 410 70 220 70 "Surface plan";
              svg_chip 650 70 160 70 "Output";
              svg_arrow 390 105 410 105 svg_arrow_color;
              svg_arrow 630 105 650 105 svg_arrow_color;
              svg_chip 210 170 520 70 "Constraint: do not add facts not in VM state";
              svg_arrow 520 140 520 170 "#0b6eff";
              svg_legend 90 255
                ["VM state is the source of truth.";
                 "Realization controls wording, not content.";
                 "Output can be text or event stream."]]);
      caption := "Decoding is a constrained realization: it can choose phrasing, but it must not invent facts beyond the VM state and trace.";
      sections :=
        [("Overview",
          "Decoding is a common place where systems silently reintroduce hallucinations. VSAVM treats decoding as surface realization of internal objects. If the VM did not derive a fact, the realizer is not allowed to state it as true.");
         ("What is realized",
          "The VM can produce a verdict, a structured object, a plan, or an execution trace. The realizer converts these internal objects into a requested surface form such as prose, a structured event stream, or a report. The emphasis is on fidelity: every factual sentence corresponds to an internal artifact.");
         ("Why constraints matter",
          "Without constraints, a fluent realizer can add plausible details that were never derived. Constraints turn the correctness contract into an end-to-end property: not only is the internal reasoning checked, but the emitted text is guaranteed to be a rendering of checked state rather than an additional source of information.");
         ("Audit and user trust",
          "Faithful realization supports audit. When the user asks why a claim was made, the system can point to the underlying fact identifiers and trace steps. When it cannot justify a claim, it must degrade to conditional or indeterminate outputs rather than inventing.")];
      references :=
        [("Natural language generation (Wikipedia)",
          "https://en.wikipedia.org/wiki/Natural_language_generation");
         ("Explainable AI (Wikipedia)",
          "https://en.wikipedia.org/wiki/Explainable_artificial_intelligence");
         ("Verification and validation (Wikipedia)",
          "https://en.wikipedia.org/wiki/Verification_and_validation")]
   |};
   {|
      slug := "correctness-and-closure";
      title := "Operational correctness via bounded closure";
      kind := "theory";
      aria := "Diagram of canonicalization, closure, and conflict detection";
      svg :=
        svg_wrap "0 0 900 340" "Correctness diagram"
          (String.concat nl
             [svg_chip 80 70 240 70 "Canonicalize";
              svg_chip 340 70 240 70 "Close (bounded)";
              svg_chip 600 70 240 70 "Detect conflicts";
              svg_arrow 320 105 340 105 svg_arrow_color;
              svg_arrow 580 105 600 105 svg_arrow_color;
              svg_chip 180 170 540 70 "Conflict = same fact_id with opposite polarity in same scope";
              svg_arrow 480 140 480 170 "#0b6eff";
              svg_note 180 250 610 48 "Budgets define what was checked and therefore what may be stated.";
              svg_legend 80 295
                ["Canonical IDs make contradictions comparable.";
                 "Scope makes contradictions meaningful.";
                 "Budgets define claim strength."]]);
      caption := "Correctness is operational: canonical facts plus bounded closure plus scope-aware conflict detection define what can be safely emitted.";
      sections :=
        [("Overview",
          "Correctness in VSAVM is not a vague aspiration; it is a contract. The system is allowed to emit a conclusion only if bounded closure does not reveal contradictions within the configured budget and scope. This makes the cost of correctness explicit and configurable.");
         ("Canonical facts and negation",
          "Contradictions cannot be reliably detected at the text level. VSAVM maps assertions into canonical fact identifiers with typed slots and explicit polarity. Different surface forms can map to the same canonical identifier, making paraphrase-invariant conflict checks possible.");
         ("Bounded closure and exploration",
          "Closure applies rules and macro programs to derive consequences. It is bounded by depth, branching, steps, or time, and therefore it is incomplete by design. The important property is honesty: the system ties claim strength to the budget and can downgrade to conditional results when exploration is insufficient.");
         ("Practical auditing",
          "A correctness claim is only meaningful if it is auditable. VSAVM logs the closure budget, explored branches, applied rules, and detected conflicts. This allows the system to produce operational explanations that are traces of what was executed rather than post-hoc narratives.")];
      references :=
        [("Consistency (Wikipedia)",
          "https://en.wikipedia.org/wiki/Consistency");
         ("Transitive closure (Wikipedia)",
          "https://en.wikipedia.org/wiki/Transitive_closure");
         ("Non-monotonic logic (SEP)",
          "https://plato.stanford.edu/entries/logic-nonmonotonic/")]
   |};
   {|
      slug := "vm-core";
      title := "The VM core and retrieval interaction";
      kind := "theory";
      aria := "Diagram of VM components and a retrieval sidecar";
      svg :=
        svg_wrap "0 0 900 340" "VM architecture diagram"
          (String.concat nl
             [(txt "<rect x=`90` y=`55` width=`540` height=`220` rx=`26` ry=`26` fill=`none` stroke=`#0b6eff` stroke-width=`3`/>");
              (txt "<text x=`120` y=`85` text-anchor=`start` font-size=`13` fill=`#2f4a63` font-family=`Space Grotesk`>VM core</text>");
              svg_chip 130 105 210 60 "Fact store";
              svg_chip 360 105 210 60 "Rule memory";
              svg_chip 130 180 210 60 "Context stack";
              svg_chip 360 180 210 60 "Execution log";
              (txt "<rect x=`670` y=`85` width=`160` height=`190` rx=`26` ry=`26` fill=`none` stroke=`#16b879` stroke-width=`3`/>");
              (txt "<text x=`690` y=`115` text-anchor=`start` font-size=`13` fill=`#2f4a63` font-family=`Space Grotesk`>Retrieval</text>");
              svg_chip 690 130 120 55 "VSA";
              svg_chip 690 195 120 55 "Top-K";
              svg_arrow 630 170 670 170 svg_arrow_color;
              svg_legend 90 285
                ["VM is the authority via execution.";
                 "Retrieval proposes; VM validates.";
                 "Logs enable audit and debugging."]]);
      caption := "A compact VM core remains the authority; retrieval accelerates candidate selection without changing semantics.";
      sections :=
        [("Overview",
          "The VM is the system’s semantic core. It stores facts, rules, contexts, and traces and executes programs to construct state. Retrieval exists to reduce search cost by proposing candidates, but it does not decide what is true.");
         ("Minimalism and typing",
          "A small, typed instruction set reduces absurd combinations and branching blow-ups. The VM needs primitives for canonicalization, matching, branching, context management, and conflict checks. Typed slots and typed terms reduce combinatorial exploration and improve trace readability.");
         ("How retrieval interacts",
          "VSA provides similarity-driven shortlists of schemas and macro programs. These shortlists are inputs to search and compilation, not outputs of truth. Every retrieved candidate must be validated by execution and closure to preserve the correctness contract under noise and paraphrase variation.");
         ("Engineering benefits",
          "The explicit VM core makes it possible to unit test rules, regression test closure behavior, and audit decisions. Retrieval can be swapped or improved without changing semantics, because semantics are enforced by the VM and contract rather than by similarity ranking.")];
      references :=
        [("Symbolic execution (Wikipedia)",
          "https://en.wikipedia.org/wiki/Symbolic_execution");
         ("Vector symbolic architecture (Wikipedia)",
          "https://en.wikipedia.org/wiki/Vector_symbolic_architecture");
         ("Execution trace (Wikipedia)",
          "https://en.wikipedia.org/wiki/Trace_(software)")]
   |};
   {|
      slug := "consistency-contract";
      title := "Consistency contract and boundary behavior";
      kind := "theory";
      aria := "Diagram of budgets, closure, and response modes";
      svg :=
        svg_wrap "0 0 900 340" "Contract diagram"
          (String.concat nl
             [svg_chip 80 70 240 70 "Budgets";
              svg_chip 340 70 240 70 "Closure";
              svg_chip 600 70 240 70 "Emission rules";
              svg_arrow 320 105 340 105 svg_arrow_color;
              svg_arrow 580 105 600 105 svg_arrow_color;
              svg_chip 160 170 580 70 "Modes: strict, conditional, indeterminate";
              svg_arrow 470 140 470 170 "#0b6eff";
              svg_note 160 250 640 48 "The system reports what was checked, not just what it predicts.";
              svg_legend 80 295
                ["Budgets define exploration boundaries.";
                 "Emission depends on closure outcome.";
                 "Boundary behavior is explicit and repeatable."]]);
      caption := "The contract makes boundary behavior explicit by tying emission to budgeted closure and named response modes.";
      sections :=
        [("Overview",
          "The consistency contract defines what the system is allowed to emit and under what conditions. It formalizes budgets, closure behavior, and response modes. Without such a contract, the system cannot make honest claims about correctness.");
         ("Budgets and monotonicity",
          "Budgets include depth, branching, steps, and optionally time. These parameters define exploration coverage and therefore the strength of a conclusion. Increasing budget should not merely increase confidence; it should reveal more consequences and potentially uncover conflicts, making the system more honest rather than more fluent.");
         ("Response modes",
          "Strict mode emits only what remains consistent across explored branches. Conditional mode emits conclusions tied to explicit assumptions or branches. Indeterminate mode is returned when the system cannot justify a conclusion under the given budget. These modes are semantic commitments that prevent the system from pretending certainty.");
         ("Auditability",
          "The contract implies logs and metadata: budget used, branches explored, rules applied, and conflicts detected. This allows operational explanations and makes the system testable. It also provides a practical mechanism to debug where and why reasoning fails.")];
      references :=
        [("Consistency (Wikipedia)",
          "https://en.wikipedia.org/wiki/Consistency");
         ("Verification and validation (Wikipedia)",
          "https://en.wikipedia.org/wiki/Verification_and_validation");
         ("Non-monotonic logic (SEP)",
          "https://plato.stanford.edu/entries/logic-nonmonotonic/")]
   |};
   {|
      slug := "state-space-geometry";
      title := "State-space geometry and conceptual regions";
      kind := "theory";
      aria := "Diagram of VM states, transitions, and regions";
      svg :=
        svg_wrap "0 0 900 340" "State space diagram"
          (String.concat nl
             [(txt "<ellipse cx=`300` cy=`185` rx=`240` ry=`125` fill=`none` stroke=`#7fb3e6` stroke-width=`3`/>");
              (txt "<ellipse cx=`650` cy=`170` rx=`230` ry=`125` fill=`none` stroke=`#16b879` stroke-width=`3`/>");
              (txt "<text x=`300` y=`70` text-anchor=`middle` font-size=`12` fill=`#2f4a63` font-family=`Space Grotesk`>Region A (constraints)</text>");
              (txt "<text x=`650` y=`60` text-anchor=`middle` font-size=`12` fill=`#2f4a63` font-family=`Space Grotesk`>Region B (constraints)</text>");
              (txt "<circle cx=`240` cy=`185` r=`12` fill=`#0b6eff`/>");
              (txt "<circle cx=`360` cy=`220` r=`12` fill=`#0b6eff`/>");
              (txt "<circle cx=`610` cy=`170` r=`12` fill=`#16b879`/>");
              (txt "<circle cx=`715` cy=`205` r=`12` fill=`#16b879`/>");
              (txt "<line x1=`252` y1=`185` x2=`348` y2=`220` stroke=`url(#deep)` stroke-width=`4` stroke-linecap=`round`/>");
              (txt "<line x1=`372` y1=`220` x2=`598` y2=`170` stroke=`url(#deep)` stroke-width=`4` stroke-linecap=`round`/>");
              (txt "<line x1=`622` y1=`170` x2=`703` y2=`205` stroke=`url(#deep)` stroke-width=`4` stroke-linecap=`round`/>");
              (txt "<text x=`470` y=`155` text-anchor=`middle` font-size=`12` fill=`#2f4a63` font-family=`Space Grotesk`>instructions are transitions</text>");
              svg_legend 90 270
                ["Nodes are VM states.";
                 "Edges are instruction transitions.";
                 "Regions are conceptual constraints."]]);
      caption := "The relevant geometry is the VM state graph: concepts appear as regions stabilized by constraints, not as points in an embedding space.";
      sections :=
        [("Overview",
          "A geometric interpretation of VSAVM is best expressed in the VM state space. Each instruction is a state transition, and reasoning is a path through this graph under constraints. This makes thinking more equivalent to exploring more of the reachable neighborhood.");
         ("Concepts as regions",
          "A concept is not a single vector; it is a region of states that share invariants. For example, a contradiction is a region where opposing polarities for the same canonical fact identifier coexist in scope. A definition is a region where new identifiers and constraints are introduced with structural scope markers.");
         ("Two geometries",
          "VSA provides an auxiliary geometry of similarity over surface forms that accelerates retrieval. The VM provides the geometry of consequences and conflicts. Separating these prevents the system from equating resemblance with truth while still benefiting from fast candidate selection.");
         ("Budgets as resolution",
          "Budgets define exploration depth and breadth. Small budgets yield shallow checks; larger budgets reveal deeper consequences and more conflicts. This makes the system’s certainty a function of explored coverage rather than a stylistic tone.")];
      references :=
        [("Conceptual spaces (Wikipedia)",
          "https://en.wikipedia.org/wiki/Conceptual_spaces");
         ("State space (Wikipedia)",
          "https://en.wikipedia.org/wiki/State_space");
         ("Graph traversal (Wikipedia)",
          "https://en.wikipedia.org/wiki/Graph_traversal")]
   |};
   {|
      slug := "federated-modules";
      title := "Federated growth of modules";
      kind := "theory";
      aria := "Diagram of clients aggregating artifacts into a shared library";
      svg :=
        svg_wrap "0 0 900 340" "Federation diagram"
          (String.concat nl
             [svg_chip 90 70 200 60 "Client A";
              svg_chip 90 150 200 60 "Client B";
              svg_chip 90 230 200 60 "Client C";
              svg_chip 360 140 240 80 "Aggregation";
              svg_chip 650 120 200 80 "Shared library";
              svg_chip 650 215 200 80 "Health checks";
              svg_arrow 290 100 360 180 svg_arrow_color;
              svg_arrow 290 180 360 180 svg_arrow_color;
              svg_arrow 290 260 360 180 svg_arrow_color;
              svg_arrow 600 180 650 160 svg_arrow_color;
              svg_arrow 750 200 750 215 "#0b6eff";
              svg_legend 360 285
                ["Share artifacts, not raw data.";
                 "Validate rules before promotion.";
                 "Keep the consistency contract global."]]);
      caption := "Federation shares discrete artifacts such as counts and prototypes and uses health checks to prevent polluted rule libraries.";
      sections :=
        [("Overview",
          "Federation becomes practical when what is learned is modular. VSAVM learns discrete objects such as macro programs, schemas, and prototypes that can be shared as artifacts rather than as opaque parameter deltas. This supports incremental growth without exposing raw corpora.");
         ("What is shared",
          "Clients can share filtered discrete statistics, VSA prototypes, and macro-program metadata such as utility and conflict rate. Hypervectors themselves can be deterministic and therefore need not be transmitted. Prototypes and rule candidates can be merged and deduplicated at the artifact level.");
         ("Governance and safety",
          "A wrong rule can pollute the global library. VSAVM mitigates this by requiring the same consistency contract as an admission gate: candidate rules and macros must pass health checks that detect contradiction explosion or uncontrolled branching. This resembles unit testing for learned rules.");
         ("Why modularity helps engineering",
          "Artifacts can be versioned, rolled back, and scoped. Domain-specific libraries can be maintained separately. This is easier than interpreting dense gradient updates and enables more transparent governance for research deployments.")];
      references :=
        [("Federated learning (Wikipedia)",
          "https://en.wikipedia.org/wiki/Federated_learning");
         ("Differential privacy (Wikipedia)",
          "https://en.wikipedia.org/wiki/Differential_privacy");
         ("Knowledge base (Wikipedia)",
          "https://en.wikipedia.org/wiki/Knowledge_base")]
   |};
   {|
      slug := "trust-and-transparency";
      title := "Trust and transparency";
      kind := "theory";
      aria := "Diagram of trace, checks, and disclosure";
      svg :=
        svg_wrap "0 0 900 320" "Trust diagram"
          (String.concat nl
             [svg_chip 90 70 240 70 "Execution trace";
              svg_chip 350 70 240 70 "Consistency checks";
              svg_chip 610 70 200 70 "Disclosure";
              svg_arrow 330 105 350 105 svg_arrow_color;
              svg_arrow 590 105 610 105 svg_arrow_color;
              svg_chip 210 170 520 70 "User-visible: budgets, branches, conflicts, mode";
              svg_arrow 470 140 470 170 "#0b6eff";
              svg_legend 90 255
                ["Trust is operational, not rhetorical.";
                 "Expose what was explored under budget.";
                 "Separate robust from conditional claims."]]);
      caption := "Trust is earned by tying outputs to traces and checks and by disclosing budget and mode rather than projecting confidence.";
      sections :=
        [("Overview",
          "Trustworthy behavior is achieved by changing what the system is allowed to emit. VSAVM does not aim to be cautious by tone; it aims to be constrained by computation. If a claim cannot be justified under closure, it must not be stated as robust.");
         ("Reducing hallucinations",
          "Hallucinations are often failures of emission discipline. VSAVM prevents this by requiring that factual sentences correspond to canonical facts or explicit derivations. The surface realizer can explain what happened, but it cannot introduce new claims beyond VM state and trace.");
         ("Explainability as audit",
          "Explanations are operational. The system can report the budget used, the number of explored branches, the rules applied, and any conflicts detected. This avoids post-hoc narratives that sound plausible but are not connected to the actual computation.");
         ("Limits and honest uncertainty",
          "Bounded closure is incomplete by design. The promise is not absolute truth; it is honesty about what was checked. When budget is insufficient, VSAVM degrades to conditional or indeterminate outputs and can suggest increasing budget if the user wants stronger guarantees.")];
      references :=
        [("Explainable AI (Wikipedia)",
          "https://en.wikipedia.org/wiki/Explainable_artificial_intelligence");
         ("Verification and validation (Wikipedia)",
          "https://en.wikipedia.org/wiki/Verification_and_validation");
         ("AI alignment (Wikipedia)",
          "https://en.wikipedia.org/wiki/AI_alignment")]
   |}
  ].

(** The local constructor [wiki] of [build_wiki_pages]. *)
Definition wiki (slug title aria svg caption definition role mechanics further : string)
    (references : list (string * string)) : Page :=
  {| slug := slug;
     title := title;
     kind := "wiki";
     aria := aria;
     svg := svg;
     caption := caption;
     sections :=
       [("Definition", definition);
        ("Role in VSAVM", role);
        ("Mechanics and implications", mechanics);
        ("Further reading", further)];
     references := references |}.

Definition build_wiki_pages : list Page :=
  [(wiki
     (* slug *) "vm"
     (* title *) "Virtual Machine (VM)"
     (* aria *) "Diagram of VM components: facts, rules, contexts, trace"
     (* svg *) (svg_wrap "0 0 900 320" "VM diagram"
         (String.concat nl
            [(txt "<rect x=`90` y=`55` width=`720` height=`205` rx=`26` ry=`26` fill=`none` stroke=`#0b6eff` stroke-width=`3`/>");
             (txt "<text x=`120` y=`85` text-anchor=`start` font-size=`13` fill=`#2f4a63` font-family=`Space Grotesk`>VM state</text>");
             svg_chip 130 105 210 60 "Fact store";
             svg_chip 360 105 210 60 "Rule library";
             svg_chip 590 105 180 60 "Contexts";
             svg_chip 130 180 300 60 "Typed bindings";
             svg_chip 450 180 320 60 "Execution trace";
             svg_legend 90 270
               ["State is explicit and inspectable.";
                "Instructions transform state.";
                "Trace supports audit and debugging."]]))
     (* caption *) "The VM is the executable core that makes reasoning explicit through state and trace."
     (* definition *) "A virtual machine is an abstract execution engine that runs programs over a defined state. In VSAVM, the VM is the concrete core that holds canonical facts, applies rules, and records execution traces."
     (* role *) "The VM provides the state that conditions generation and enforces the consistency contract by running bounded closure and detecting conflicts. It is the authority: retrieval proposes candidates, but the VM decides acceptability via execution."
     (* mechanics *) "Because the VM state is discrete, VSAVM can attach stable identifiers to claims and scope. This allows deterministic conflict checks, repeatable boundary behavior, and operational explanations derived from traces instead of from post-hoc narratives."
     (* further *) "Virtual machines and symbolic execution provide foundational ideas for explicit state transitions and branching exploration. VSAVM adapts these ideas for reasoning under budgets and scope."
     (* references *) ([("Virtual machine (Wikipedia)",
         "https://en.wikipedia.org/wiki/Virtual_machine");
        ("Symbolic execution (Wikipedia)",
         "https://en.wikipedia.org/wiki/Symbolic_execution");
        ("Trace (software) (Wikipedia)",
         "https://en.wikipedia.org/wiki/Trace_(software)")]));
   (wiki
     (* slug *) "vsa"
     (* title *) "Vector Symbolic Architecture (VSA)"
     (* aria *) "Diagram of VSA similarity shortlist feeding VM validation"
     (* svg *) (svg_wrap "0 0 900 320" "VSA diagram"
         (String.concat nl
            [svg_chip 90 70 240 70 "Hypervectors";
             svg_chip 350 70 240 70 "Similarity (top-K)";
             svg_chip 610 70 200 70 "Candidates";
             svg_arrow 330 105 350 105 svg_arrow_color;
             svg_arrow 590 105 610 105 svg_arrow_color;
             svg_chip 220 170 520 70 "Validate by execution + bounded closure";
             svg_arrow 710 140 560 170 "#0b6eff";
             svg_legend 90 255
               ["Similarity is not truth.";
                "Top-K bounds the search surface.";
                "VM remains the authority."]]))
     (* caption *) "VSA accelerates retrieval; the VM validates candidates under the consistency contract."
     (* definition *) "Vector Symbolic Architecture represents symbols as high-dimensional vectors and supports operations such as binding and bundling. It functions as an associative index for fast retrieval and clustering."
     (* role *) "VSA reduces combinatorial search by shortlisting schemas and macro programs similar to a given span. It guides what the system explores under budget without deciding truth."
     (* mechanics *) "VSAVM treats VSA output as proposals. Candidates are executed in the VM and checked under bounded closure. This separation preserves correctness: similarity accelerates search, but execution determines acceptability."
     (* further *) "Hyperdimensional computing and VSA surveys provide background on why high-dimensional representations support robust associative behavior. In VSAVM, these methods are used as search accelerators rather than as semantic authorities."
     (* references *) ([("Vector symbolic architecture (Wikipedia)",
         "https://en.wikipedia.org/wiki/Vector_symbolic_architecture");
        ("Hyperdimensional computing (Wikipedia)",
         "https://en.wikipedia.org/wiki/Hyperdimensional_computing");
        ("Nearest neighbor search (Wikipedia)",
         "https://en.wikipedia.org/wiki/Nearest_neighbor_search")]));
   (wiki
     (* slug *) "event-stream"
     (* title *) "Event stream"
     (* aria *) "Diagram of typed events, payload, and context"
     (* svg *) (svg_wrap "0 0 900 320" "Event stream diagram"
         (String.concat nl
            [svg_chip 90 70 240 70 "Typed events";
             svg_chip 350 70 240 70 "Discrete payload";
             svg_chip 610 70 240 70 "Context path";
             svg_arrow 330 105 350 105 svg_arrow_color;
             svg_arrow 590 105 610 105 svg_arrow_color;
             svg_chip 210 170 540 70 "Separators define scope for closure";
             svg_arrow 480 140 480 170 "#0b6eff";
             svg_legend 90 255
               ["One substrate for all modalities.";
                "Context encodes scope.";
                "Scope enables contradiction checks."]]))
     (* caption *) "The event stream is the canonical, scoped input substrate for VSAVM."
     (* definition *) "An event stream is an ordered sequence of typed, discrete events. In VSAVM, each event includes a payload and a structural context path that preserves scope and boundaries."
     (* role *) "The event stream unifies text and multimodal inputs so that the VM and bounded closure operate on a single representation. It is the foundation for schema discovery, program compilation, and scope-aware conflict detection."
     (* mechanics *) "Structural separators are explicit events that delimit where a fact applies. By keeping structure in the representation, the system can maintain local theories and avoid global inconsistency while still enforcing correctness within scope."
     (* further *) "Event stream processing is a broad topic. VSAVM uses the term in a representational sense: explicit structure and discrete units that support deterministic parsing and auditing."
     (* references *) ([("Event stream processing (Wikipedia)",
         "https://en.wikipedia.org/wiki/Event_stream_processing");
        ("Tokenization (Wikipedia)",
         "https://en.wikipedia.org/wiki/Tokenization_(lexical_analysis)");
        ("Scope (computer science) (Wikipedia)",
         "https://en.wikipedia.org/wiki/Scope_(computer_science)")]));
   (wiki
     (* slug *) "bounded-closure"
     (* title *) "Bounded closure"
     (* aria *) "Diagram of closure under budget and conflict checks"
     (* svg *) (svg_wrap "0 0 900 340" "Bounded closure diagram"
         (String.concat nl
            [svg_chip 80 70 240 70 "Facts + rules";
             svg_chip 340 70 240 70 "Derive consequences";
             svg_chip 600 70 240 70 "Check conflicts";
             svg_arrow 320 105 340 105 svg_arrow_color;
             svg_arrow 580 105 600 105 svg_arrow_color;
             svg_chip 180 170 540 70 "Budget: depth, branching, steps, time";
             svg_arrow 480 140 480 170 "#0b6eff";
             svg_legend 80 255
               ["Closure is transitive but bounded.";
                "Scope makes conflicts meaningful.";
                "Budget defines claim strength."]]))
     (* caption *) "Bounded closure explores consequences under explicit limits and gates what the system may claim."
     (* definition *) "Bounded closure is a controlled approximation of transitive closure. It derives consequences of rules and executions only up to explicit limits such as depth, branching, step count, or time."
     (* role *) "Bounded closure is the enforcement mechanism behind VSAVM correctness. It rejects candidates that introduce contradictions within scope and determines whether a conclusion is robust, conditional, or indeterminate under the current budget."
     (* mechanics *) "Closure requires canonical facts and explicit negation. Conflicts are detected when the same canonical fact identifier appears with opposing polarity in the same scope. Budgets make the exploration boundary explicit and auditable."
     (* further *) "Bounded closure connects to search, verification, and model checking. VSAVM uses closure as a budgeted gate that turns correctness into an operational property."
     (* references *) ([("Transitive closure (Wikipedia)",
         "https://en.wikipedia.org/wiki/Transitive_closure");
        ("Consistency (Wikipedia)",
         "https://en.wikipedia.org/wiki/Consistency");
        ("Verification and validation (Wikipedia)",
         "https://en.wikipedia.org/wiki/Verification_and_validation")]));
   (wiki
     (* slug *) "beam-search"
     (* title *) "Beam search"
     (* aria *) "Diagram of keeping top-K branches"
     (* svg *) (svg_wrap "0 0 900 320" "Beam search diagram"
         (String.concat nl
            [svg_chip 90 80 200 60 "Root";
             svg_chip 330 55 240 55 "Branch 1";
             svg_chip 330 130 240 55 "Branch 2";
             svg_chip 330 205 240 55 "Branch 3";
             svg_chip 610 130 240 65 "Keep top-K";
             svg_arrow 290 110 330 82 svg_arrow_color;
             svg_arrow 290 110 330 157 svg_arrow_color;
             svg_arrow 290 110 330 232 svg_arrow_color;
             svg_arrow 570 157 610 162 svg_arrow_color;
             svg_legend 90 265
               ["Beam width is a budget parameter.";
                "Keeps multiple hypotheses alive.";
                "Balances cost and coverage."]]))
     (* caption *) "Beam search maintains multiple candidate branches while keeping computation bounded."
     (* definition *) "Beam search keeps only a fixed number of best candidates at each step, providing a practical compromise between exhaustive search and greedy choice."
     (* role *) "VSAVM uses beam-like strategies for query compilation and for closure exploration. Beams make ambiguity explicit and allow the system to prune candidates that conflict under closure."
     (* mechanics *) "Beam width impacts the strength of conclusions. A narrow beam can miss conflicting branches; a wider beam improves coverage but increases cost. VSAVM ties robustness to the budget and can downgrade to conditional outputs when coverage is limited."
     (* further *) "Beam search is widely used in sequence decoding and heuristic search. In VSAVM, beam scoring incorporates both predictive fit and consistency penalties."
     (* references *) ([("Beam search (Wikipedia)",
         "https://en.wikipedia.org/wiki/Beam_search");
        ("Heuristic (Wikipedia)",
         "https://en.wikipedia.org/wiki/Heuristic");
        ("Best-first search (Wikipedia)",
         "https://en.wikipedia.org/wiki/Best-first_search")]));
   (wiki
     (* slug *) "mdl"
     (* title *) "Minimum Description Length (MDL)"
     (* aria *) "Diagram of balancing fit and complexity"
     (* svg *) (svg_wrap "0 0 900 320" "MDL diagram"
         (String.concat nl
            [svg_chip 120 90 260 70 "Data fit";
             svg_chip 520 90 260 70 "Complexity";
             (txt "<line x1=`450` y1=`80` x2=`450` y2=`235` stroke=`#0b6eff` stroke-width=`4` stroke-linecap=`round`/>");
             (txt "<text x=`450` y=`70` text-anchor=`middle` font-size=`12` fill=`#2f4a63` font-family=`Space Grotesk`>balance</text>");
             svg_chip 270 185 360 70 "Promote compact programs that still explain";
             svg_legend 120 265
               ["Bias toward reusable structure.";
                "Penalize brittle special cases.";
                "Supports macro consolidation."]]))
     (* caption *) "MDL favors compact executable structure that still explains data, supporting stable macro programs."
     (* definition *) "MDL is a model selection principle that prefers hypotheses minimizing combined description length of model plus data given model. It formalizes the intuition that good structure compresses."
     (* role *) "VSAVM uses MDL as pressure for discovering and consolidating compact executable programs. If a reasoning move compresses repeated patterns, it becomes a candidate for macro promotion."
     (* mechanics *) "MDL acts as a complexity guardrail. Without it, the system may proliferate brittle rules that fit locally but explode branching or create contradictions elsewhere. Combined with closure checks, MDL helps keep the program library stable and reusable."
     (* further *) "The MDL literature connects compression and inference. VSAVM borrows the principle to prioritize programmatic explanations that are both short and consistent under closure."
     (* references *) ([("Minimum description length (Wikipedia)",
         "https://en.wikipedia.org/wiki/Minimum_description_length");
        ("The MDL Book (Grünwald)",
         "https://www.grunwald.nl/mdlbook/");
        ("Occam's razor (Wikipedia)",
         "https://en.wikipedia.org/wiki/Occam%27s_razor")]));
   (wiki
     (* slug *) "rl"
     (* title *) "Reinforcement Learning (RL)"
     (* aria *) "Diagram of action, feedback, and preference update"
     (* svg *) (svg_wrap "0 0 900 320" "RL diagram"
         (String.concat nl
            [svg_chip 90 70 240 70 "Choose";
             svg_chip 350 70 240 70 "Feedback";
             svg_chip 610 70 240 70 "Update";
             svg_arrow 330 105 350 105 svg_arrow_color;
             svg_arrow 590 105 610 105 svg_arrow_color;
             svg_chip 210 170 520 70 "Penalty when closure finds contradictions";
             svg_arrow 470 140 470 170 "#0b6eff";
             svg_legend 90 255
               ["Used as shaping in VSAVM.";
                "Acts on program choices, not tokens.";
                "Consistency provides key signals."]]))
     (* caption *) "RL supplies shaping signals that bias high-level choices toward stable candidates."
     (* definition *) "Reinforcement learning learns preferences over actions using feedback signals such as rewards and penalties."
     (* role *) "VSAVM uses RL as shaping when multiple plausible candidates exist. The goal is to select interpretations and response modes that remain stable under bounded closure, not to optimize token-by-token behavior."
     (* mechanics *) "The action space is coarse: choose a schema, choose a macro program, choose a response mode. Closure-derived contradictions provide negative signals that discourage unstable choices. RL complements, but does not replace, explicit closure gating."
     (* further *) "RL is a broad area. VSAVM’s practical use is closer to bandit-like shaping than to full on-policy token-level control."
     (* references *) ([("Reinforcement learning (Wikipedia)",
         "https://en.wikipedia.org/wiki/Reinforcement_learning");
        ("Sutton & Barto (book)",
         "http://incompleteideas.net/book/the-book-2nd.html");
        ("Multi-armed bandit (Wikipedia)",
         "https://en.wikipedia.org/wiki/Multi-armed_bandit")]));
   (wiki
     (* slug *) "schema"
     (* title *) "Schema"
     (* aria *) "Diagram of schema frame with slots and bindings"
     (* svg *) (svg_wrap "0 0 900 320" "Schema diagram"
         (String.concat nl
            [(txt "<rect x=`120` y=`70` width=`660` height=`180` rx=`26` ry=`26` fill=`none` stroke=`#0b6eff` stroke-width=`3`/>");
             (txt "<text x=`150` y=`100` text-anchor=`start` font-size=`13` fill=`#2f4a63` font-family=`Space Grotesk`>Schema frame</text>");
             svg_chip 160 125 240 55 "Intent";
             svg_chip 420 125 320 55 "Typed slots";
             svg_chip 160 195 240 55 "Bindings";
             svg_chip 420 195 320 55 "Program skeleton";
             svg_legend 120 265
               ["Frames structure repeated intents.";
                "Slots are filled discretely.";
                "Skeletons become executable programs."]]))
     (* caption *) "Schemas map paraphrases into structured frames that compile into executable programs."
     (* definition *) "A schema is a structured representation of a recurring intent, often expressed as a frame with slots to be filled."
     (* role *) "Schemas are the bridge between language and execution. They constrain compilation and generation by defining what roles exist, what types are allowed, and how a surface span maps to program structure."
     (* mechanics *) "Typed slots reduce branching and improve auditability. The system can log which span filled which slot and which assumptions were required. VSA can help retrieve candidate schemas, but final bindings must be validated by execution and closure checks."
     (* further *) "Schemas appear in cognitive science and linguistics; VSAVM uses them as an engineering abstraction that supports compilation and verification."
     (* references *) ([("Schema (Wikipedia)",
         "https://en.wikipedia.org/wiki/Schema_(psychology)");
        ("Frame semantics (Wikipedia)",
         "https://en.wikipedia.org/wiki/Frame_semantics");
        ("Program synthesis (Wikipedia)",
         "https://en.wikipedia.org/wiki/Program_synthesis")]));
   (wiki
     (* slug *) "macro-program"
     (* title *) "Macro program"
     (* aria *) "Diagram of consolidating steps into a macro"
     (* svg *) (svg_wrap "0 0 900 320" "Macro program diagram"
         (String.concat nl
            [svg_chip 120 80 190 60 "Step 1";
             svg_chip 330 80 190 60 "Step 2";
             svg_chip 540 80 190 60 "Step 3";
             svg_arrow 310 110 330 110 svg_arrow_color;
             svg_arrow 520 110 540 110 svg_arrow_color;
             svg_chip 300 185 300 70 "Macro program";
             (txt "<path d=`M 215 140 C 260 170, 310 190, 350 205` fill=`none` stroke=`#0b6eff` stroke-width=`4` stroke-linecap=`round`/>");
             (txt "<path d=`M 425 140 C 430 165, 430 185, 450 205` fill=`none` stroke=`#0b6eff` stroke-width=`4` stroke-linecap=`round`/>");
             (txt "<path d=`M 635 140 C 590 170, 555 190, 550 205` fill=`none` stroke=`#0b6eff` stroke-width=`4` stroke-linecap=`round`/>");
             svg_legend 120 265
               ["Macros compress repeated routines.";
                "Promoted after stable success.";
                "Reduce search and cost."]]))
     (* caption *) "Macro programs compress repeated multi-step routines into reusable executable blocks."
     (* definition *) "A macro program is a consolidated instruction sequence treated as a reusable unit."
     (* role *) "Macro programs reduce the need for repeated program search. They represent stabilized reasoning moves that can be invoked efficiently and audited as single units."
     (* mechanics *) "Promotion should be constrained by MDL-style compression and by closure-based health checks. A macro that predicts well but causes contradictions or branching blow-ups should be demoted or scoped."
     (* further *) "Macros and abstraction are common in programming; VSAVM uses macro programs as explicit reusable reasoning primitives rather than implicit latent features."
     (* references *) ([("Abstraction (Wikipedia)",
         "https://en.wikipedia.org/wiki/Abstraction_(computer_science)");
        ("Program synthesis (Wikipedia)",
         "https://en.wikipedia.org/wiki/Program_synthesis");
        ("Minimum description length (Wikipedia)",
         "https://en.wikipedia.org/wiki/Minimum_description_length")]));
   (wiki
     (* slug *) "macro-token"
     (* title *) "Macro token"
     (* aria *) "Diagram of reversible compression from tokens to macro unit"
     (* svg *) (svg_wrap "0 0 900 320" "Macro token diagram"
         (String.concat nl
            [svg_chip 90 70 240 70 "Tokens";
             svg_chip 350 70 240 70 "Compression";
             svg_chip 610 70 240 70 "Macro token";
             svg_arrow 330 105 350 105 svg_arrow_color;
             svg_arrow 590 105 610 105 svg_arrow_color;
             svg_chip 210 170 520 70 "Invariant: deterministic expansion to tokens";
             svg_arrow 470 140 470 170 "#0b6eff";
             svg_legend 90 255
               ["Reduces entropy at phrase level.";
                "Must be reversible for audit.";
                "Supports stable scoring and decoding."]]))
     (* caption *) "Macro tokens compress recurring patterns while preserving deterministic expansion for evaluation and decoding."
     (* definition *) "A macro token is a compressed phrase-level unit derived from repeated token sequences."
     (* role *) "Macro tokens help stabilize next-phrase prediction and reduce search cost. They can also become anchors for schema discovery by turning repeated patterns into stable discrete units."
     (* mechanics *) "Reversibility is mandatory. If expansion is ambiguous, scoring becomes inconsistent and the system cannot maintain traceability. VSAVM treats deterministic expansion as a hard constraint to preserve correctness."
     (* further *) "Macro units relate to tokenization and compression. VSAVM’s emphasis is on reversibility and auditability under the consistency contract."
     (* references *) ([("Tokenization (Wikipedia)",
         "https://en.wikipedia.org/wiki/Tokenization_(lexical_analysis)");
        ("Data compression (Wikipedia)",
         "https://en.wikipedia.org/wiki/Data_compression");
        ("Minimum description length (Wikipedia)",
         "https://en.wikipedia.org/wiki/Minimum_description_length")]));
   (wiki
     (* slug *) "fact-store"
     (* title *) "Fact store"
     (* aria *) "Diagram of canonical fact_id, polarity, and scope"
     (* svg *) (svg_wrap "0 0 900 340" "Fact store diagram"
         (String.concat nl
            [svg_chip 90 70 240 70 "fact_id";
             svg_chip 350 70 240 70 "polarity";
             svg_chip 610 70 240 70 "scope";
             svg_arrow 330 105 350 105 svg_arrow_color;
             svg_arrow 590 105 610 105 svg_arrow_color;
             svg_chip 180 170 540 70 "Conflict if same fact_id has opposing polarity in same scope";
             svg_arrow 480 140 480 170 "#0b6eff";
             svg_legend 90 255
               ["Canonicalization enables comparison.";
                "Scope prevents global collapse.";
                "Used by closure and audit."]]))
     (* caption *) "The fact store holds canonical claims with explicit polarity and scope to make contradiction checks computable."
     (* definition *) "A fact store is a structured memory of assertions. In VSAVM it stores canonical fact identifiers alongside polarity and scope metadata."
     (* role *) "The fact store is the substrate for closure and conflict detection. It is where derived facts are accumulated and where contradictions are detected during bounded closure."
     (* mechanics *) "The key invariants are canonical identifiers, explicit negation via polarity, and explicit scope derived from structural boundaries. These make conflict detection robust to paraphrases and meaningful under localized contexts."
     (* further *) "Fact stores are related to knowledge bases; VSAVM’s emphasis is on canonical IDs and scope-aware closure rather than on open-world accumulation."
     (* references *) ([("Knowledge base (Wikipedia)",
         "https://en.wikipedia.org/wiki/Knowledge_base");
        ("Consistency (Wikipedia)",
         "https://en.wikipedia.org/wiki/Consistency");
        ("Context (computing) (Wikipedia)",
         "https://en.wikipedia.org/wiki/Context_(computing)")]));
   (wiki
     (* slug *) "fact-id"
     (* title *) "Fact identifier"
     (* aria *) "Diagram of surface forms mapping to canonical ID"
     (* svg *) (svg_wrap "0 0 900 320" "Fact identifier diagram"
         (String.concat nl
            [svg_chip 90 85 280 65 "Surface A";
             svg_chip 90 170 280 65 "Surface B";
             svg_chip 450 125 360 80 "Canonical fact_id";
             svg_arrow 370 118 450 165 svg_arrow_color;
             svg_arrow 370 202 450 165 svg_arrow_color;
             svg_legend 90 255
               ["Equivalence becomes explicit.";
                "Contradictions become computable.";
                "Supports conditional assumptions."]]))
     (* caption *) "Canonical identifiers turn paraphrase variation into a stable unit for closure and contradiction checks."
     (* definition *) "A fact identifier is the internal canonical key for an assertion."
     (* role *) "Fact identifiers enable reliable conflict detection: a contradiction is opposing polarity for the same identifier inside scope. They also provide stable handles for assumptions and trace references."
     (* mechanics *) "Schemas and canonicalization map surface forms into internal structures. VSA can propose mappings by similarity, but the final mapping must be validated by execution and consistency constraints to preserve the contract."
     (* further *) "Canonicalization and normal forms underpin the engineering practice of making equivalence explicit. VSAVM depends on this to make correctness computable under paraphrase variation."
     (* references *) ([("Identifier (Wikipedia)",
         "https://en.wikipedia.org/wiki/Identifier");
        ("Canonicalization (Wikipedia)",
         "https://en.wikipedia.org/wiki/Canonicalization");
        ("Normal form (Wikipedia)",
         "https://en.wikipedia.org/wiki/Normal_form")]));
   (wiki
     (* slug *) "hypervector"
     (* title *) "Hypervector"
     (* aria *) "Diagram of deterministic seed to hypervector pipeline"
     (* svg *) (svg_wrap "0 0 900 320" "Hypervector diagram"
         (String.concat nl
            [svg_chip 110 90 240 70 "Stable seed";
             svg_chip 370 90 240 70 "Hash";
             svg_chip 630 90 240 70 "Hypervector";
             svg_arrow 350 125 370 125 svg_arrow_color;
             svg_arrow 610 125 630 125 svg_arrow_color;
             svg_chip 210 190 520 70 "Used for similarity, binding, bundling";
             svg_arrow 540 160 500 190 "#0b6eff";
             svg_legend 110 265
               ["Deterministic keys support reproducibility.";
                "Operations build structured prototypes.";
                "Similarity accelerates search."]]))
     (* caption *) "Hypervectors are deterministic high-dimensional keys used for associative retrieval and structured operations in VSA."
     (* definition *) "A hypervector is a high-dimensional vector used to represent a symbol in hyperdimensional computing and VSA."
     (* role *) "In VSAVM, hypervectors serve as stable keys for retrieval and clustering. They accelerate schema discovery and candidate selection without defining truth."
     (* mechanics *) "Hypervectors are generated deterministically from stable hashes, enabling reproducibility. Binding and bundling operations build structured composites and prototypes. Retrieved candidates are validated by the VM under bounded closure."
     (* further *) "Hyperdimensional computing provides background on why random-like high-dimensional vectors support robust associative behavior. VSAVM uses these ideas for indexing and search acceleration."
     (* references *) ([("Hyperdimensional computing (Wikipedia)",
         "https://en.wikipedia.org/wiki/Hyperdimensional_computing");
        ("Hash function (Wikipedia)",
         "https://en.wikipedia.org/wiki/Hash_function");
        ("Vector symbolic architecture (Wikipedia)",
         "https://en.wikipedia.org/wiki/Vector_symbolic_architecture")]));
   (wiki
     (* slug *) "binding"
     (* title *) "Binding"
     (* aria *) "Diagram of role and filler bound into composite"
     (* svg *) (svg_wrap "0 0 900 320" "Binding diagram"
         (String.concat nl
            [svg_chip 140 100 260 70 "Role";
             svg_chip 500 100 260 70 "Filler";
             svg_chip 320 200 260 70 "Bound composite";
             svg_arrow 320 135 370 200 "#0b6eff";
             svg_arrow 630 135 520 200 "#0b6eff";
             svg_legend 140 275
               ["Encodes relational structure.";
                "Used for slot-role representations.";
                "Improves structured retrieval."]]))
     (* caption *) "Binding introduces relational structure into VSA representations, enabling slot-aware retrieval."
     (* definition *) "Binding is a VSA operation that combines two vectors into a structured composite representation."
     (* role *) "VSAVM can use binding to represent typed slot assignments and relations in schema prototypes and span representations."
     (* mechanics *) "Binding prevents the collapse of structure into bag-of-words similarity. It helps distinguish which value fills which role, supporting compilation into executable programs with explicit bindings."
     (* further *) "Different VSA variants implement binding differently, but the intent is consistent: bind roles to fillers to preserve structure in a distributed representation."
     (* references *) ([("Vector symbolic architecture (Wikipedia)",
         "https://en.wikipedia.org/wiki/Vector_symbolic_architecture");
        ("Hyperdimensional computing (Wikipedia)",
         "https://en.wikipedia.org/wiki/Hyperdimensional_computing");
        ("Holographic reduced representation (Wikipedia)",
         "https://en.wikipedia.org/wiki/Holographic_reduced_representation")]));
   (wiki
     (* slug *) "bundling"
     (* title *) "Bundling"
     (* aria *) "Diagram of aggregating multiple vectors into a prototype"
     (* svg *) (svg_wrap "0 0 900 320" "Bundling diagram"
         (String.concat nl
            [svg_chip 130 90 200 60 "A";
             svg_chip 350 90 200 60 "B";
             svg_chip 570 90 200 60 "C";
             svg_chip 350 200 220 70 "Prototype";
             (txt "<path d=`M 230 150 C 285 180, 330 195, 360 215` fill=`none` stroke=`#0b6eff` stroke-width=`4` stroke-linecap=`round`/>");
             (txt "<path d=`M 450 150 C 440 175, 435 195, 435 215` fill=`none` stroke=`#0b6eff` stroke-width=`4` stroke-linecap=`round`/>");
             (txt "<path d=`M 670 150 C 610 180, 570 195, 560 215` fill=`none` stroke=`#0b6eff` stroke-width=`4` stroke-linecap=`round`/>");
             svg_legend 130 275
               ["Aggregates evidence across instances.";
                "Builds paraphrase and schema prototypes.";
                "Supports federated merging."]]))
     (* caption *) "Bundling aggregates multiple vectors into a prototype representation used for clustering and schema prototypes."
     (* definition *) "Bundling is a VSA operation that aggregates multiple vectors into a prototype that captures shared structure."
     (* role *) "VSAVM uses bundling to form prototypes for schemas and macro programs and to cluster paraphrases under a shared representation."
     (* mechanics *) "Bundling is compatible with federation: prototypes can be merged across clients by further bundling. Bundled candidates remain proposals; the VM validates conclusions through execution and closure checks."
     (* further *) "Bundling is one of the simplest VSA operations and is valuable for robust prototypes that tolerate noise and partial overlap."
     (* references *) ([("Vector symbolic architecture (Wikipedia)",
         "https://en.wikipedia.org/wiki/Vector_symbolic_architecture");
        ("Hyperdimensional computing (Wikipedia)",
         "https://en.wikipedia.org/wiki/Hyperdimensional_computing");
        ("Federated learning (Wikipedia)",
         "https://en.wikipedia.org/wiki/Federated_learning")]));
   (wiki
     (* slug *) "canonicalization"
     (* title *) "Canonicalization"
     (* aria *) "Diagram of surface to canonical mapping"
     (* svg *) (svg_wrap "0 0 900 320" "Canonicalization diagram"
         (String.concat nl
            [svg_chip 90 90 280 70 "Surface";
             svg_chip 390 90 200 70 "Normalize";
             svg_chip 610 90 240 70 "Canonical";
             svg_arrow 370 125 390 125 svg_arrow_color;
             svg_arrow 590 125 610 125 svg_arrow_color;
             svg_chip 210 190 520 70 "Enables: closure, equality, conflicts";
             svg_arrow 520 160 480 190 "#0b6eff";
             svg_legend 90 265
               ["Canonical form is the unit of checks.";
                "Paraphrases map to stable IDs.";
                "Required for correctness under closure."]]))
     (* caption *) "Canonicalization aligns diverse surface forms into stable internal representations used by closure and conflict detection."
     (* definition *) "Canonicalization maps multiple representations into a single normalized form so equivalence and comparison are well-defined."
     (* role *) "VSAVM relies on canonicalization to detect contradictions across paraphrases. Without canonical identifiers, closure cannot reliably detect that two wordings refer to the same claim."
     (* mechanics *) "Canonicalization is guided by schemas and may be accelerated by VSA suggestions, but it must remain deterministic and validated. Canonicalization produces fact identifiers with explicit polarity and scope so contradictions are computable."
     (* further *) "Canonicalization is closely related to normal forms. VSAVM uses it as a core correctness mechanism, not a presentation detail."
     (* references *) ([("Canonicalization (Wikipedia)",
         "https://en.wikipedia.org/wiki/Canonicalization");
        ("Normal form (Wikipedia)",
         "https://en.wikipedia.org/wiki/Normal_form");
        ("Consistency (Wikipedia)",
         "https://en.wikipedia.org/wiki/Consistency")]));
   (wiki
     (* slug *) "context-scope"
     (* title *) "Context and scope"
     (* aria *) "Diagram of nested scope boundaries"
     (* svg *) (svg_wrap "0 0 900 320" "Scope diagram"
         (String.concat nl
            [(txt "<rect x=`120` y=`75` width=`660` height=`190` rx=`26` ry=`26` fill=`none` stroke=`#7fb3e6` stroke-width=`3`/>");
             (txt "<text x=`150` y=`105` text-anchor=`start` font-size=`13` fill=`#2f4a63` font-family=`Space Grotesk`>Document</text>");
             (txt "<rect x=`190` y=`120` width=`520` height=`135` rx=`24` ry=`24` fill=`none` stroke=`#0b6eff` stroke-width=`3`/>");
             (txt "<text x=`220` y=`150` text-anchor=`start` font-size=`13` fill=`#2f4a63` font-family=`Space Grotesk`>Section</text>");
             (txt "<rect x=`270` y=`160` width=`360` height=`75` rx=`20` ry=`20` fill=`none` stroke=`#16b879` stroke-width=`3`/>");
             (txt "<text x=`300` y=`195` text-anchor=`start` font-size=`13` fill=`#2f4a63` font-family=`Space Grotesk`>Local context</text>");
             svg_legend 120 270
               ["Scope controls interaction under closure.";
                "Supports multiple local theories.";
                "Avoids global contradiction explosion."]]))
     (* caption *) "Scope boundaries define where a claim holds and where contradictions are meaningful."
     (* definition *) "Context and scope define the boundary within which a statement is interpreted and interacts with other statements."
     (* role *) "VSAVM uses scope derived from structural separators to localize inference and contradiction checks. This prevents incompatible sources from collapsing into a single inconsistent base."
     (* mechanics *) "Scope is carried through execution as context metadata. Conflict checks require scope: a contradiction is opposing polarity for the same canonical fact identifier within the same scope. Without scope, correctness becomes either impossible or meaningless."
     (* further *) "Scope is a standard notion in computing; VSAVM extends it to reasoning and verification by treating document structure as semantic boundaries."
     (* references *) ([("Scope (computer science) (Wikipedia)",
         "https://en.wikipedia.org/wiki/Scope_(computer_science)");
        ("Context (computing) (Wikipedia)",
         "https://en.wikipedia.org/wiki/Context_(computing)");
        ("Consistency (Wikipedia)",
         "https://en.wikipedia.org/wiki/Consistency")]));
   (wiki
     (* slug *) "query-compiler"
     (* title *) "NL to query compiler"
     (* aria *) "Diagram of question to schema to program"
     (* svg *) (svg_wrap "0 0 900 320" "Compiler diagram"
         (String.concat nl
            [svg_chip 90 90 240 70 "Question";
             svg_chip 350 90 240 70 "Schema";
             svg_chip 610 90 240 70 "Program";
             svg_arrow 330 125 350 125 svg_arrow_color;
             svg_arrow 590 125 610 125 svg_arrow_color;
             svg_chip 210 190 520 70 "Search + validation under closure";
             svg_arrow 520 160 480 190 "#0b6eff";
             svg_legend 90 265
               ["Compilation is hypothesis generation.";
                "Programs are executable artifacts.";
                "Closure enforces honesty."]]))
     (* caption *) "Questions become executable programs via schemas, with search and closure validation enforcing correctness."
     (* definition *) "An NL to query compiler transforms natural language questions into executable query programs."
     (* role *) "In VSAVM, compilation is central because it makes questions operational and auditable. It enables answers derived by execution and bounded closure rather than by free-form continuation."
     (* mechanics *) "The compiler retrieves candidate schemas, fills typed slots, emits a program, and evaluates candidates with early closure checks. Multiple candidates can be kept in a beam to handle ambiguity explicitly and to support conditional results."
     (* further *) "Program synthesis provides a useful analogy: propose programs and validate them against constraints. VSAVM applies this pattern to query programs guided by retrieval and compression pressure."
     (* references *) ([("Program synthesis (Wikipedia)",
         "https://en.wikipedia.org/wiki/Program_synthesis");
        ("Beam search (Wikipedia)",
         "https://en.wikipedia.org/wiki/Beam_search");
        ("Information retrieval (Wikipedia)",
         "https://en.wikipedia.org/wiki/Information_retrieval")]));
   (wiki
     (* slug *) "multimodal"
     (* title *) "Multimodal"
     (* aria *) "Diagram of modalities converging into event stream and VM"
     (* svg *) (svg_wrap "0 0 900 340" "Multimodal diagram"
         (String.concat nl
            [svg_chip 90 70 200 60 "Text";
             svg_chip 90 150 200 60 "Audio";
             svg_chip 90 230 200 60 "Image/Video";
             svg_chip 360 140 260 80 "Event stream";
             svg_chip 660 140 180 80 "VM";
             svg_arrow 290 100 360 180 svg_arrow_color;
             svg_arrow 290 180 360 180 svg_arrow_color;
             svg_arrow 290 260 360 180 svg_arrow_color;
             svg_arrow 620 180 660 180 svg_arrow_color;
             svg_legend 360 275
               ["Inputs become discrete events.";
                "Structure carries scope.";
                "One core handles all modalities."]]))
     (* caption *) "Multiple modalities converge into a single event stream so the same closure rules apply."
     (* definition *) "Multimodal processing integrates multiple input or output modalities such as text, audio, and images."
     (* role *) "VSAVM is multimodal by representation: all modalities become event streams. This allows one VM and one correctness contract to operate uniformly across modalities."
     (* mechanics *) "Audio becomes transcript events with timing; images and video become symbolic descriptors or discrete tokens. Structural separators define scope even in temporal streams. The VM remains modality-agnostic because it consumes discrete events and canonical facts."
     (* further *) "Multimodal learning literature is broad. VSAVM’s emphasis is on representation unification and execution-based checking, not on any specific encoder design."
     (* references *) ([("Multimodal learning (Wikipedia)",
         "https://en.wikipedia.org/wiki/Multimodal_learning");
        ("Event stream processing (Wikipedia)",
         "https://en.wikipedia.org/wiki/Event_stream_processing");
        ("Computer vision (Wikipedia)",
         "https://en.wikipedia.org/wiki/Computer_vision")]));
   (wiki
     (* slug *) "symbolic-execution"
     (* title *) "Symbolic execution"
     (* aria *) "Diagram of branching paths and checks"
     (* svg *) (svg_wrap "0 0 900 320" "Symbolic execution diagram"
         (String.concat nl
            [svg_chip 90 90 220 60 "Symbols";
             svg_chip 340 65 220 55 "Branch A";
             svg_chip 340 140 220 55 "Branch B";
             svg_chip 340 215 220 55 "Branch C";
             svg_chip 610 140 240 65 "Constraints";
             svg_arrow 310 120 340 92 svg_arrow_color;
             svg_arrow 310 120 340 167 svg_arrow_color;
             svg_arrow 310 120 340 242 svg_arrow_color;
             svg_arrow 560 167 610 172 svg_arrow_color;
             svg_legend 90 275
               ["Explore multiple paths explicitly.";
                "Prune with constraints.";
                "Budgets bound exploration."]]))
     (* caption *) "Symbolic execution explores multiple branches explicitly and uses constraints to prune inconsistent paths."
     (* definition *) "Symbolic execution runs programs with symbolic inputs, exploring multiple branches while accumulating constraints."
     (* role *) "VSAVM uses symbolic execution ideas to manage ambiguity and nondeterminism in interpretation and closure exploration."
     (* mechanics *) "Branching makes uncertainty explicit. Robust conclusions must survive across explored branches; conditional conclusions are tied to assumptions. Constraints and closure checks prune or downgrade inconsistent branches under budget."
     (* further *) "Symbolic execution underpins many verification tools. VSAVM adapts the idea to reasoning about language-derived programs under bounded closure."
     (* references *) ([("Symbolic execution (Wikipedia)",
         "https://en.wikipedia.org/wiki/Symbolic_execution");
        ("Program analysis (Wikipedia)",
         "https://en.wikipedia.org/wiki/Program_analysis");
        ("Constraint satisfaction (Wikipedia)",
         "https://en.wikipedia.org/wiki/Constraint_satisfaction_problem")]));
   (wiki
     (* slug *) "federated-learning"
     (* title *) "Federated learning"
     (* aria *) "Diagram of clients aggregating artifacts with validation"
     (* svg *) (svg_wrap "0 0 900 340" "Federated learning diagram"
         (String.concat nl
            [svg_chip 90 70 200 60 "Client A";
             svg_chip 90 150 200 60 "Client B";
             svg_chip 90 230 200 60 "Client C";
             svg_chip 360 140 240 80 "Aggregation";
             svg_chip 650 120 200 80 "Shared";
             svg_chip 650 215 200 80 "Validation";
             svg_arrow 290 100 360 180 svg_arrow_color;
             svg_arrow 290 180 360 180 svg_arrow_color;
             svg_arrow 290 260 360 180 svg_arrow_color;
             svg_arrow 600 180 650 160 svg_arrow_color;
             svg_arrow 750 200 750 215 "#0b6eff";
             svg_legend 360 285
               ["Share artifacts, not raw data.";
                "Validate before promotion.";
                "Supports modular libraries."]]))
     (* caption *) "Federation shares artifacts and applies validation to prevent polluted rule libraries."
     (* definition *) "Federated learning trains across clients without centralizing raw data, using aggregated updates or artifacts."
     (* role *) "VSAVM can federate discrete statistics, VSA prototypes, and executable modules such as schemas and macro programs. This aligns naturally with modular learning and auditability."
     (* mechanics *) "The main risk is rule pollution. VSAVM mitigates this by requiring closure-based health checks before promoting new rules into a shared library. Modules can be versioned and rolled back more transparently than dense parameter deltas."
     (* further *) "Federated learning is often paired with privacy techniques such as differential privacy. VSAVM’s approach emphasizes federating explicit artifacts with governance via consistency checks."
     (* references *) ([("Federated learning (Wikipedia)",
         "https://en.wikipedia.org/wiki/Federated_learning");
        ("Differential privacy (Wikipedia)",
         "https://en.wikipedia.org/wiki/Differential_privacy");
        ("Privacy (Wikipedia)",
         "https://en.wikipedia.org/wiki/Privacy")]));
   (wiki
     (* slug *) "trustworthy-ai"
     (* title *) "Trustworthy AI"
     (* aria *) "Diagram of trace, checks, and honest output modes"
     (* svg *) (svg_wrap "0 0 900 320" "Trustworthy AI diagram"
         (String.concat nl
            [svg_chip 90 70 240 70 "Trace";
             svg_chip 350 70 240 70 "Checks";
             svg_chip 610 70 240 70 "Output modes";
             svg_arrow 330 105 350 105 svg_arrow_color;
             svg_arrow 590 105 610 105 svg_arrow_color;
             svg_chip 210 170 520 70 "Robust / conditional / indeterminate";
             svg_arrow 470 140 470 170 "#0b6eff";
             svg_legend 90 255
               ["Constrain emission, not just tone.";
                "Expose budgets and branch coverage.";
                "Make uncertainty explicit."]]))
     (* caption *) "Trust is built by tying outputs to traces and checks and by using explicit output modes."
     (* definition *) "Trustworthy AI refers to systems that behave predictably and transparently, especially at the boundaries of uncertainty."
     (* role *) "VSAVM approaches trustworthiness by construction: it constrains emission to what can be derived and checked under bounded closure and exposes traces and budgets on demand."
     (* mechanics *) "The system’s outputs are classified into robust, conditional, or indeterminate based on closure and scope. This replaces ungrounded confidence with operational coverage. The surface realizer is constrained to avoid introducing facts beyond VM state."
     (* further *) "Trustworthy AI intersects with explainability, verification, and alignment. VSAVM’s contribution is to provide an executable substrate that makes these concerns operational and auditable."
     (* references *) ([("Explainable AI (Wikipedia)",
         "https://en.wikipedia.org/wiki/Explainable_artificial_intelligence");
        ("Verification and validation (Wikipedia)",
         "https://en.wikipedia.org/wiki/Verification_and_validation");
        ("AI alignment (Wikipedia)",
         "https://en.wikipedia.org/wiki/AI_alignment")]));
   (wiki
     (* slug *) "llm"
     (* title *) "Large Language Model (LLM)"
     (* aria *) "Diagram of prompt to continuation with VM gating overlay"
     (* svg *) (svg_wrap "0 0 900 320" "LLM diagram"
         (String.concat nl
            [svg_chip 90 70 240 70 "Prompt";
             svg_chip 350 70 240 70 "LM proposals";
             svg_chip 610 70 240 70 "Continuation";
             svg_arrow 330 105 350 105 svg_arrow_color;
             svg_arrow 590 105 610 105 svg_arrow_color;
             svg_chip 210 170 520 70 "VSAVM adds VM state + closure gate";
             svg_arrow 470 140 470 170 "#0b6eff";
             svg_legend 90 255
               ["Standard LLM: continuation from text.";
                "VSAVM: continuation conditioned on execution.";
                "Gate prevents unsupported claims."]]))
     (* caption *) "VSAVM keeps LLM-like interaction but conditions continuations on executable state and closure checks."
     (* definition *) "A large language model is typically a neural network trained to predict the next token or segment of text."
     (* role *) "VSAVM uses LLM-like prediction as a proposal mechanism, but acceptance is constrained by VM state and bounded closure. The interface stays familiar while the semantics change."
     (* mechanics *) "Fluency proposals are filtered by schema constraints and closure gating. This prevents the generator from emitting facts that are not supported by executable state, turning trust into an operational property of checks and traces."
     (* further *) "LLMs are a fast-moving field. VSAVM’s design goal is to combine LLM-like interaction with an executable substrate and explicit boundary behavior."
     (* references *) ([("Large language model (Wikipedia)",
         "https://en.wikipedia.org/wiki/Large_language_model");
        ("Language model (Wikipedia)",
         "https://en.wikipedia.org/wiki/Language_model");
        ("Natural language generation (Wikipedia)",
         "https://en.wikipedia.org/wiki/Natural_language_generation")]));
   (wiki
     (* slug *) "consistency-contract"
     (* title *) "Consistency contract"
     (* aria *) "Diagram of budget, closure, and emission rules"
     (* svg *) (svg_wrap "0 0 900 340" "Consistency contract diagram"
         (String.concat nl
            [svg_chip 80 70 240 70 "Budget";
             svg_chip 340 70 240 70 "Closure";
             svg_chip 600 70 240 70 "Emission";
             svg_arrow 320 105 340 105 svg_arrow_color;
             svg_arrow 580 105 600 105 svg_arrow_color;
             svg_chip 180 170 540 70 "Strict / conditional / indeterminate";
             svg_arrow 480 140 480 170 "#0b6eff";
             svg_legend 80 255
               ["Defines what may be stated.";
                "Budgets make boundaries explicit.";
                "Modes define honest degradation."]]))
     (* caption *) "The contract ties what may be emitted to what was checked under budgeted closure and named modes."
     (* definition *) "A consistency contract defines when a system is allowed to emit a conclusion, based on explicit checks and explicit budgets."
     (* role *) "In VSAVM, the contract is the semantic rule that turns closure outcomes into output permission. It prevents the system from projecting certainty when exploration is incomplete."
     (* mechanics *) "The contract specifies budgets, closure behavior, and response modes. It requires logging of budget use, branches, and conflicts so results are auditable. Conditional outputs are tied to explicit assumptions rather than vague language."
     (* further *) "Consistency and non-monotonic reasoning provide background. VSAVM operationalizes these ideas through executable state and bounded exploration rather than purely through hand-coded logic."
     (* references *) ([("Consistency (Wikipedia)",
         "https://en.wikipedia.org/wiki/Consistency");
        ("Non-monotonic logic (SEP)",
         "https://plato.stanford.edu/entries/logic-nonmonotonic/");
        ("Verification and validation (Wikipedia)",
         "https://en.wikipedia.org/wiki/Verification_and_validation")]));
   (wiki
     (* slug *) "conceptual-spaces"
     (* title *) "Conceptual spaces"
     (* aria *) "Diagram of regions and transitions"
     (* svg *) (svg_wrap "0 0 900 340" "Conceptual spaces diagram"
         (String.concat nl
            [(txt "<ellipse cx=`310` cy=`185` rx=`250` ry=`125` fill=`none` stroke=`#7fb3e6` stroke-width=`3`/>");
             (txt "<ellipse cx=`650` cy=`170` rx=`230` ry=`125` fill=`none` stroke=`#16b879` stroke-width=`3`/>");
             (txt "<circle cx=`250` cy=`185` r=`12` fill=`#0b6eff`/>");
             (txt "<circle cx=`370` cy=`220` r=`12` fill=`#0b6eff`/>");
             (txt "<circle cx=`610` cy=`170` r=`12` fill=`#16b879`/>");
             (txt "<circle cx=`715` cy=`205` r=`12` fill=`#16b879`/>");
             (txt "<line x1=`262` y1=`185` x2=`358` y2=`220` stroke=`url(#deep)` stroke-width=`4` stroke-linecap=`round`/>");
             (txt "<line x1=`382` y1=`220` x2=`598` y2=`170` stroke=`url(#deep)` stroke-width=`4` stroke-linecap=`round`/>");
             (txt "<line x1=`622` y1=`170` x2=`703` y2=`205` stroke=`url(#deep)` stroke-width=`4` stroke-linecap=`round`/>");
             svg_legend 90 270
               ["Regions are concepts as constraints.";
                "Nodes are states/instances.";
                "Edges are transitions or inferences."]]))
     (* caption *) "Concepts as regions: VSAVM maps this intuition to VM state-space regions rather than to embedding points."
     (* definition *) "Conceptual spaces model concepts as regions in a geometric space rather than as discrete symbols."
     (* role *) "VSAVM uses a two-geometry view: VSA similarity provides candidate retrieval, while VM state-space geometry determines consequences and conflicts. Conceptual spaces offer a useful metaphor for regions and invariants in VM state space."
     (* mechanics *) "A concept corresponds to a region of states satisfying constraints. Thinking more corresponds to exploring a larger neighborhood of the state graph. Similarity geometry accelerates search, but execution geometry governs correctness."
     (* further *) "Conceptual spaces connect cognition and geometry. VSAVM uses the idea operationally: regions correspond to stable state configurations under closure."
     (* references *) ([("Conceptual spaces (Wikipedia)",
         "https://en.wikipedia.org/wiki/Conceptual_spaces");
        ("State space (Wikipedia)",
         "https://en.wikipedia.org/wiki/State_space");
        ("Graph traversal (Wikipedia)",
         "https://en.wikipedia.org/wiki/Graph_traversal")]));
   (wiki
     (* slug *) "program-synthesis"
     (* title *) "Program synthesis"
     (* aria *) "Diagram of intent to program via search and validation"
     (* svg *) (svg_wrap "0 0 900 340" "Program synthesis diagram"
         (String.concat nl
            [svg_chip 90 90 260 70 "Intent / examples";
             svg_chip 370 90 220 70 "Search";
             svg_chip 610 90 240 70 "Program";
             svg_arrow 350 125 370 125 svg_arrow_color;
             svg_arrow 590 125 610 125 svg_arrow_color;
             svg_chip 210 190 520 70 "Validate with execution and constraints";
             svg_arrow 520 160 480 190 "#0b6eff";
             svg_legend 90 265
               ["Search proposes candidate programs.";
                "Validation rejects invalid ones.";
                "Similar pattern used in query compilation."]]))
     (* caption *) "Program synthesis illustrates the propose-and-validate pattern that VSAVM uses for query compilation."
     (* definition *) "Program synthesis automatically constructs programs that satisfy a specification, often via search and validation."
     (* role *) "VSAVM query compilation resembles synthesis: candidate query programs are proposed using retrieval and schemas and then validated by execution and closure checks."
     (* mechanics *) "Synthesis without validation becomes guesswork. VSAVM’s validation is bounded closure and conflict detection. This rejects candidates that look plausible by similarity but fail under consequences."
     (* further *) "Program synthesis is a large field. VSAVM applies the idea to executable queries and macro routines under explicit budgets and auditability requirements."
     (* references *) ([("Program synthesis (Wikipedia)",
         "https://en.wikipedia.org/wiki/Program_synthesis");
        ("Search algorithm (Wikipedia)",
         "https://en.wikipedia.org/wiki/Search_algorithm");
        ("Verification and validation (Wikipedia)",
         "https://en.wikipedia.org/wiki/Verification_and_validation")]))
  ].

(** ** Page renderer *)

Definition render_page (page : Page) : string :=
  let '(intro, related) :=
    if String.eqb (kind page) "theory" then
      ("<p>This page is a theory note. It expands the topic in short chapters and defines terminology without duplicating the formal specification documents.</p>"
       +:+ "<p>The diagram has a transparent background and is intended to be read together with the caption and the sections below.</p>",
       related_wiki_paragraph "../wiki/")
    else
      ("<p>This wiki entry defines a term used across VSAVM and explains why it matters in the architecture.</p>"
       +:+ "<p>The diagram has a transparent background and highlights the operational meaning of the term inside VSAVM.</p>",
       related_wiki_paragraph EmptyString) in
  let body :=
    String.concat nl
      ["<h1>" +:+ title page +:+ "</h1>";
       intro;
       related;
       h2_sections (sections page);
       txt "<figure class=`diagram`>";
       svg page;
       "<figcaption>" +:+ caption page +:+ "</figcaption>";
       "</figure>";
       references_paragraph (references page)] in
  let prefix :=
    if String.eqb (kind page) "theory" || String.eqb (kind page) "wiki"
    then "../" else EmptyString in
  html_page (title page) body prefix.

(** ** File system

    Paths are lists of components below [ROOT], the directory two levels
    above the script; [ROOT] itself is the empty path and always exists as a
    directory (the script lives in it).  The store maps each existing path
    to its node.  Symbolic links and permissions are not modelled. *)

Abbreviation path := (list string).

Inductive node :=
| File (content : string)
| Dir.

(** The calls the script makes on [pathlib.Path], in the order made. *)
Inductive event :=
| Exists (p : path)
| Mkdir (p : path)
| Glob (p : path) (pattern : string)
| Unlink (p : path)
| WriteText (p : path) (data : string).

Inductive exn :=
| SystemExit (msg : string)
| FileExistsError (p : path)
| FileNotFoundError (p : path)
| NotADirectoryError (p : path)
| IsADirectoryError (p : path).

(** What running a computation from a store gives: the value returned or
    the exception raised, the store left behind, and the calls made. *)
Record result (A : Type) := Result {
  outcome : exn + A;
  store : gmap path node;
  trace : list event
}.
Arguments Result {A}.
Arguments outcome {A}.
Arguments store {A}.
Arguments trace {A}.

Definition io (A : Type) : Type := gmap path node → result A.

#[global] Instance io_ret : MRet io := λ A a fs, Result (inr a) fs [].

#[global] Instance io_bind : MBind io := λ A B f m fs,
  let r := m fs in
  match outcome r with
  | inl e => Result (inl e) (store r) (trace r)
  | inr a =>
      let r' := f a (store r) in
      Result (outcome r') (store r') (trace r ++ trace r')
  end.

Definition raise {A} (e : exn) : io A := λ fs, Result (inl e) fs [].

(** [try: m except: handler]. *)
Definition catch {A} (m : io A) (handler : exn → io A) : io A := λ fs,
  let r := m fs in
  match outcome r with
  | inl e =>
      let r' := handler e (store r) in
      Result (outcome r') (store r') (trace r ++ trace r')
  | inr a => r
  end.

Definition log (e : event) : io unit := λ fs, Result (inr ()) fs [e].

Definition get_files : io (gmap path node) := λ fs, Result (inr fs) fs [].

Definition put_files (fs : gmap path node) : io unit := λ _, Result (inr ()) fs [].

Fixpoint for_each {A} (l : list A) (body : A → io unit) : io unit :=
  match l with
  | [] => mret ()
  | a :: l' => body a ;; for_each l' body
  end.

(** *** Pure paths *)

Fixpoint split_on (sep : ascii) (s : string) : list string :=
  match s with
  | EmptyString => [EmptyString]
  | String c rest =>
      if Ascii.eqb c sep then EmptyString :: split_on sep rest
      else match split_on sep rest with
           | [] => [String c EmptyString]
           | h :: t => String c h :: t
           end
  end.

(** The components of a relative segment: split at the slash, empty and
    single-dot components dropped.  A segment that starts with a slash
    would replace the whole path; no call of the script passes one.  A
    double-dot component is kept as a name, as [pathlib] keeps it; the
    store does not resolve it as the operating system would, so what is
    stated of page paths is stated for slugs without a slash. *)
Definition segment_parts (seg : string) : list string :=
  List.filter (λ c, negb (String.eqb c EmptyString || String.eqb c "."))
    (split_on "/" seg).

(** [p / seg]. *)
Definition joinpath (p : path) (seg : string) : path := p ++ segment_parts seg.

Infix "</>" := joinpath (at level 40, left associativity).

Definition parent (p : path) : path := removelast p.

Definition DOCS : path := [] </> "docs".
Definition ASSETS : path := DOCS </> "assets".
Definition THEORY : path := DOCS </> "theory".
Definition WIKI : path := DOCS </> "wiki".

(** *** The store *)

Definition lookup_node (fs : gmap path node) (p : path) : option node :=
  match p with
  | [] => Some Dir
  | _ => fs !! p
  end.

Fixpoint strip_prefix (dir p : path) : option path :=
  match dir, p with
  | [], _ => Some p
  | d :: dir', c :: p' => if String.eqb d c then strip_prefix dir' p' else None
  | _ :: _, [] => None
  end.

Definition child_name (dir p : path) : option string :=
  match strip_prefix dir p with
  | Some [name] => Some name
  | _ => None
  end.

(** The names directly under [dir], as [os.scandir] lists them.  The
    order is the one the store enumerates; [os.scandir] promises none, so
    the order of the deletions, and which entries are left when a
    deletion raises, may differ from one file system to another. *)
Definition listdir (fs : gmap path node) (dir : path) : list string :=
  omap (λ kv, child_name dir kv.1) (map_to_list fs).

(** [fnmatch] for patterns made of literal characters and the star, which
    is all the one pattern of the script uses; matching is case-sensitive
    as on POSIX. *)
Fixpoint fnmatch (pat : string) : string → bool :=
  match pat with
  | EmptyString => λ name, match name with EmptyString => true | _ => false end
  | String c pat' =>
      if Ascii.eqb c "*" then
        fix star (name : string) : bool :=
          fnmatch pat' name
          || match name with
             | EmptyString => false
             | String _ name' => star name'
             end
      else
        λ name, match name with
                | EmptyString => false
                | String d name' => Ascii.eqb c d && fnmatch pat' name'
                end
  end.

(** *** System calls *)

Definition os_mkdir (p : path) : io unit :=
  fs ← get_files;
  match lookup_node fs p with
  | Some _ => raise (FileExistsError p)
  | None =>
      match lookup_node fs (parent p) with
      | None => raise (FileNotFoundError p)
      | Some (File _) => raise (NotADirectoryError p)
      | Some Dir => put_files (<[p := Dir]> fs)
      end
  end.

Definition is_dir (p : path) : io bool :=
  fs ← get_files;
  mret (match lookup_node fs p with Some Dir => true | _ => false end).

(** *** [pathlib.Path] methods *)

(** [p.exists()]. *)
Definition path_exists (p : path) : io bool :=
  log (Exists p) ;;
  fs ← get_files;
  mret (match lookup_node fs p with Some _ => true | None => false end).

(** [except OSError: if not exist_ok or not self.is_dir(): raise], with
    [exist_ok=True]. *)
Definition unless_is_dir (p : path) (e : exn) : io unit :=
  d ← is_dir p;
  if d : bool then mret () else raise e.

(** The body of [Path.mkdir] with [exist_ok=True]: [os.mkdir] first; on
    [FileNotFoundError] with [parents] set, the parent is made (with
    [parents=True, exist_ok=True]) and the directory retried with
    [parents=False]; any other [OSError] is swallowed when the path is a
    directory.  The recursion goes up the parents, so the path is taken
    innermost component first. *)
Fixpoint mkdir_rev (parents : bool) (rp : list string) : io unit :=
  let p := reverse rp in
  catch (os_mkdir p) (λ e,
    match e with
    | FileNotFoundError _ =>
        match parents, rp with
        | true, _ :: rparent =>
            mkdir_rev true rparent ;;
            catch (os_mkdir p) (λ e',
              match e' with
              | FileNotFoundError _ => raise e'
              | _ => unless_is_dir p e'
              end)
        | _, _ => raise e
        end
    | _ => unless_is_dir p e
    end).

(** [p.mkdir(parents=True, exist_ok=True)]. *)
Definition mkdir (p : path) : io unit :=
  log (Mkdir p) ;; mkdir_rev true (reverse p).

(** [p.glob(pattern)] for a pattern without a directory part: the entries
    of [p] whose name matches. *)
Definition glob (p : path) (pattern : string) : io (list path) :=
  log (Glob p pattern) ;;
  fs ← get_files;
  mret (map (λ name, p ++ [name]) (List.filter (fnmatch pattern) (listdir fs p))).

(** [p.unlink(missing_ok=True)]. *)
Definition unlink (p : path) : io unit :=
  log (Unlink p) ;;
  fs ← get_files;
  match lookup_node fs p with
  | None => mret ()
  | Some Dir => raise (IsADirectoryError p)
  | Some (File _) => put_files (delete p fs)
  end.

(** [p.write_text(data, encoding="utf-8")].  The store takes every name
    and grants every operation: a name the operating system refuses
    (over 255 bytes, a NUL character), permissions and capacity are not
    modelled. *)
Definition write_text (p : path) (data : string) : io unit :=
  log (WriteText p data) ;;
  fs ← get_files;
  match lookup_node fs (parent p) with
  | None => raise (FileNotFoundError p)
  | Some (File _) => raise (NotADirectoryError p)
  | Some Dir =>
      match lookup_node fs p with
      | Some Dir => raise (IsADirectoryError p)
      | _ => put_files (<[p := File data]> fs)
      end
  end.

(** ** Orchestrator *)

Definition remove_legacy_theory_pages : io unit :=
  e ← path_exists THEORY;
  if negb e then mret ()
  else
    paths ← glob THEORY "ds*.html";
    for_each paths (λ path, unlink path).

Definition theory_card (p : Page) : string :=
  txt "<a class=`card` href=`" +:+ slug p +:+ txt ".html`><div class=`card-title`>" +:+ title p +:+ txt "</div><div class=`card-note`>Chapters, definitions, mechanisms, and references.</div></a>".

Definition wiki_card (p : Page) : string :=
  txt "<a class=`card` href=`" +:+ slug p +:+ txt ".html`><div class=`card-title`>" +:+ title p +:+ txt "</div><div class=`card-note`>Definition, role in VSAVM, mechanics, references.</div></a>".

(** The body of [main], with the two registries it materializes (steps
    [theory_pages = build_theory_pages()] and
    [wiki_pages = build_wiki_pages()], which touch nothing) as parameters. *)
Definition main_with (theory_pages wiki_pages : list Page) : io unit :=
  css ← path_exists (ASSETS </> "site.css");
  if negb css then raise (SystemExit "Expected docs/assets/site.css to exist.")
  else
    mkdir THEORY ;;
    mkdir WIKI ;;
    remove_legacy_theory_pages ;;
    let theory_cards := String.concat nl (map theory_card theory_pages) in
    write_text (THEORY </> "index.html")
      (html_page "Theory"
         (String.concat nl
            ["<h1>Theory</h1>";
             "<p>The theory section is written as engineer-friendly notes. Each page has 3–4 short chapters, defined terminology, a transparent SVG diagram, and references.</p>";
             "<p>The goal is to explain mechanisms and trade-offs without duplicating specification text.</p>";
             txt "<div class=`link-grid`>" +:+ theory_cards +:+ "</div>"])
         "../") ;;
    for_each theory_pages
      (λ p, write_text (THEORY </> (slug p +:+ ".html")) (render_page p)) ;;
    let wiki_cards := String.concat nl (map wiki_card wiki_pages) in
    write_text (WIKI </> "index.html")
      (html_page "Wiki"
         (String.concat nl
            ["<h1>Wiki</h1>";
             "<p>The wiki defines core terms used throughout VSAVM. Each entry includes short chapters and a transparent SVG diagram with an operational interpretation.</p>";
             txt "<div class=`link-grid`>" +:+ wiki_cards +:+ "</div>"])
         "../") ;;
    for_each wiki_pages
      (λ p, write_text (WIKI </> (slug p +:+ ".html")) (render_page p)).

Definition main : io unit := main_with build_theory_pages build_wiki_pages.

(** ** Observations used in the statements *)

(** The calls that change the file system. *)
Definition mutating (e : event) : bool :=
  match e with
  | Mkdir _ | Unlink _ | WriteText _ _ => true
  | Exists _ | Glob _ _ => false
  end.

(** The entries of the theory directory that the cleanup pattern selects. *)
Definition stale_entries (fs : gmap path node) : list string :=
  List.filter (fnmatch "ds*.html") (listdir fs THEORY).

(** Every selected entry is a regular file. *)
Definition stale_are_files (fs : gmap path node) : bool :=
  forallb
    (λ name, match fs !! (THEORY ++ [name]) with Some Dir => false | _ => true end)
    (stale_entries fs).

(** The index documents [main] writes, as functions of the registries. *)
Definition theory_index (theory_pages : list Page) : string :=
  html_page "Theory"
    (String.concat nl
       ["<h1>Theory</h1>";
        "<p>The theory section is written as engineer-friendly notes. Each page has 3–4 short chapters, defined terminology, a transparent SVG diagram, and references.</p>";
        "<p>The goal is to explain mechanisms and trade-offs without duplicating specification text.</p>";
        txt "<div class=`link-grid`>" +:+ String.concat nl (map theory_card theory_pages) +:+ "</div>"])
    "../".

Definition wiki_index (wiki_pages : list Page) : string :=
  html_page "Wiki"
    (String.concat nl
       ["<h1>Wiki</h1>";
        "<p>The wiki defines core terms used throughout VSAVM. Each entry includes short chapters and a transparent SVG diagram with an operational interpretation.</p>";
        txt "<div class=`link-grid`>" +:+ String.concat nl (map wiki_card wiki_pages) +:+ "</div>"])
    "../".

(** Where [main] writes a page, and the call that writes it. *)
Definition page_path (dir : path) (p : Page) : path := dir </> (slug p +:+ ".html").

Definition page_write (dir : path) (p : Page) : event :=
  WriteText (page_path dir p) (render_page p).

(** The store after the page loop over [pages]. *)
Definition write_pages (dir : path) (pages : list Page) (fs : gmap path node)
    : gmap path node :=
  foldl (λ fs p, <[page_path dir p := File (render_page p)]> fs) fs pages.

(** The store once the directories are prepared and the legacy files are
    cleaned up, and the store the cleanup starts from. *)
Definition with_directories (fs : gmap path node) : gmap path node :=
  store (mkdir WIKI (store (mkdir THEORY fs))).

Definition prepared (fs : gmap path node) : gmap path node :=
  store (remove_legacy_theory_pages (with_directories fs)).

(** A slug without a slash names a file directly in its directory. *)
Fixpoint slug_plain (s : string) : bool :=
  match s with
  | EmptyString => true
  | String c rest => negb (Ascii.eqb c "/") && slug_plain rest
  end.

(** The files a run writes, in the order written. *)
Definition written (t : list event) : list (path * string) :=
  omap (λ e, match e with WriteText p data => Some (p, data) | _ => None end) t.

Definition written_paths (t : list event) : list path := (written t).*1.

Definition is_index (p : path) : bool :=
  match last p with
  | Some name => String.eqb name "index.html"
  | None => false
  end.

(** "No individual page file is written before both index documents have
    been written": every index write comes before every page write. *)
Definition indexes_before_pages (t : list event) : Prop :=
  ∀ (i j : nat) (p q : path),
    written_paths t !! i = Some p → is_index p = false →
    written_paths t !! j = Some q → is_index q = true →
    (j < i)%nat.

(** A store that holds the stylesheet and nothing of the two output
    directories. *)
Definition site_store : gmap path node :=
  <[ ["docs"; "assets"; "site.css"] := File "body { margin: 0 }" ]>
    (<[ ["docs"; "assets"] := Dir ]> (<[ ["docs"] := Dir ]> ∅)).

(** *** Reading rendered documents *)

(** [strip_string pre s] is what follows [pre] when [s] starts with it. *)
Fixpoint strip_string (pre s : string) : option string :=
  match pre, s with
  | EmptyString, _ => Some s
  | String a pre', String b s' => if Ascii.eqb a b then strip_string pre' s' else None
  | String _ _, EmptyString => None
  end.

(** [strip_suffix suf s] is what precedes [suf] when [s] ends with it. *)
Fixpoint strip_suffix (suf s : string) : option string :=
  if String.eqb s suf then Some EmptyString
  else match s with
       | EmptyString => None
       | String c s' => String c <$> strip_suffix suf s'
       end.

(** The text that follows the first occurrence of [needle]. *)
Fixpoint after (needle s : string) : option string :=
  match s with
  | EmptyString => strip_string needle EmptyString
  | String _ s' =>
      match strip_string needle s with
      | Some rest => Some rest
      | None => after needle s'
      end
  end.

(** The text that precedes the first occurrence of [needle]. *)
Fixpoint before (needle s : string) : option string :=
  match s with
  | EmptyString =>
      match strip_string needle EmptyString with
      | Some _ => Some EmptyString
      | None => None
      end
  | String c s' =>
      match strip_string needle s with
      | Some _ => Some EmptyString
      | None => String c <$> before needle s'
      end
  end.

(** The content of the first [h1] element of a document. *)
Definition top_heading (doc : string) : option string :=
  after "<h1>" doc ≫= before "</h1>".

(** The values of the [href] attributes of a fragment, in order. *)
Fixpoint hrefs (s : string) : list string :=
  match s with
  | EmptyString => []
  | String _ s' =>
      match strip_string (txt "href=`") s ≫= before (txt "`") with
      | Some target => target :: hrefs s'
      | None => hrefs s'
      end
  end.

(** The link targets of the card grid of an index document. *)
Definition card_links (doc : string) : list string :=
  match after (txt "<div class=`link-grid`>") doc with
  | Some grid => hrefs grid
  | None => []
  end.

(** The file a relative link points at from a document of directory
    [dir]: each component of the link goes one level down, except the
    double dot, which goes one level up. *)
Definition resolve (dir : path) (href : string) : path :=
  foldl (λ at_ c, if String.eqb c ".." then removelast at_ else at_ ++ [c])
    dir (segment_parts href).

(** The choices [render_page] makes from the kind. *)
Definition page_intro (k : string) : string :=
  if String.eqb k "theory" then
    "<p>This page is a theory note. It expands the topic in short chapters and defines terminology without duplicating the formal specification documents.</p>"
    +:+ "<p>The diagram has a transparent background and is intended to be read together with the caption and the sections below.</p>"
  else
    "<p>This wiki entry defines a term used across VSAVM and explains why it matters in the architecture.</p>"
    +:+ "<p>The diagram has a transparent background and highlights the operational meaning of the term inside VSAVM.</p>".

Definition related_prefix (k : string) : string :=
  if String.eqb k "theory" then "../wiki/" else EmptyString.

Definition page_prefix (k : string) : string :=
  if String.eqb k "theory" || String.eqb k "wiki" then "../" else EmptyString.

(** The slugs the related-pages paragraph links to. *)
Definition related_slugs : list string :=
  ["vm"; "event-stream"; "vsa"; "bounded-closure"; "consistency-contract"].

(** The shell around the content block: [html_page title content prefix]
    is [html_head title prefix], the content, [html_foot]. *)
Definition html_head (title prefix : string) : string :=
  "<!doctype html>" +:+ nl
  +:+ txt "<html lang=`en`>" +:+ nl
  +:+ "  <head>" +:+ nl
  +:+ txt "    <meta charset=`utf-8`>" +:+ nl
  +:+ txt "    <meta name=`viewport` content=`width=device-width, initial-scale=1`>" +:+ nl
  +:+ "    <title>" +:+ title +:+ " | VSAVM</title>" +:+ nl
  +:+ txt "    <link rel=`preconnect` href=`https://fonts.googleapis.com`>" +:+ nl
  +:+ txt "    <link rel=`preconnect` href=`https://fonts.gstatic.com` crossorigin>" +:+ nl
  +:+ txt "    <link href=`https://fonts.googleapis.com/css2?family=Fraunces:wght@400;600&family=Space+Grotesk:wght@400;500;600&display=swap` rel=`stylesheet`>" +:+ nl
  +:+ txt "    <link rel=`stylesheet` href=`" +:+ prefix +:+ txt "assets/site.css`>" +:+ nl
  +:+ "  </head>" +:+ nl
  +:+ "  <body>" +:+ nl
  +:+ txt "    <div class=`site`>" +:+ nl
  +:+ txt "      <header class=`header`>" +:+ nl
  +:+ txt "        <div class=`brand`>VSAVM</div>" +:+ nl
  +:+ txt "        <nav class=`nav`>" +:+ nl
  +:+ txt "          <a href=`" +:+ prefix +:+ txt "index.html`>Home</a>" +:+ nl
  +:+ txt "          <a href=`" +:+ prefix +:+ txt "specs.html`>Specs</a>" +:+ nl
  +:+ txt "          <a href=`" +:+ prefix +:+ txt "theory/index.html`>Theory</a>" +:+ nl
  +:+ txt "          <a href=`" +:+ prefix +:+ txt "wiki/index.html`>Wiki</a>" +:+ nl
  +:+ "        </nav>" +:+ nl
  +:+ "      </header>" +:+ nl
  +:+ txt "      <main class=`main content`>" +:+ nl
  +:+ "        ".

Definition html_foot : string :=
  nl
  +:+ "      </main>" +:+ nl
  +:+ txt "      <footer class=`footer`>" +:+ nl
  +:+ "        VSAVM is an Axiologic Research experiment within the Achilles project. This static documentation is written in clear academic English for engineers." +:+ nl
  +:+ "      </footer>" +:+ nl
  +:+ "    </div>" +:+ nl
  +:+ "  </body>" +:+ nl
  +:+ "</html>" +:+ nl.

(** Writing a list of files, in order, over a store. *)
Definition write_all (ws : list (path * string)) (fs : gmap path node)
    : gmap path node :=
  foldl (λ fs w, <[w.1 := File w.2]> fs) fs ws.

(** *** Reading fragments back *)

(** [until c s] splits [s] at the first [c]. *)
Fixpoint until (c : ascii) (s : string) : option (string * string) :=
  match s with
  | EmptyString => None
  | String a s' =>
      if Ascii.eqb a c then Some (EmptyString, s')
      else '(pre, post) ← until c s'; Some (String a pre, post)
  end.

Definition parse_int (s : string) : option Z :=
  Z.of_int <$> NilZero.int_of_string s.

(** An integer written up to the character [stop]. *)
Definition read_int (stop : ascii) (s : string) : option (Z * string) :=
  '(digits, rest) ← until stop s;
  n ← parse_int digits;
  Some (n, rest).

Fixpoint no_char (c : ascii) (s : string) : bool :=
  match s with
  | EmptyString => true
  | String a s' => negb (Ascii.eqb a c) && no_char c s'
  end.

(** The characters an integer is written with. *)
Definition int_char (c : ascii) : bool := negb (no_char c "-0123456789").

(** [split_last c s] splits [s] at the last [c]. *)
Fixpoint split_last (c : ascii) (s : string) : option (string * string) :=
  match s with
  | EmptyString => None
  | String a s' =>
      match split_last c s' with
      | Some (pre, post) => Some (String a pre, post)
      | None => if Ascii.eqb a c then Some (EmptyString, s') else None
      end
  end.

(** What an arrow fragment draws: the two ends of the line, the stroke
    colour and the vertices of the polygon, in the order written.  The
    colour is any text: it is what lies between the opening of the stroke
    attribute and the fixed end of the line element, the polygon being
    what follows the last [<] of the fragment. *)
Definition arrow_shape (frag : string)
    : option ((Z * Z) * (Z * Z) * string * list (Z * Z)) :=
  s ← strip_string (txt "<line x1=`") frag;
  '(x1, s) ← read_int dquote s;
  s ← strip_string (txt " y1=`") s;
  '(y1, s) ← read_int dquote s;
  s ← strip_string (txt " x2=`") s;
  '(x2, s) ← read_int dquote s;
  s ← strip_string (txt " y2=`") s;
  '(y2, s) ← read_int dquote s;
  s ← strip_string (txt " stroke=`") s;
  '(line, s) ← split_last "<" s;
  color ← strip_suffix (txt "` stroke-width=`4` stroke-linecap=`round`/>" +:+ nl) line;
  s ← strip_string (txt "polygon points=`") s;
  '(ax, s) ← read_int "," s;
  '(ay, s) ← read_int " " s;
  '(bx, s) ← read_int "," s;
  '(by_, s) ← read_int " " s;
  '(cx, s) ← read_int "," s;
  '(cy, s) ← read_int dquote s;
  s ← strip_string (txt " fill=`#16b879`/>") s;
  match s with
  | EmptyString => Some ((x1, y1), (x2, y2), color, [(ax, ay); (bx, by_); (cx, cy)])
  | _ => None
  end.

(** A base vertex [b] as the specification places it for the line from
    [start] to [tip]: 10 units back along the line and 7 units to one side
    of it.  The line has a direction [d = tip - start], so its two ends
    differ; with [v] the offset [b - tip], the component of [v] along [d]
    is [-10] and its component across [d] is [7] in absolute value; both
    are stated squared, so that no square root is needed. *)
Definition base_vertex (start tip b : Z * Z) : Prop :=
  let dx := tip.1 - start.1 in
  let dy := tip.2 - start.2 in
  let vx := b.1 - tip.1 in
  let vy := b.2 - tip.2 in
  0 < dx ^ 2 + dy ^ 2
  ∧ vx * dx + vy * dy ≤ 0
  ∧ (vx * dx + vy * dy) ^ 2 = 100 * (dx ^ 2 + dy ^ 2)
  ∧ (vx * dy - vy * dx) ^ 2 = 49 * (dx ^ 2 + dy ^ 2).

(** The connector as the specification describes it: the line from
    [(x1, y1)] to [(x2, y2)] and a triangle with its tip at [(x2, y2)] and
    its two other vertices placed as [base_vertex] says, one on each
    side. *)
Definition connector_as_specified (x1 y1 x2 y2 : Z) (color : string) : Prop :=
  ∃ pts b1 b2,
    arrow_shape (svg_arrow x1 y1 x2 y2 color) = Some ((x1, y1), (x2, y2), color, pts)
    ∧ pts ≡ₚ [(x2, y2); b1; b2]
    ∧ base_vertex (x1, y1) (x2, y2) b1
    ∧ base_vertex (x1, y1) (x2, y2) b2
    ∧ b1 ≠ b2.

(** *** Legend elements *)

(** An unfilled rounded rectangle 360 wide, and a left-aligned text line. *)
Definition legend_box (x y height : Z) : string :=
  txt "<rect x=`" +:+ str_int x +:+ txt "` y=`" +:+ str_int y +:+ txt "` width=`360` height=`" +:+ str_int height +:+ txt "` rx=`16` ry=`16` fill=`none` stroke=`#7fb3e6` stroke-width=`2`/>".

Definition legend_text (x y : Z) (text : string) : string :=
  txt "<text x=`" +:+ str_int x +:+ txt "` y=`" +:+ str_int y +:+ txt "` text-anchor=`start` font-size=`12` fill=`#2f4a63` font-family=`Space Grotesk`>" +:+ text +:+ "</text>".

(** The position and size a [rect] element starts with, and the position
    a [text] element starts with. *)
Definition box_shape (part : string) : option (Z * Z * Z * Z) :=
  s ← strip_string (txt "<rect x=`") part;
  '(x, s) ← read_int dquote s;
  s ← strip_string (txt " y=`") s;
  '(y, s) ← read_int dquote s;
  s ← strip_string (txt " width=`") s;
  '(w, s) ← read_int dquote s;
  s ← strip_string (txt " height=`") s;
  '(h, s) ← read_int dquote s;
  Some (x, y, w, h).

Definition text_position (part : string) : option (Z * Z) :=
  s ← strip_string (txt "<text x=`") part;
  '(x, s) ← read_int dquote s;
  s ← strip_string (txt " y=`") s;
  '(y, s) ← read_int dquote s;
  Some (x, y).

(** *** The page body as the specification lists it *)

Definition section_block (s : string * string) : string :=
  "<h2>" +:+ s.1 +:+ "</h2>" +:+ nl +:+ "<p>" +:+ s.2 +:+ "</p>".

(** The sections one after the other, in list order, a newline between. *)
Fixpoint sections_in_order (l : list (string * string)) : string :=
  match l with
  | [] => EmptyString
  | [s] => section_block s
  | s :: rest => section_block s +:+ nl +:+ sections_in_order rest
  end.

Definition reference_link (r : string * string) : string :=
  txt "<a href=`" +:+ r.2 +:+ txt "`>" +:+ r.1 +:+ "</a>".

(** The reference links one after the other, in list order, a space
    between. *)
Fixpoint links_in_order (l : list (string * string)) : string :=
  match l with
  | [] => EmptyString
  | [r] => reference_link r
  | r :: rest => reference_link r +:+ " " +:+ links_in_order rest
  end.

Definition figure_block (diagram caption : string) : string :=
  txt "<figure class=`diagram`>" +:+ nl
  +:+ diagram +:+ nl
  +:+ "<figcaption>" +:+ caption +:+ "</figcaption>" +:+ nl
  +:+ "</figure>".

Definition spec_page_body (page : Page) : string :=
  "<h1>" +:+ title page +:+ "</h1>" +:+ nl
  +:+ page_intro (kind page) +:+ nl
  +:+ related_wiki_paragraph (related_prefix (kind page)) +:+ nl
  +:+ sections_in_order (sections page) +:+ nl
  +:+ figure_block (svg page) (caption page) +:+ nl
  +:+ "<h2>References</h2>" +:+ nl
  +:+ "<p>" +:+ links_in_order (references page) +:+ "</p>".

(** A small page, for examples. *)
Definition sample_page : Page :=
  {| slug := "sample";
     title := "Sample";
     kind := "wiki";
     aria := "Sample diagram";
     svg := svg_wrap "0 0 10 10" "Sample diagram" (svg_arrow 0 0 5 0 svg_arrow_color);
     caption := "A sample.";
     sections := [("Overview", "A"); ("Details", "B")];
     references := [("Example", "https://example.org/")] |}.

(** A store with a stale file and a page in the theory directory, and a
    file with a stale name in the wiki directory. *)
Definition legacy_store : gmap path node :=
  <[ ["docs"; "theory"; "ds-report.html"] := File "old" ]>
    (<[ ["docs"; "theory"; "vision.html"] := File "kept" ]>
       (<[ ["docs"; "wiki"; "ds-note.html"] := File "wiki" ]>
          (<[ ["docs"; "wiki"] := Dir ]>
             (<[ ["docs"; "theory"] := Dir ]> (<[ ["docs"] := Dir ]> ∅))))).

(** *** Frames and preconditions of the build *)

(** A computation is confined to [P] when, whatever its outcome, the store
    it leaves differs from the store it started from only at paths
    satisfying [P]. *)
Definition confined {A} (P : path → Prop) (m : io A) : Prop :=
  ∀ fs q, store (m fs) !! q = fs !! q ∨ P q.

(** The paths a build may touch: the two output directories, the [docs]
    directory above them, and the entries directly inside the two. *)
Definition output_path (q : path) : Prop :=
  q = ["docs"] ∨ q = THEORY ∨ q = WIKI
  ∨ (∃ name, q = THEORY ++ [name]) ∨ (∃ name, q = WIKI ++ [name]).

Definition not_dir (fs : gmap path node) (p : path) : bool :=
  match fs !! p with
  | Some Dir => false
  | _ => true
  end.

Definition dir_or_absent (fs : gmap path node) (p : path) : bool :=
  match fs !! p with
  | Some (File _) => false
  | _ => true
  end.

Definition slugs_plain (pages : list Page) : bool :=
  forallb (λ p, slug_plain (slug p)) pages.

(** A store on which the build of registries with slash-free slugs ends
    normally: the stylesheet is there, nothing on the way to the two
    output directories is a regular file, no entry selected by the cleanup
    is a directory, and no path the build writes is a directory. *)
Definition build_ready (tp wp : list Page) (fs : gmap path node) : bool :=
  bool_decide (is_Some (fs !! (ASSETS </> "site.css")))
  && forallb (dir_or_absent fs) [["docs"]; THEORY; WIKI]
  && stale_are_files fs
  && not_dir fs (THEORY </> "index.html")
  && not_dir fs (WIKI </> "index.html")
  && forallb (λ p, not_dir fs (page_path THEORY p)) tp
  && forallb (λ p, not_dir fs (page_path WIKI p)) wp.

(** The files a build writes, in the order it writes them. *)
Definition site_writes (tp wp : list Page) : list (path * string) :=
  (THEORY </> "index.html", theory_index tp)
  :: map (λ p, (page_path THEORY p, render_page p)) tp
  ++ (WIKI </> "index.html", wiki_index wp)
  :: map (λ p, (page_path WIKI p, render_page p)) wp.

(** A store where the stylesheet path is a directory and the theory
    directory holds a page of an earlier build, a stale file and a file of
    another origin. *)
Definition used_store : gmap path node :=
  <[ ["docs"; "theory"; "ds-report.html"] := File "old" ]>
    (<[ ["docs"; "theory"; "vision.html"] := File "previous" ]>
       (<[ ["docs"; "theory"; "notes.txt"] := File "kept" ]>
          (<[ ["docs"; "theory"] := Dir ]>
             (<[ ["docs"; "assets"; "site.css"] := Dir ]>
                (<[ ["docs"; "assets"] := Dir ]> (<[ ["docs"] := Dir ]> ∅)))))).

(** A store where the wiki path is a regular file. *)
Definition blocked_store : gmap path node :=
  <[ ["docs"; "wiki"] := File "not a directory" ]> site_store.

(** A store whose theory directory has a directory with a stale name. *)
Definition stale_dir_store : gmap path node :=
  <[ ["docs"; "theory"; "ds-old.html"] := Dir ]> legacy_store.

(** *** Reading the other diagram fragments back *)

(** What a note fragment draws: the corner and size of the rectangle, the
    position of the text and the text. *)
Definition note_shape (frag : string)
    : option (Z * Z * Z * Z * (Z * Z) * string) :=
  s ← strip_string (txt "<rect x=`") frag;
  '(x, s) ← read_int dquote s;
  s ← strip_string (txt " y=`") s;
  '(y, s) ← read_int dquote s;
  s ← strip_string (txt " rx=`16` ry=`16` width=`") s;
  '(w, s) ← read_int dquote s;
  s ← strip_string (txt " height=`") s;
  '(h, s) ← read_int dquote s;
  s ← strip_string (txt " fill=`none` stroke=`#7fb3e6` stroke-width=`2`/>") s;
  s ← strip_string nl s;
  s ← strip_string (txt "<text x=`") s;
  '(cx, s) ← read_int dquote s;
  s ← strip_string (txt " y=`") s;
  '(cy, s) ← read_int dquote s;
  s ← strip_string (txt " text-anchor=`start` font-size=`12` fill=`#2f4a63` font-family=`Space Grotesk`>") s;
  text ← strip_suffix "</text>" s;
  Some (x, y, w, h, (cx, cy), text).

(** The fixed text of [svg_wrap] between the opening tag and the body. *)
Definition svg_defs : string :=
  ">" +:+ nl
  +:+ "  <defs>" +:+ nl
  +:+ txt "    <linearGradient id=`sky` x1=`0` y1=`0` x2=`1` y2=`1`>" +:+ nl
  +:+ txt "      <stop offset=`0` stop-color=`#e8f3ff`/>" +:+ nl
  +:+ txt "      <stop offset=`1` stop-color=`#d6f5e8`/>" +:+ nl
  +:+ "    </linearGradient>" +:+ nl
  +:+ txt "    <linearGradient id=`deep` x1=`0` y1=`0` x2=`1` y2=`1`>" +:+ nl
  +:+ txt "      <stop offset=`0` stop-color=`#0b6eff`/>" +:+ nl
  +:+ txt "      <stop offset=`1` stop-color=`#16b879`/>" +:+ nl
  +:+ "    </linearGradient>" +:+ nl
  +:+ "  </defs>" +:+ nl
  +:+ "  ".

(** What a frame holds: the view box, the label and the body. *)
Definition wrap_shape (frag : string) : option (string * string * string) :=
  s ← strip_string (txt "<svg viewBox=`") frag;
  '(viewbox, s) ← until dquote s;
  s ← strip_string (txt " role=`img` aria-label=`") s;
  '(label, s) ← until dquote s;
  s ← strip_string svg_defs s;
  body ← strip_suffix (nl +:+ "</svg>") s;
  Some (viewbox, label, body).

(** A number printed with one decimal, [0] or [5], read as twice its
    value. *)
Definition parse_halves (s : string) : option Z :=
  let '(negative, digits) :=
    match s with
    | String c rest => if Ascii.eqb c "-" then (true, rest) else (false, s)
    | EmptyString => (false, s)
    end in
  '(whole, decimal) ← until "." digits;
  n ← parse_int whole;
  twice ← (if String.eqb decimal "0" then Some (2 * n)
           else if String.eqb decimal "5" then Some (2 * n + 1)
           else None);
  Some (if negative : bool then - twice else twice).

Definition read_halves (stop : ascii) (s : string) : option (Z * string) :=
  '(digits, rest) ← until stop s;
  a ← parse_halves digits;
  Some (a, rest).

(** What a chip fragment draws: the corner and size of the rectangle,
    twice the abscissa and twice the ordinate of the text anchor, and the
    text. *)
Definition chip_shape (frag : string)
    : option (Z * Z * Z * Z * (Z * Z) * string) :=
  s ← strip_string (txt "<rect x=`") frag;
  '(x, s) ← read_int dquote s;
  s ← strip_string (txt " y=`") s;
  '(y, s) ← read_int dquote s;
  s ← strip_string (txt " rx=`18` ry=`18` width=`") s;
  '(w, s) ← read_int dquote s;
  s ← strip_string (txt " height=`") s;
  '(h, s) ← read_int dquote s;
  s ← strip_string (txt " fill=`url(#sky)` stroke=`#7fb3e6` stroke-width=`2`/>") s;
  s ← strip_string nl s;
  s ← strip_string (txt "<text x=`") s;
  '(cx2, s) ← read_halves dquote s;
  s ← strip_string (txt " y=`") s;
  '(cy2, s) ← read_halves dquote s;
  s ← strip_string (txt " text-anchor=`middle` font-size=`13` fill=`#0b1a2b` font-family=`Space Grotesk`>") s;
  text ← strip_suffix "</text>" s;
  Some (x, y, w, h, (cx2, cy2), text).

(** *** A build stopped at a write *)




(** *** Reading a document's shell *)

(** The fixed text of the shell between its holes. *)
Definition shell_open : string :=
  "<!doctype html>" +:+ nl
  +:+ txt "<html lang=`en`>" +:+ nl
  +:+ "  <head>" +:+ nl
  +:+ txt "    <meta charset=`utf-8`>" +:+ nl
  +:+ txt "    <meta name=`viewport` content=`width=device-width, initial-scale=1`>" +:+ nl
  +:+ "    <title>".

Definition shell_fonts : string :=
  "/title>" +:+ nl
  +:+ txt "    <link rel=`preconnect` href=`https://fonts.googleapis.com`>" +:+ nl
  +:+ txt "    <link rel=`preconnect` href=`https://fonts.gstatic.com` crossorigin>" +:+ nl
  +:+ txt "    <link href=`https://fonts.googleapis.com/css2?family=Fraunces:wght@400;600&family=Space+Grotesk:wght@400;500;600&display=swap` rel=`stylesheet`>" +:+ nl
  +:+ txt "    <link rel=`stylesheet` href=`".

Definition shell_header : string :=
  ">" +:+ nl
  +:+ "  </head>" +:+ nl
  +:+ "  <body>" +:+ nl
  +:+ txt "    <div class=`site`>" +:+ nl
  +:+ txt "      <header class=`header`>" +:+ nl
  +:+ txt "        <div class=`brand`>VSAVM</div>" +:+ nl
  +:+ txt "        <nav class=`nav`>" +:+ nl
  +:+ txt "          <a href=`".

Definition shell_next (label : string) : string :=
  ">" +:+ label +:+ "</a>" +:+ nl +:+ txt "          <a href=`".

Definition shell_main : string :=
  ">Wiki</a>" +:+ nl
  +:+ "        </nav>" +:+ nl
  +:+ "      </header>" +:+ nl
  +:+ txt "      <main class=`main content`>" +:+ nl
  +:+ "        ".

(** What a document's shell holds: the title, the targets of the
    stylesheet link and of the four navigation links, in the order
    written, and the content block. *)
Definition shell_shape (doc : string) : option (string * list string * string) :=
  s ← strip_string shell_open doc;
  '(heading, s) ← until "<" s;
  title ← strip_suffix " | VSAVM" heading;
  s ← strip_string shell_fonts s;
  '(css, s) ← until dquote s;
  s ← strip_string shell_header s;
  '(home, s) ← until dquote s;
  s ← strip_string (shell_next "Home") s;
  '(specs, s) ← until dquote s;
  s ← strip_string (shell_next "Specs") s;
  '(theory, s) ← until dquote s;
  s ← strip_string (shell_next "Theory") s;
  '(wiki, s) ← until dquote s;
  s ← strip_string shell_main s;
  content ← strip_suffix html_foot s;
  Some (title, [css; home; specs; theory; wiki], content).

(** The files the links of a document's shell point at from a directory
    one level below [docs]. *)
Definition shell_targets : list path :=
  [ASSETS </> "site.css"; ["docs"; "index.html"]; ["docs"; "specs.html"];
   THEORY </> "index.html"; WIKI </> "index.html"].

(** A page with the slug of [sample_page] and another title. *)
Definition twin_page : Page :=
  {| slug := "sample";
     title := "Twin";
     kind := "wiki";
     aria := "Sample diagram";
     svg := svg_wrap "0 0 10 10" "Sample diagram" (svg_arrow 0 0 5 0 svg_arrow_color);
     caption := "A twin.";
     sections := [("Overview", "C")];
     references := [] |}.

(** *** The cleanup as the specification words it *)

(** "Every file there whose name matches the fixed stale pattern is
    deleted": no regular file of the theory directory with a matching name
    is left by the cleanup. *)
Definition matching_files_deleted (fs : gmap path node) : Prop :=
  ∀ name content,
    fnmatch "ds*.html" name = true →
    fs !! (THEORY ++ [name]) = Some (File content) →
    store (remove_legacy_theory_pages fs) !! (THEORY ++ [name]) = None.

(** A theory directory with a stale file and a directory with a stale
    name. *)
Definition mixed_stale_store : gmap path node :=
  <[ ["docs"; "theory"; "ds-old.html"] := Dir ]>
    (<[ ["docs"; "theory"; "ds-a.html"] := File "old" ]>
       (<[ ["docs"; "theory"] := Dir ]> (<[ ["docs"] := Dir ]> ∅))).

(** *** File names the operating system accepts *)

(** The file name of every page is at most 255 bytes long and holds no
    NUL character; [open] refuses other names, which the store does not
    model. *)
Definition names_fit (pages : list Page) : bool :=
  forallb (λ p, (String.length (slug p +:+ ".html") <=? 255)%nat
                && no_char "000" (slug p)) pages.

(** * Properties *)

#[local] Arguments String.append : simpl nomatch.

(** ** Running computations *)

Lemma bind_run {A B} (m : io A) (f : A → io B) (fs : gmap path node) :
  (m ≫= f) fs =
  match outcome (m fs) with
  | inl e => Result (inl e) (store (m fs)) (trace (m fs))
  | inr a =>
      Result (outcome (f a (store (m fs)))) (store (f a (store (m fs))))
        (trace (m fs) ++ trace (f a (store (m fs))))
  end.
Proof. reflexivity. Qed.

Lemma catch_run {A} (m : io A) (h : exn → io A) (fs : gmap path node) :
  catch m h fs =
  match outcome (m fs) with
  | inl e =>
      Result (outcome (h e (store (m fs)))) (store (h e (store (m fs))))
        (trace (m fs) ++ trace (h e (store (m fs))))
  | inr a => m fs
  end.
Proof. reflexivity. Qed.

Lemma path_exists_run (p : path) (fs : gmap path node) :
  path_exists p fs =
  Result (inr (match lookup_node fs p with Some _ => true | None => false end))
    fs [Exists p].
Proof. reflexivity. Qed.

Lemma os_mkdir_run (p : path) (fs : gmap path node) :
  os_mkdir p fs =
  match lookup_node fs p with
  | Some _ => Result (inl (FileExistsError p)) fs []
  | None =>
      match lookup_node fs (parent p) with
      | None => Result (inl (FileNotFoundError p)) fs []
      | Some (File _) => Result (inl (NotADirectoryError p)) fs []
      | Some Dir => Result (inr ()) (<[p := Dir]> fs) []
      end
  end.
Proof.
  unfold os_mkdir. rewrite bind_run. cbn.
  destruct (lookup_node fs p); [reflexivity|].
  destruct (lookup_node fs (parent p)) as [[]|]; reflexivity.
Qed.

Lemma is_dir_run (p : path) (fs : gmap path node) :
  is_dir p fs =
  Result (inr (match lookup_node fs p with Some Dir => true | _ => false end)) fs [].
Proof. reflexivity. Qed.

Lemma lookup_node_fs (fs : gmap path node) (p : path) (v : node) :
  fs !! p = Some v → p ≠ [] → lookup_node fs p = Some v.
Proof. destruct p; [congruence|]. cbn. auto. Qed.

Lemma lookup_node_None (fs : gmap path node) (p : path) :
  lookup_node fs p = None → p ≠ [] ∧ fs !! p = None.
Proof. destruct p; cbn; [discriminate|]. auto. Qed.

(** What one [os.mkdir] leaves: nothing is emitted, nothing present is
    lost, and on success the path is a directory. *)
Lemma os_mkdir_spec (p : path) (fs : gmap path node) :
  trace (os_mkdir p fs) = []
  ∧ (∀ q v, fs !! q = Some v → store (os_mkdir p fs) !! q = Some v)
  ∧ (outcome (os_mkdir p fs) = inr () → lookup_node (store (os_mkdir p fs)) p = Some Dir).
Proof.
  rewrite os_mkdir_run.
  destruct (lookup_node fs p) eqn:Hp; cbn; [by auto|].
  destruct (lookup_node fs (parent p)) as [[]|]; cbn; try by auto.
  apply lookup_node_None in Hp as [Hne Hp].
  split; [done|]. split.
  - intros q v Hq. rewrite lookup_insert_ne; [done|]. congruence.
  - intros _. apply lookup_node_fs; [|done]. by rewrite lookup_insert_eq.
Qed.

Lemma os_mkdir_failed (p : path) (fs : gmap path node) (e : exn) :
  outcome (os_mkdir p fs) = inl e → store (os_mkdir p fs) = fs.
Proof.
  rewrite os_mkdir_run.
  destruct (lookup_node fs p); [done|].
  by destruct (lookup_node fs (parent p)) as [[]|].
Qed.

Lemma unless_is_dir_spec (p : path) (e : exn) (fs : gmap path node) :
  trace (unless_is_dir p e fs) = []
  ∧ store (unless_is_dir p e fs) = fs
  ∧ (outcome (unless_is_dir p e fs) = inr () → lookup_node fs p = Some Dir).
Proof.
  unfold unless_is_dir. rewrite bind_run, is_dir_run. cbn [outcome store trace].
  by destruct (lookup_node fs p) as [[]|].
Qed.

Lemma mkdir_rev_spec (rp : list string) (b : bool) (fs : gmap path node) :
  trace (mkdir_rev b rp fs) = []
  ∧ (∀ q v, fs !! q = Some v → store (mkdir_rev b rp fs) !! q = Some v)
  ∧ (outcome (mkdir_rev b rp fs) = inr () →
     lookup_node (store (mkdir_rev b rp fs)) (reverse rp) = Some Dir).
Proof.
  revert b fs. induction rp as [|c rp IH]; intros b fs.
  - by cbn.
  - cbn [mkdir_rev]. set (p := reverse (c :: rp)). rewrite catch_run.
    destruct (os_mkdir_spec p fs) as (Ht & Hkeep & Hdir).
    destruct (outcome (os_mkdir p fs)) as [e|[]] eqn:Ho; [|by rewrite Ho].
    rewrite (os_mkdir_failed _ _ _ Ho), Ht. cbn [app].
    assert (Hother : ∀ e', let r := unless_is_dir p e' fs in
      trace r = [] ∧ (∀ q v, fs !! q = Some v → store r !! q = Some v)
      ∧ (outcome r = inr () → lookup_node (store r) p = Some Dir)).
    { intros e'. destruct (unless_is_dir_spec p e' fs) as (H1 & H2 & H3).
      cbv zeta. rewrite H1, H2. by repeat split. }
    destruct e as [msg|q|q|q|q]; try apply Hother.
    destruct b; [|by cbn].
    rewrite bind_run.
    destruct (IH true fs) as (IHt & IHkeep & IHdir).
    destruct (outcome (mkdir_rev true rp fs)) as [e|[]]; cbn [outcome store trace].
    { by rewrite IHt. }
    rewrite IHt. cbn [app]. rewrite catch_run.
    set (fs1 := store (mkdir_rev true rp fs)) in *.
    destruct (os_mkdir_spec p fs1) as (Ht1 & Hkeep1 & Hdir1).
    destruct (outcome (os_mkdir p fs1)) as [e|[]] eqn:Ho1.
    2:{ rewrite Ho1. split; [done|]. split; [|done]. auto. }
    rewrite (os_mkdir_failed _ _ _ Ho1), Ht1. cbn [app].
    assert (Hother1 : ∀ e', let r := unless_is_dir p e' fs1 in
      trace r = [] ∧ (∀ q v, fs !! q = Some v → store r !! q = Some v)
      ∧ (outcome r = inr () → lookup_node (store r) p = Some Dir)).
    { intros e'. destruct (unless_is_dir_spec p e' fs1) as (H1 & H2 & H3).
      cbv zeta. rewrite H1, H2. repeat split; auto. }
    destruct e as [msg|q'|q'|q'|q']; try apply Hother1.
    cbn. repeat split; auto. done.
Qed.

Lemma mkdir_spec (p : path) (fs : gmap path node) :
  trace (mkdir p fs) = [Mkdir p]
  ∧ (∀ q v, fs !! q = Some v → store (mkdir p fs) !! q = Some v)
  ∧ (outcome (mkdir p fs) = inr () → lookup_node (store (mkdir p fs)) p = Some Dir).
Proof.
  unfold mkdir. rewrite bind_run. cbn [log outcome store trace].
  destruct (mkdir_rev_spec (reverse p) true fs) as (Ht & Hkeep & Hdir).
  rewrite reverse_involutive in Hdir. rewrite Ht. by repeat split.
Qed.

Lemma unlink_run (p : path) (fs : gmap path node) :
  unlink p fs =
  match lookup_node fs p with
  | None => Result (inr ()) fs [Unlink p]
  | Some Dir => Result (inl (IsADirectoryError p)) fs [Unlink p]
  | Some (File _) => Result (inr ()) (delete p fs) [Unlink p]
  end.
Proof.
  unfold unlink. do 2 (rewrite bind_run; cbn).
  by destruct (lookup_node fs p) as [[]|].
Qed.

Lemma write_text_run (p : path) (data : string) (fs : gmap path node) :
  write_text p data fs =
  match lookup_node fs (parent p) with
  | None => Result (inl (FileNotFoundError p)) fs [WriteText p data]
  | Some (File _) => Result (inl (NotADirectoryError p)) fs [WriteText p data]
  | Some Dir =>
      match lookup_node fs p with
      | Some Dir => Result (inl (IsADirectoryError p)) fs [WriteText p data]
      | _ => Result (inr ()) (<[p := File data]> fs) [WriteText p data]
      end
  end.
Proof.
  unfold write_text. do 2 (rewrite bind_run; cbn).
  destruct (lookup_node fs (parent p)) as [[]|]; try done.
  by destruct (lookup_node fs p) as [[]|].
Qed.

Lemma write_text_spec (p : path) (data : string) (fs : gmap path node) :
  trace (write_text p data fs) = [WriteText p data]
  ∧ (outcome (write_text p data fs) = inr () →
     store (write_text p data fs) = <[p := File data]> fs)
  ∧ (∀ e, outcome (write_text p data fs) = inl e → store (write_text p data fs) = fs).
Proof.
  rewrite write_text_run.
  destruct (lookup_node fs (parent p)) as [[]|]; try done.
  by destruct (lookup_node fs p) as [[]|].
Qed.

Lemma for_each_nil {A} (body : A → io unit) (fs : gmap path node) :
  for_each [] body fs = Result (inr ()) fs [].
Proof. reflexivity. Qed.

Lemma for_each_cons {A} (a : A) (l : list A) (body : A → io unit) (fs : gmap path node) :
  for_each (a :: l) body fs =
  match outcome (body a fs) with
  | inl e => Result (inl e) (store (body a fs)) (trace (body a fs))
  | inr _ =>
      Result (outcome (for_each l body (store (body a fs))))
        (store (for_each l body (store (body a fs))))
        (trace (body a fs) ++ trace (for_each l body (store (body a fs))))
  end.
Proof. reflexivity. Qed.

(** The [unlink] loop of the cleanup. *)
Lemma for_each_unlink_spec (paths : list path) (fs : gmap path node) :
  Forall (λ p, p ≠ []) paths →
  (∀ q, store (for_each paths unlink fs) !! q = fs !! q
        ∨ (q ∈ paths ∧ (∃ c, fs !! q = Some (File c))
           ∧ store (for_each paths unlink fs) !! q = None))
  ∧ Forall (λ e, ∃ p, p ∈ paths ∧ e = Unlink p) (trace (for_each paths unlink fs))
  ∧ ((∀ p, p ∈ paths → fs !! p ≠ Some Dir) →
     outcome (for_each paths unlink fs) = inr ()
     ∧ trace (for_each paths unlink fs) = map Unlink paths
     ∧ ∀ p, p ∈ paths → store (for_each paths unlink fs) !! p = None).
Proof.
  intros Hne. revert fs. induction Hne as [|p paths Hp Hne IH]; intros fs.
  - rewrite for_each_nil. cbn. split; [by left|]. split; [constructor|].
    intros _. split; [done|]. split; [done|]. intros p Hp. by apply elem_of_nil in Hp.
  - rewrite for_each_cons, unlink_run.
    assert (Hl : lookup_node fs p = fs !! p) by (by destruct p).
    rewrite Hl. destruct (fs !! p) as [[c|]|] eqn:Hfp; cbn [outcome store trace].
    + destruct (IH (delete p fs)) as (Hfr & Htr & Hok).
      split; [|split].
      * intros q. destruct (decide (q = p)) as [->|Hqp].
        -- right. split; [by left|]. split; [by eauto|].
           destruct (Hfr p) as [H|(_ & _ & H)]; [|done].
           by rewrite H, lookup_delete_eq.
        -- destruct (Hfr q) as [H|(Hin & [c' Hc'] & H)].
           ++ left. by rewrite H, lookup_delete_ne.
           ++ right. split; [by right|]. split; [|done].
              exists c'. by rewrite lookup_delete_ne in Hc'.
      * constructor; [exists p; split; [by left|done]|].
        eapply Forall_impl; [exact Htr|]. intros e (p' & Hin & ->).
        exists p'. split; [by right|done].
      * intros Hfiles.
        destruct Hok as (Ho & Ht & Hgone).
        { intros p' Hin Hd. apply (Hfiles p'); [by right|].
          destruct (decide (p' = p)) as [->|Hpp].
          - by rewrite lookup_delete_eq in Hd.
          - by rewrite lookup_delete_ne in Hd. }
        split; [done|]. split; [by rewrite Ht|].
        intros p' [->|Hin]%elem_of_cons; [|by auto].
        destruct (Hfr p) as [H|(_ & _ & H)]; [|done].
        by rewrite H, lookup_delete_eq.
    + split; [by left|]. split.
      * constructor; [|constructor]. exists p. split; [by left|done].
      * intros Hfiles. exfalso. apply (Hfiles p); [by left|done].
    + destruct (IH fs) as (Hfr & Htr & Hok).
      split; [|split].
      * intros q. destruct (Hfr q) as [H|(Hin & Hc & H)]; [by left|].
        right. split; [by right|done].
      * constructor; [exists p; split; [by left|done]|].
        eapply Forall_impl; [exact Htr|]. intros e (p' & Hin & ->).
        exists p'. split; [by right|done].
      * intros Hfiles.
        destruct Hok as (Ho & Ht & Hgone).
        { intros p' Hin. apply Hfiles. by right. }
        split; [done|]. split; [by rewrite Ht|].
        intros p' [->|Hin]%elem_of_cons; [|by auto].
        destruct (Hfr p) as [H|(_ & _ & H)]; [|done].
        by rewrite H.
Qed.

(** ** Directory listing and pattern matching *)

Lemma strip_prefix_Some (dir p r : path) :
  strip_prefix dir p = Some r ↔ p = dir ++ r.
Proof.
  revert p. induction dir as [|d dir IH]; intros p; cbn.
  - split; [by intros [= ->]|by intros ->].
  - destruct p as [|c p]; [by split|].
    destruct (String.eqb_spec d c) as [->|Hdc].
    + rewrite IH. split; [by intros ->|by intros [= ->]].
    + split; [done|]. intros [= -> _]. done.
Qed.

Lemma child_name_Some (dir p : path) (name : string) :
  child_name dir p = Some name ↔ p = dir ++ [name].
Proof.
  unfold child_name. destruct (strip_prefix dir p) as [r|] eqn:Hr.
  - apply strip_prefix_Some in Hr as ->.
    destruct r as [|n [|n' r]]; split; try done.
    + intros H. apply (f_equal length) in H. rewrite !length_app in H. cbn in H. lia.
    + by intros [= ->].
    + by intros [= ->]%app_inv_head.
    + intros [=]%app_inv_head.
  - split; [done|]. intros ->.
    assert (strip_prefix dir (dir ++ [name]) = Some [name]) by by apply strip_prefix_Some.
    congruence.
Qed.

Lemma elem_of_listdir (fs : gmap path node) (dir : path) (name : string) :
  name ∈ listdir fs dir ↔ is_Some (fs !! (dir ++ [name])).
Proof.
  unfold listdir. rewrite list_elem_of_omap. split.
  - intros ([k v] & Hin & Hc). apply elem_of_map_to_list in Hin.
    apply child_name_Some in Hc. cbn in Hc. subst k. eauto.
  - intros [v Hv]. exists (dir ++ [name], v). split.
    + by apply elem_of_map_to_list.
    + by apply child_name_Some.
Qed.

Lemma elem_of_stale_entries (fs : gmap path node) (name : string) :
  name ∈ stale_entries fs ↔
  fnmatch "ds*.html" name = true ∧ is_Some (fs !! (THEORY ++ [name])).
Proof.
  unfold stale_entries. rewrite list_elem_of_In, filter_In, <- list_elem_of_In.
  rewrite elem_of_listdir. tauto.
Qed.

Lemma fnmatch_star (pat name : string) :
  fnmatch (String "*" pat) name = true ↔
  ∃ pre post, name = pre +:+ post ∧ fnmatch pat post = true.
Proof.
  induction name as [|c name IH].
  - cbn. rewrite orb_false_r. split.
    + intros H. by exists EmptyString, EmptyString.
    + intros (pre & post & Heq & H). destruct pre; cbn in Heq; [by subst|done].
  - change (fnmatch (String "*" pat) (String c name))
      with (fnmatch pat (String c name) || fnmatch (String "*" pat) name).
    rewrite orb_true_iff, IH. split.
    + intros [H|(pre & post & -> & H)].
      * by exists EmptyString, (String c name).
      * by exists (String c pre), post.
    + intros (pre & post & Heq & H). destruct pre as [|c' pre].
      * left. cbn in Heq. by subst.
      * right. cbn in Heq. injection Heq as -> ->. eauto.
Qed.

Lemma fnmatch_literal (c : ascii) (pat name : string) :
  Ascii.eqb c "*" = false →
  fnmatch (String c pat) name = true ↔
  ∃ rest, name = String c rest ∧ fnmatch pat rest = true.
Proof.
  intros Hc. cbn [fnmatch]. rewrite Hc. destruct name as [|d name].
  - split; [done|]. by intros (rest & ? & _).
  - rewrite andb_true_iff. destruct (Ascii.eqb_spec c d) as [<-|Hcd].
    + split; [intros [_ H]; by exists name|]. by intros (rest & [= <-] & H).
    + split; [by intros [? _]|]. intros (rest & [= ? _] & _). done.
Qed.

Lemma fnmatch_empty (name : string) :
  fnmatch EmptyString name = true ↔ name = EmptyString.
Proof. by destruct name. Qed.

(** The names the cleanup pattern selects: [ds], anything, [.html]. *)
Lemma fnmatch_stale (name : string) :
  fnmatch "ds*.html" name = true ↔ ∃ mid, name = "ds" +:+ mid +:+ ".html".
Proof.
  assert (Hlit : ∀ s, fnmatch ".html" s = true ↔ s = ".html").
  { intros s. split; [|by intros ->].
    intros H.
    repeat (apply fnmatch_literal in H as (? & -> & H); [|done]).
    by apply fnmatch_empty in H as ->. }
  split.
  - intros H.
    do 2 (apply fnmatch_literal in H as (? & -> & H); [|done]).
    apply fnmatch_star in H as (pre & post & -> & ->%Hlit). by exists pre.
  - intros [mid ->].
    do 2 (apply fnmatch_literal; [done|]; eexists; split; [reflexivity|]).
    apply fnmatch_star. exists mid, ".html". by split.
Qed.

(** ** Legacy cleanup *)

Lemma remove_legacy_theory_pages_run (fs : gmap path node) :
  remove_legacy_theory_pages fs =
  match fs !! THEORY with
  | None => Result (inr ()) fs [Exists THEORY]
  | Some _ =>
      Result
        (outcome (for_each (map (λ name, THEORY ++ [name]) (stale_entries fs)) unlink fs))
        (store (for_each (map (λ name, THEORY ++ [name]) (stale_entries fs)) unlink fs))
        (Exists THEORY :: Glob THEORY "ds*.html"
         :: trace (for_each (map (λ name, THEORY ++ [name]) (stale_entries fs)) unlink fs))
  end.
Proof.
  unfold remove_legacy_theory_pages. rewrite bind_run, path_exists_run.
  cbn [outcome store trace].
  change (lookup_node fs THEORY) with (fs !! THEORY).
  destruct (fs !! THEORY); [|reflexivity].
  cbn [negb]. rewrite bind_run. reflexivity.
Qed.

Lemma wiki_not_under_theory (rest : path) (name : string) :
  WIKI ++ rest ≠ THEORY ++ [name].
Proof. by intros [=]. Qed.

(** C8, as the code has it.  The cleanup scans the theory directory
    only: a missing directory or an empty selection is tolerated;
    whatever the outcome, the only change
    to the store is that files of the theory directory whose name matches
    [ds*.html] disappear, so other files and everything under the wiki
    directory stay as they were, and every call made is on the theory
    directory or on a matching entry of it; and when the directory exists
    and the matching entries are files, the cleanup succeeds and no matching
    entry is left. *)
Theorem legacy_cleanup_scope (fs : gmap path node) :
  (fs !! THEORY = None →
   remove_legacy_theory_pages fs = Result (inr ()) fs [Exists THEORY])
  ∧ (is_Some (fs !! THEORY) → stale_entries fs = [] →
     outcome (remove_legacy_theory_pages fs) = inr ()
     ∧ store (remove_legacy_theory_pages fs) = fs)
  ∧ (is_Some (fs !! THEORY) → stale_are_files fs = true →
     outcome (remove_legacy_theory_pages fs) = inr ()
     ∧ ∀ name, fnmatch "ds*.html" name = true →
         store (remove_legacy_theory_pages fs) !! (THEORY ++ [name]) = None)
  ∧ (∀ q, store (remove_legacy_theory_pages fs) !! q = fs !! q
          ∨ ∃ name content,
              q = THEORY ++ [name] ∧ fnmatch "ds*.html" name = true
              ∧ fs !! q = Some (File content)
              ∧ store (remove_legacy_theory_pages fs) !! q = None)
  ∧ (∀ rest, store (remove_legacy_theory_pages fs) !! (WIKI ++ rest) = fs !! (WIKI ++ rest))
  ∧ Forall (λ e, e = Exists THEORY ∨ e = Glob THEORY "ds*.html"
                 ∨ ∃ name, fnmatch "ds*.html" name = true ∧ e = Unlink (THEORY ++ [name]))
      (trace (remove_legacy_theory_pages fs))
  ∧ (∀ name, fnmatch "ds*.html" name = true ↔ ∃ mid, name = "ds" +:+ mid +:+ ".html").
Proof.
  set (paths := map (λ name, THEORY ++ [name]) (stale_entries fs)).
  assert (Hne : Forall (λ p : path, p ≠ []) paths).
  { apply Forall_forall. intros p (name & -> & _)%list_elem_of_fmap. done. }
  destruct (for_each_unlink_spec paths fs Hne) as (Hframe & Htrace & Hok).
  assert (Hin : ∀ q, q ∈ paths ↔ ∃ name, q = THEORY ++ [name]
                       ∧ fnmatch "ds*.html" name = true
                       ∧ is_Some (fs !! (THEORY ++ [name]))).
  { intros q. unfold paths. rewrite list_elem_of_fmap.
    setoid_rewrite elem_of_stale_entries. split.
    - intros (name & -> & Hm & Hs). eauto.
    - intros (name & -> & Hm & Hs). eauto. }
  assert (Hchg : ∀ q, store (remove_legacy_theory_pages fs) !! q = fs !! q
          ∨ ∃ name content,
              q = THEORY ++ [name] ∧ fnmatch "ds*.html" name = true
              ∧ fs !! q = Some (File content)
              ∧ store (remove_legacy_theory_pages fs) !! q = None).
  { intros q. rewrite remove_legacy_theory_pages_run.
    destruct (fs !! THEORY); [|by left]. cbn [store].
    destruct (Hframe q) as [H|(Hq & [c Hc] & H)]; [by left|].
    right. apply Hin in Hq as (name & -> & Hm & _). by exists name, c. }
  split; [|split; [|split; [|split; [|split; [|split]]]]].
  - intros Hnone. rewrite remove_legacy_theory_pages_run. by rewrite Hnone.
  - intros [d Hd] Hnil. rewrite remove_legacy_theory_pages_run, Hd.
    unfold paths in *. by rewrite Hnil.
  - intros [d Hd] Hfiles. rewrite remove_legacy_theory_pages_run, Hd.
    cbn [outcome store].
    destruct Hok as (Ho & _ & Hgone).
    { intros p (name & -> & Hm & _)%Hin Hdir.
      unfold stale_are_files in Hfiles. rewrite forallb_forall in Hfiles.
      specialize (Hfiles name). rewrite Hdir in Hfiles.
      assert (name ∈ stale_entries fs) as Hs%list_elem_of_In
        by (apply elem_of_stale_entries; rewrite Hdir; eauto).
      by specialize (Hfiles Hs). }
    split; [done|]. intros name Hm.
    destruct (fs !! (THEORY ++ [name])) as [v|] eqn:Hv.
    + apply Hgone, Hin. exists name. rewrite Hv. eauto.
    + destruct (Hframe (THEORY ++ [name])) as [H|(_ & _ & H)]; [|done].
      unfold paths in H. by rewrite H.
  - exact Hchg.
  - intros rest. destruct (Hchg (WIKI ++ rest)) as [H|(name & c & Heq & _)]; [done|].
    by apply wiki_not_under_theory in Heq.
  - rewrite remove_legacy_theory_pages_run.
    destruct (fs !! THEORY); cbn [trace]; [|by repeat constructor].
    constructor; [by left|]. constructor; [by right; left|].
    eapply Forall_impl; [exact Htrace|].
    intros e (p & (name & -> & Hm & _)%Hin & ->). right. right. eauto.
  - apply fnmatch_stale.
Qed.

Lemma legacy_cleanup_scope_witness :
  outcome (remove_legacy_theory_pages legacy_store) = inr ()
  ∧ ∀ name, fnmatch "ds*.html" name = true →
      store (remove_legacy_theory_pages legacy_store) !! (THEORY ++ [name]) = None.
Proof.
  apply (legacy_cleanup_scope legacy_store).
  - exists Dir. reflexivity.
  - vm_compute. reflexivity.
Defined.

(** The cleanup is not what the specification words when a directory of
    the theory directory has a stale name: the unlink of it raises, and
    the stale file [ds-a.html] beside it, which the listing gives after
    the directory, is still there. *)
Lemma cleanup_leaves_stale_file :
  outcome (remove_legacy_theory_pages mixed_stale_store)
  = inl (IsADirectoryError (THEORY ++ ["ds-old.html"]))
  ∧ ¬ matching_files_deleted mixed_stale_store.
Proof.
  split; [vm_compute; reflexivity|].
  intros H. specialize (H "ds-a.html" "old" eq_refl eq_refl).
  vm_compute in H. discriminate H.
Qed.

(** ** The build *)

Lemma for_each_ok_trace {A} (ev : A → event) (body : A → io unit) (l : list A)
    (fs : gmap path node) :
  (∀ a fs', trace (body a fs') = [ev a]) →
  outcome (for_each l body fs) = inr () →
  trace (for_each l body fs) = map ev l.
Proof.
  intros Hev. revert fs. induction l as [|a l IH]; intros fs; [done|].
  rewrite for_each_cons.
  destruct (outcome (body a fs)) as [e|[]]; cbn [outcome trace]; [done|].
  intros Ho. by rewrite Hev, (IH _ Ho).
Qed.

Lemma for_each_write_ok (dir : path) (pages : list Page) (fs : gmap path node) :
  outcome (for_each pages (λ p, write_text (page_path dir p) (render_page p)) fs) = inr () →
  store (for_each pages (λ p, write_text (page_path dir p) (render_page p)) fs)
  = write_pages dir pages fs
  ∧ trace (for_each pages (λ p, write_text (page_path dir p) (render_page p)) fs)
    = map (page_write dir) pages.
Proof.
  revert fs. induction pages as [|p pages IH]; intros fs; [done|].
  rewrite for_each_cons.
  destruct (write_text_spec (page_path dir p) (render_page p) fs) as (Ht & Hs & _).
  destruct (outcome (write_text _ _ fs)) as [e|[]]; cbn [outcome store trace]; [done|].
  intros Ho. destruct (IH _ Ho) as [-> ->].
  by rewrite Ht, (Hs eq_refl).
Qed.

Lemma write_pages_cons (dir : path) (p : Page) (pages : list Page)
    (fs : gmap path node) :
  write_pages dir (p :: pages) fs
  = write_pages dir pages (<[page_path dir p := File (render_page p)]> fs).
Proof. reflexivity. Qed.

Lemma write_pages_lookup_other (dir : path) (pages : list Page)
    (fs : gmap path node) (q : path) :
  (∀ p, p ∈ pages → page_path dir p ≠ q) →
  write_pages dir pages fs !! q = fs !! q.
Proof.
  revert fs. induction pages as [|p pages IH]; intros fs Hq; [done|].
  rewrite write_pages_cons, IH.
  - apply lookup_insert_ne, Hq. by left.
  - intros p' Hp'. apply Hq. by right.
Qed.

Lemma write_pages_lookup (dir : path) (pages : list Page) (fs : gmap path node)
    (p : Page) :
  NoDup (map (page_path dir) pages) → p ∈ pages →
  write_pages dir pages fs !! page_path dir p = Some (File (render_page p)).
Proof.
  revert fs. induction pages as [|p0 pages IH]; intros fs Hnd Hin.
  { by apply elem_of_nil in Hin. }
  cbn in Hnd. apply NoDup_cons in Hnd as [Hnotin Hnd].
  apply elem_of_cons in Hin as [->|Hin]; rewrite write_pages_cons.
  - rewrite write_pages_lookup_other; [by rewrite lookup_insert_eq|].
    intros p' Hp' Heq. apply Hnotin. rewrite <- Heq.
    by apply list_elem_of_fmap_2.
  - by apply IH.
Qed.

(** Some page of the list is what the loop leaves at each page path. *)
Lemma write_pages_lookup_some (dir : path) (pages : list Page)
    (fs : gmap path node) (p : Page) :
  p ∈ pages →
  ∃ p', p' ∈ pages ∧ page_path dir p' = page_path dir p
        ∧ write_pages dir pages fs !! page_path dir p = Some (File (render_page p')).
Proof.
  revert fs. induction pages as [|p0 pages IH] using rev_ind; intros fs Hin.
  { by apply elem_of_nil in Hin. }
  unfold write_pages. rewrite foldl_app. cbn.
  destruct (decide (page_path dir p0 = page_path dir p)) as [Heq|Hne].
  - exists p0. split; [apply elem_of_app; right; by left|]. split; [done|].
    by rewrite <- Heq, lookup_insert_eq.
  - apply elem_of_app in Hin as [Hin|Hin%list_elem_of_singleton]; [|by subst].
    destruct (IH fs Hin) as (p' & Hp' & Hpath & Hl).
    exists p'. split; [apply elem_of_app; by left|]. split; [done|].
    by rewrite lookup_insert_ne.
Qed.

Lemma split_on_plain (s : string) :
  slug_plain s = true → split_on "/" s = [s].
Proof.
  induction s as [|c s IH]; [done|]. cbn [slug_plain split_on].
  intros [Hc Hs]%andb_true_iff. apply negb_true_iff in Hc. rewrite Hc.
  by rewrite (IH Hs).
Qed.

Lemma slug_plain_app (s t : string) :
  slug_plain s = true → slug_plain t = true → slug_plain (s +:+ t) = true.
Proof.
  induction s as [|c s IH]; [done|]. cbn.
  intros [Hc Hs]%andb_true_iff Ht. rewrite Hc. cbn. auto.
Qed.

Lemma page_path_plain (dir : path) (p : Page) :
  slug_plain (slug p) = true →
  page_path dir p = dir ++ [slug p +:+ ".html"].
Proof.
  intros Hp. unfold page_path, joinpath, segment_parts.
  rewrite split_on_plain by (by apply slug_plain_app).
  cbn [List.filter].
  assert (Hne : ∀ s, s +:+ ".html" ≠ EmptyString) by (by intros []).
  assert (String.eqb (slug p +:+ ".html") EmptyString = false) as ->.
  { apply String.eqb_neq, Hne. }
  assert (String.eqb (slug p +:+ ".html") "." = false) as ->.
  { apply String.eqb_neq. destruct (slug p) as [|c s]; [done|].
    cbn. intros [= _ H]. by apply Hne in H. }
  reflexivity.
Qed.

Lemma bind_ok {A B} (m : io A) (f : A → io B) (fs : gmap path node) (b : B) :
  outcome ((m ≫= f) fs) = inr b →
  ∃ a, outcome (m fs) = inr a
       ∧ outcome (f a (store (m fs))) = inr b
       ∧ store ((m ≫= f) fs) = store (f a (store (m fs)))
       ∧ trace ((m ≫= f) fs) = trace (m fs) ++ trace (f a (store (m fs))).
Proof.
  rewrite bind_run. destruct (outcome (m fs)) as [e|a]; [done|].
  cbn [outcome store trace]. eauto.
Qed.

Lemma main_with_run (tp wp : list Page) (fs : gmap path node) :
  main_with tp wp fs =
  match fs !! (ASSETS </> "site.css") with
  | None =>
      Result (inl (SystemExit "Expected docs/assets/site.css to exist.")) fs
        [Exists (ASSETS </> "site.css")]
  | Some _ =>
      let r :=
        (mkdir THEORY ;;
         mkdir WIKI ;;
         remove_legacy_theory_pages ;;
         write_text (THEORY </> "index.html") (theory_index tp) ;;
         for_each tp (λ p, write_text (page_path THEORY p) (render_page p)) ;;
         write_text (WIKI </> "index.html") (wiki_index wp) ;;
         for_each wp (λ p, write_text (page_path WIKI p) (render_page p))) fs in
      Result (outcome r) (store r) (Exists (ASSETS </> "site.css") :: trace r)
  end.
Proof.
  unfold main_with. rewrite bind_run, path_exists_run. cbn [outcome store trace].
  change (lookup_node fs (ASSETS </> "site.css")) with (fs !! (ASSETS </> "site.css")).
  destruct (fs !! (ASSETS </> "site.css")); reflexivity.
Qed.

(** What a build that ends normally has done. *)
Lemma main_with_ok (tp wp : list Page) (fs : gmap path node) :
  outcome (main_with tp wp fs) = inr () →
  is_Some (fs !! (ASSETS </> "site.css"))
  ∧ outcome (mkdir THEORY fs) = inr ()
  ∧ outcome (mkdir WIKI (store (mkdir THEORY fs))) = inr ()
  ∧ outcome (remove_legacy_theory_pages (with_directories fs)) = inr ()
  ∧ store (main_with tp wp fs)
    = write_pages WIKI wp
        (<[WIKI </> "index.html" := File (wiki_index wp)]>
           (write_pages THEORY tp
              (<[THEORY </> "index.html" := File (theory_index tp)]> (prepared fs))))
  ∧ trace (main_with tp wp fs)
    = Exists (ASSETS </> "site.css") :: Mkdir THEORY :: Mkdir WIKI
      :: trace (remove_legacy_theory_pages (with_directories fs))
      ++ WriteText (THEORY </> "index.html") (theory_index tp)
      :: map (page_write THEORY) tp
      ++ WriteText (WIKI </> "index.html") (wiki_index wp)
      :: map (page_write WIKI) wp.
Proof.
  unfold prepared, with_directories.
  rewrite main_with_run.
  destruct (fs !! (ASSETS </> "site.css")) as [v|]; [|done].
  cbv zeta. cbn [outcome store trace]. intros Ho.
  split; [by eauto|].
  apply bind_ok in Ho as ([] & Ho1 & Ho & -> & ->).
  apply bind_ok in Ho as ([] & Ho2 & Ho & -> & ->).
  apply bind_ok in Ho as ([] & Ho3 & Ho & -> & ->).
  apply bind_ok in Ho as ([] & Ho4 & Ho & -> & ->).
  apply bind_ok in Ho as ([] & Ho5 & Ho & -> & ->).
  apply bind_ok in Ho as ([] & Ho6 & Ho & -> & ->).
  split; [exact Ho1|]. split; [exact Ho2|]. split; [exact Ho3|].
  destruct (mkdir_spec THEORY fs) as (-> & _ & _).
  destruct (mkdir_spec WIKI (store (mkdir THEORY fs))) as (-> & _ & _).
  set (fs3 := store (remove_legacy_theory_pages (store (mkdir WIKI (store (mkdir THEORY fs)))))) in *.
  destruct (write_text_spec (THEORY </> "index.html") (theory_index tp) fs3)
    as (Ht4 & Hs4 & _).
  specialize (Hs4 Ho4).
  set (fs4 := store (write_text (THEORY </> "index.html") (theory_index tp) fs3)) in *.
  destruct (for_each_write_ok _ _ _ Ho5) as [Hs5 Ht5].
  set (fs5 := store (for_each tp (λ p, write_text (page_path THEORY p) (render_page p)) fs4)) in *.
  destruct (write_text_spec (WIKI </> "index.html") (wiki_index wp) fs5)
    as (Ht6 & Hs6 & _).
  specialize (Hs6 Ho6).
  set (fs6 := store (write_text (WIKI </> "index.html") (wiki_index wp) fs5)) in *.
  destruct (for_each_write_ok _ _ _ Ho) as [Hs7 Ht7].
  rewrite Hs7, Ht7, Ht6, Ht5, Ht4, Hs6, Hs5, Hs4.
  split; reflexivity.
Qed.

(** ** Precondition gate *)

(** C1. When the stylesheet is absent the run raises [SystemExit] having
    made one call, the existence check, and leaves the store as it was; the
    existence check is the first call of every run; and a run that makes a
    mutating call (directory creation, deletion, write) or changes the store
    is a run whose check found the stylesheet. *)
Theorem main_aborts_before_mutation (fs : gmap path node) :
  (fs !! (ASSETS </> "site.css") = None →
   main fs =
   Result (inl (SystemExit "Expected docs/assets/site.css to exist.")) fs
     [Exists (ASSETS </> "site.css")])
  ∧ (∃ rest, trace (main fs) = Exists (ASSETS </> "site.css") :: rest)
  ∧ (∀ e, e ∈ trace (main fs) → mutating e = true →
     is_Some (fs !! (ASSETS </> "site.css")))
  ∧ (store (main fs) ≠ fs → is_Some (fs !! (ASSETS </> "site.css"))).
Proof.
  unfold main. rewrite main_with_run.
  destruct (fs !! (ASSETS </> "site.css")) as [v|] eqn:Hcss.
  - cbv zeta. cbn [store trace]. split; [done|]. split; [by eexists|]. split; by eauto.
  - cbn [store trace]. split; [done|]. split; [by eexists|]. split.
    + intros e ->%list_elem_of_singleton. done.
    + done.
Qed.

Lemma main_aborts_before_mutation_witness :
  main ∅ =
  Result (inl (SystemExit "Expected docs/assets/site.css to exist.")) ∅
    [Exists (ASSETS </> "site.css")].
Proof.
  apply (main_aborts_before_mutation ∅). reflexivity.
Defined.

(** ** Order of the calls *)

Lemma unlink_trace (p : path) (fs : gmap path node) :
  trace (unlink p fs) = [Unlink p].
Proof. rewrite unlink_run. by destruct (lookup_node fs p) as [[]|]. Qed.

Lemma with_directories_theory (fs : gmap path node) :
  outcome (mkdir THEORY fs) = inr () →
  is_Some (with_directories fs !! THEORY).
Proof.
  intros Ho. unfold with_directories.
  destruct (mkdir_spec THEORY fs) as (_ & _ & Hdir).
  destruct (mkdir_spec WIKI (store (mkdir THEORY fs))) as (_ & Hkeep & _).
  exists Dir. apply Hkeep. exact (Hdir Ho).
Qed.

Lemma cleanup_ok_trace (fs : gmap path node) :
  is_Some (fs !! THEORY) →
  outcome (remove_legacy_theory_pages fs) = inr () →
  trace (remove_legacy_theory_pages fs)
  = Exists THEORY :: Glob THEORY "ds*.html"
    :: map (λ name, Unlink (THEORY ++ [name])) (stale_entries fs).
Proof.
  intros [d Hd]. rewrite remove_legacy_theory_pages_run, Hd. cbn [outcome trace].
  intros Ho. rewrite (for_each_ok_trace Unlink) by (done || apply unlink_trace).
  by rewrite map_map.
Qed.

(** C4, as the code has it.  A build that ends normally has made exactly
    these calls, in this order: the stylesheet check, the two directory
    preparations, the cleanup (its own check, the listing, one deletion per
    stale entry), then for the theory kind its index followed by its pages
    in registry order, then for the wiki kind its index followed by its
    pages in registry order. *)
Theorem build_call_order (tp wp : list Page) (fs : gmap path node) :
  outcome (main_with tp wp fs) = inr () →
  trace (main_with tp wp fs)
  = [Exists (ASSETS </> "site.css"); Mkdir THEORY; Mkdir WIKI;
     Exists THEORY; Glob THEORY "ds*.html"]
    ++ map (λ name, Unlink (THEORY ++ [name])) (stale_entries (with_directories fs))
    ++ [WriteText (THEORY </> "index.html") (theory_index tp)]
    ++ map (page_write THEORY) tp
    ++ [WriteText (WIKI </> "index.html") (wiki_index wp)]
    ++ map (page_write WIKI) wp.
Proof.
  intros Ho. destruct (main_with_ok tp wp fs Ho) as (_ & Ho1 & _ & Ho3 & _ & ->).
  rewrite (cleanup_ok_trace _ (with_directories_theory fs Ho1) Ho3).
  reflexivity.
Qed.

Lemma build_call_order_witness :
  trace (main_with build_theory_pages build_wiki_pages site_store)
  = [Exists (ASSETS </> "site.css"); Mkdir THEORY; Mkdir WIKI;
     Exists THEORY; Glob THEORY "ds*.html"]
    ++ map (λ name, Unlink (THEORY ++ [name]))
         (stale_entries (with_directories site_store))
    ++ [WriteText (THEORY </> "index.html") (theory_index build_theory_pages)]
    ++ map (page_write THEORY) build_theory_pages
    ++ [WriteText (WIKI </> "index.html") (wiki_index build_wiki_pages)]
    ++ map (page_write WIKI) build_wiki_pages.
Proof.
  apply (build_call_order build_theory_pages build_wiki_pages site_store).
  vm_compute. reflexivity.
Defined.

(** The build of the registry on [site_store] ends normally, and writes the
    first theory page before the wiki index. *)
Lemma pages_before_wiki_index :
  outcome (main site_store) = inr ()
  ∧ ¬ indexes_before_pages (trace (main site_store)).
Proof.
  split; [vm_compute; reflexivity|].
  intros H.
  specialize (H 1%nat 15%nat ["docs"; "theory"; "vision.html"] ["docs"; "wiki"; "index.html"]).
  assert (15 < 1)%nat; [|lia].
  apply H; vm_compute; reflexivity.
Qed.

(** ** What a build leaves in the output directories *)

Lemma wiki_path_not_theory (x y : string) :
  WIKI </> x ≠ THEORY </> y.
Proof. by intros [=]. Qed.

Lemma main_with_wiki_page (tp wp : list Page) (fs : gmap path node) (p : Page) :
  outcome (main_with tp wp fs) = inr () →
  NoDup (map (page_path WIKI) wp) → p ∈ wp →
  store (main_with tp wp fs) !! page_path WIKI p = Some (File (render_page p)).
Proof.
  intros Ho Hnd Hp. destruct (main_with_ok tp wp fs Ho) as (_ & _ & _ & _ & -> & _).
  by apply write_pages_lookup.
Qed.

Lemma main_with_theory_page (tp wp : list Page) (fs : gmap path node) (p : Page) :
  outcome (main_with tp wp fs) = inr () →
  NoDup (map (page_path THEORY) tp) → p ∈ tp →
  store (main_with tp wp fs) !! page_path THEORY p = Some (File (render_page p)).
Proof.
  intros Ho Hnd Hp. destruct (main_with_ok tp wp fs Ho) as (_ & _ & _ & _ & -> & _).
  rewrite write_pages_lookup_other by (intros; apply wiki_path_not_theory).
  rewrite lookup_insert_ne by apply (wiki_path_not_theory "index.html").
  by apply write_pages_lookup.
Qed.

(** Without the uniqueness of slugs, each page path still holds the
    rendering of a page of the registry with that path. *)
Lemma main_with_page_exists (tp wp : list Page) (fs : gmap path node) (p : Page) :
  outcome (main_with tp wp fs) = inr () →
  (p ∈ tp → ∃ p', p' ∈ tp ∧ page_path THEORY p' = page_path THEORY p
      ∧ store (main_with tp wp fs) !! page_path THEORY p = Some (File (render_page p')))
  ∧ (p ∈ wp → ∃ p', p' ∈ wp ∧ page_path WIKI p' = page_path WIKI p
      ∧ store (main_with tp wp fs) !! page_path WIKI p = Some (File (render_page p'))).
Proof.
  intros Ho. destruct (main_with_ok tp wp fs Ho) as (_ & _ & _ & _ & -> & _).
  split; intros Hp.
  - rewrite write_pages_lookup_other by (intros; apply wiki_path_not_theory).
    rewrite lookup_insert_ne by apply (wiki_path_not_theory "index.html").
    by apply write_pages_lookup_some.
  - by apply write_pages_lookup_some.
Qed.

(** *** The registries *)

Lemma registry_slugs_plain (p : Page) :
  p ∈ build_theory_pages ++ build_wiki_pages → slug_plain (slug p) = true.
Proof.
  assert (H : forallb (λ p, slug_plain (slug p)) (build_theory_pages ++ build_wiki_pages) = true)
    by (vm_compute; reflexivity).
  rewrite forallb_forall in H. intros Hp. by apply H, list_elem_of_In.
Qed.

Lemma theory_paths_NoDup : NoDup (map (page_path THEORY) build_theory_pages).
Proof. apply (bool_decide_unpack _). vm_compute. exact I. Qed.

Lemma wiki_paths_NoDup : NoDup (map (page_path WIKI) build_wiki_pages).
Proof. apply (bool_decide_unpack _). vm_compute. exact I. Qed.

Lemma registry_top_heading (p : Page) :
  p ∈ build_theory_pages ++ build_wiki_pages →
  top_heading (render_page p) = Some (title p).
Proof.
  assert (H : forallb (λ p, bool_decide (top_heading (render_page p) = Some (title p)))
                (build_theory_pages ++ build_wiki_pages) = true)
    by (vm_compute; reflexivity).
  rewrite forallb_forall in H. intros Hp%list_elem_of_In.
  apply (bool_decide_eq_true_1 _), H, Hp.
Qed.

(** The page files of the build of the two registries. *)
Lemma main_page_files (fs : gmap path node) :
  outcome (main fs) = inr () →
  (∀ p, p ∈ build_theory_pages →
     page_path THEORY p = THEORY ++ [slug p +:+ ".html"]
     ∧ store (main fs) !! (THEORY ++ [slug p +:+ ".html"]) = Some (File (render_page p)))
  ∧ (∀ p, p ∈ build_wiki_pages →
     page_path WIKI p = WIKI ++ [slug p +:+ ".html"]
     ∧ store (main fs) !! (WIKI ++ [slug p +:+ ".html"]) = Some (File (render_page p))).
Proof.
  intros Ho. split.
  - intros p Hp.
    assert (Hpath : page_path THEORY p = THEORY ++ [slug p +:+ ".html"]).
    { apply page_path_plain, registry_slugs_plain, elem_of_app. by left. }
    split; [done|]. rewrite <- Hpath.
    by apply main_with_theory_page; [|apply theory_paths_NoDup|].
  - intros p Hp.
    assert (Hpath : page_path WIKI p = WIKI ++ [slug p +:+ ".html"]).
    { apply page_path_plain, registry_slugs_plain, elem_of_app. by right. }
    split; [done|]. rewrite <- Hpath.
    by apply main_with_wiki_page; [|apply wiki_paths_NoDup|].
Qed.

(** ** Shape of a rendered page *)

Lemma render_page_unfold (page : Page) :
  render_page page =
  html_page (title page)
    (String.concat nl
       ["<h1>" +:+ title page +:+ "</h1>";
        page_intro (kind page);
        related_wiki_paragraph (related_prefix (kind page));
        h2_sections (sections page);
        txt "<figure class=`diagram`>";
        svg page;
        "<figcaption>" +:+ caption page +:+ "</figcaption>";
        "</figure>";
        references_paragraph (references page)])
    (page_prefix (kind page)).
Proof.
  unfold render_page, page_intro, related_prefix, page_prefix.
  by destruct (String.eqb (kind page) "theory").
Qed.

Lemma append_assoc (a b c : string) : (a +:+ b) +:+ c = a +:+ (b +:+ c).
Proof. induction a as [|x a IH]; cbn; [done|]. by rewrite IH. Qed.

Lemma concat_cons2 (sep a b : string) (l : list string) :
  String.concat sep (a :: b :: l) = a +:+ sep +:+ String.concat sep (b :: l).
Proof. reflexivity. Qed.

(** ** Page files *)

(** C5. In a build that ends normally every page of either registry is in
    the file named by its slug followed by [.html], directly in the
    directory of its kind, with its rendering as content, and the first
    heading of that rendering is the page's title.  The file name takes a
    slash-free slug as it is, whatever its characters; when two pages of a
    registry have the same path the later rendering is what the file
    holds; and the content block of every rendering starts with the title
    heading. *)
Theorem page_files_named_by_slug (fs : gmap path node) :
  outcome (main fs) = inr () →
  (∀ p, p ∈ build_theory_pages →
     page_path THEORY p = THEORY ++ [slug p +:+ ".html"]
     ∧ store (main fs) !! (THEORY ++ [slug p +:+ ".html"]) = Some (File (render_page p)))
  ∧ (∀ p, p ∈ build_wiki_pages →
     page_path WIKI p = WIKI ++ [slug p +:+ ".html"]
     ∧ store (main fs) !! (WIKI ++ [slug p +:+ ".html"]) = Some (File (render_page p)))
  ∧ (∀ p, p ∈ build_theory_pages ++ build_wiki_pages →
     top_heading (render_page p) = Some (title p))
  ∧ (∀ page, ∃ rest,
       render_page page
       = html_page (title page) ("<h1>" +:+ title page +:+ "</h1>" +:+ rest)
           (page_prefix (kind page)))
  ∧ (∀ dir page, slug_plain (slug page) = true →
       page_path dir page = dir ++ [slug page +:+ ".html"])
  ∧ (∀ p1 p2 wp fs',
       page_path THEORY p1 = page_path THEORY p2 →
       outcome (main_with [p1; p2] wp fs') = inr () →
       store (main_with [p1; p2] wp fs') !! page_path THEORY p1
       = Some (File (render_page p2))).
Proof.
  intros Ho. destruct (main_page_files fs Ho) as [Htp Hwp].
  split; [done|]. split; [done|]. split; [|split; [|split]].
  - apply registry_top_heading.
  - intros page. rewrite render_page_unfold, concat_cons2.
    exists (nl +:+ String.concat nl
              [page_intro (kind page);
               related_wiki_paragraph (related_prefix (kind page));
               h2_sections (sections page);
               txt "<figure class=`diagram`>";
               svg page;
               "<figcaption>" +:+ caption page +:+ "</figcaption>";
               "</figure>";
               references_paragraph (references page)]).
    rewrite !append_assoc. reflexivity.
  - intros dir page. apply page_path_plain.
  - intros p1 p2 wp fs' Heq Ho'.
    destruct (main_with_ok [p1; p2] wp fs' Ho') as (_ & _ & _ & _ & -> & _).
    rewrite write_pages_lookup_other by (intros; apply wiki_path_not_theory).
    rewrite lookup_insert_ne by apply (wiki_path_not_theory "index.html").
    rewrite !write_pages_cons. cbn [write_pages foldl].
    by rewrite Heq, lookup_insert_eq.
Qed.

Lemma page_files_named_by_slug_witness :
  outcome (main site_store) = inr ()
  ∧ ∀ p, p ∈ build_theory_pages →
      page_path THEORY p = THEORY ++ [slug p +:+ ".html"]
      ∧ store (main site_store) !! (THEORY ++ [slug p +:+ ".html"])
        = Some (File (render_page p)).
Proof.
  assert (Ho : outcome (main site_store) = inr ()) by (vm_compute; reflexivity).
  split; [exact Ho|].
  apply (page_files_named_by_slug site_store Ho).
Defined.

(** ** Index cards *)

Lemma theory_index_not_page (p : Page) :
  p ∈ build_theory_pages → page_path THEORY p ≠ THEORY </> "index.html".
Proof.
  assert (H : forallb (λ p, negb (bool_decide (page_path THEORY p = THEORY </> "index.html")))
                build_theory_pages = true) by (vm_compute; reflexivity).
  rewrite forallb_forall in H. intros Hp%list_elem_of_In Heq.
  specialize (H p Hp). by rewrite bool_decide_eq_true_2 in H.
Qed.

Lemma wiki_index_not_page (p : Page) :
  p ∈ build_wiki_pages → page_path WIKI p ≠ WIKI </> "index.html".
Proof.
  assert (H : forallb (λ p, negb (bool_decide (page_path WIKI p = WIKI </> "index.html")))
                build_wiki_pages = true) by (vm_compute; reflexivity).
  rewrite forallb_forall in H. intros Hp%list_elem_of_In Heq.
  specialize (H p Hp). by rewrite bool_decide_eq_true_2 in H.
Qed.

Lemma main_index_documents (fs : gmap path node) :
  outcome (main fs) = inr () →
  store (main fs) !! (THEORY ++ ["index.html"]) = Some (File (theory_index build_theory_pages))
  ∧ store (main fs) !! (WIKI ++ ["index.html"]) = Some (File (wiki_index build_wiki_pages)).
Proof.
  intros Ho. unfold main in *.
  destruct (main_with_ok _ _ fs Ho) as (_ & _ & _ & _ & -> & _).
  change (THEORY ++ ["index.html"]) with (THEORY </> "index.html").
  change (WIKI ++ ["index.html"]) with (WIKI </> "index.html").
  split.
  - rewrite write_pages_lookup_other by (intros; apply wiki_path_not_theory).
    rewrite lookup_insert_ne by apply (wiki_path_not_theory "index.html").
    rewrite write_pages_lookup_other by apply theory_index_not_page.
    apply lookup_insert_eq.
  - rewrite write_pages_lookup_other by apply wiki_index_not_page.
    apply lookup_insert_eq.
Qed.

(** C9. The link targets read off the card grid of each index document are
    the slugs of its registry followed by [.html], in registry order; a
    build that ends normally leaves the two index documents in place, and
    each target of a grid names a file of the index's own directory that
    holds the rendering of the page the card was made from.  For any
    registries, the file of each page that gets a card exists after the
    build. *)
Theorem index_cards_resolve (fs : gmap path node) :
  outcome (main fs) = inr () →
  card_links (theory_index build_theory_pages)
  = map (λ p, slug p +:+ ".html") build_theory_pages
  ∧ card_links (wiki_index build_wiki_pages)
    = map (λ p, slug p +:+ ".html") build_wiki_pages
  ∧ store (main fs) !! (THEORY ++ ["index.html"])
    = Some (File (theory_index build_theory_pages))
  ∧ store (main fs) !! (WIKI ++ ["index.html"])
    = Some (File (wiki_index build_wiki_pages))
  ∧ (∀ h, h ∈ card_links (theory_index build_theory_pages) →
     ∃ p, p ∈ build_theory_pages ∧ h = slug p +:+ ".html"
          ∧ store (main fs) !! (THEORY ++ [h]) = Some (File (render_page p)))
  ∧ (∀ h, h ∈ card_links (wiki_index build_wiki_pages) →
     ∃ p, p ∈ build_wiki_pages ∧ h = slug p +:+ ".html"
          ∧ store (main fs) !! (WIKI ++ [h]) = Some (File (render_page p)))
  ∧ (∀ tp wp fs' p,
       outcome (main_with tp wp fs') = inr () →
       (p ∈ tp → is_Some (store (main_with tp wp fs') !! (THEORY </> (slug p +:+ ".html"))))
       ∧ (p ∈ wp → is_Some (store (main_with tp wp fs') !! (WIKI </> (slug p +:+ ".html"))))).
Proof.
  intros Ho.
  assert (Ht : card_links (theory_index build_theory_pages)
               = map (λ p, slug p +:+ ".html") build_theory_pages)
    by (vm_compute; reflexivity).
  assert (Hw : card_links (wiki_index build_wiki_pages)
               = map (λ p, slug p +:+ ".html") build_wiki_pages)
    by (vm_compute; reflexivity).
  destruct (main_index_documents fs Ho) as [Hti Hwi].
  destruct (main_page_files fs Ho) as [Htp Hwp].
  split; [done|]. split; [done|]. split; [done|]. split; [done|].
  split; [|split].
  - rewrite Ht. intros h (p & -> & Hp)%list_elem_of_fmap.
    exists p. split; [done|]. split; [done|]. by apply Htp.
  - rewrite Hw. intros h (p & -> & Hp)%list_elem_of_fmap.
    exists p. split; [done|]. split; [done|]. by apply Hwp.
  - intros tp wp fs' p Ho'.
    destruct (main_with_page_exists tp wp fs' p Ho') as [H1 H2].
    split; intros Hp.
    + destruct (H1 Hp) as (p' & _ & _ & H). by eexists.
    + destruct (H2 Hp) as (p' & _ & _ & H). by eexists.
Qed.

Lemma index_cards_resolve_witness :
  card_links (theory_index build_theory_pages)
  = map (λ p, slug p +:+ ".html") build_theory_pages
  ∧ store (main site_store) !! (THEORY ++ ["index.html"])
    = Some (File (theory_index build_theory_pages)).
Proof.
  destruct (index_cards_resolve site_store) as (H1 & _ & H3 & _).
  - vm_compute. reflexivity.
  - exact (conj H1 H3).
Defined.

(** ** Related pages *)

Lemma html_page_split (title content prefix : string) :
  html_page title content prefix = html_head title prefix +:+ content +:+ html_foot.
Proof.
  unfold html_page, html_head, html_foot. rewrite !append_assoc. reflexivity.
Qed.

Lemma render_page_related (page : Page) :
  ∃ pre post,
    render_page page
    = pre +:+ related_wiki_paragraph (related_prefix (kind page)) +:+ post.
Proof.
  rewrite render_page_unfold, html_page_split, !concat_cons2.
  exists (html_head (title page) (page_prefix (kind page))
          +:+ ("<h1>" +:+ title page +:+ "</h1>") +:+ nl +:+ page_intro (kind page) +:+ nl).
  eexists. rewrite !append_assoc. reflexivity.
Qed.

Lemma registry_kinds :
  Forall (λ p, kind p = "theory") build_theory_pages
  ∧ Forall (λ p, kind p = "wiki") build_wiki_pages.
Proof.
  split; apply Forall_forall; intros p Hp%list_elem_of_In.
  - assert (H : forallb (λ p, String.eqb (kind p) "theory") build_theory_pages = true)
      by (vm_compute; reflexivity).
    rewrite forallb_forall in H. by apply String.eqb_eq, H.
  - assert (H : forallb (λ p, String.eqb (kind p) "wiki") build_wiki_pages = true)
      by (vm_compute; reflexivity).
    rewrite forallb_forall in H. by apply String.eqb_eq, H.
Qed.

Lemma related_slugs_registered (s : string) :
  s ∈ related_slugs → ∃ q, q ∈ build_wiki_pages ∧ slug q = s.
Proof.
  assert (H : forallb (λ s, existsb (λ q, String.eqb (slug q) s) build_wiki_pages)
                related_slugs = true) by (vm_compute; reflexivity).
  rewrite forallb_forall in H. intros Hs%list_elem_of_In.
  apply H, existsb_exists in Hs as (q & Hq%list_elem_of_In & Heq%String.eqb_eq).
  eauto.
Qed.

Lemma related_links_targets (s : string) :
  s ∈ related_slugs →
  resolve THEORY ("../wiki/" +:+ s +:+ ".html") = WIKI ++ [s +:+ ".html"]
  ∧ resolve WIKI (s +:+ ".html") = WIKI ++ [s +:+ ".html"].
Proof.
  unfold related_slugs. rewrite !elem_of_cons, elem_of_nil.
  intros [->|[->|[->|[->|[->|[]]]]]]; by vm_compute.
Qed.

(** C10. Every rendering holds the related-pages paragraph, with the prefix
    [../wiki/] for the kind of the theory pages and the empty prefix
    otherwise; the links of that paragraph are the five related slugs
    followed by [.html] after the prefix; and each of the five slugs is the
    slug of a page of the wiki registry, whose file a build that ends
    normally leaves where the link points, from the theory directory as
    from the wiki directory. *)
Theorem related_links_resolve (fs : gmap path node) :
  outcome (main fs) = inr () →
  (∀ page, ∃ pre post,
     render_page page
     = pre +:+ related_wiki_paragraph (related_prefix (kind page)) +:+ post)
  ∧ Forall (λ p, kind p = "theory") build_theory_pages
  ∧ Forall (λ p, kind p = "wiki") build_wiki_pages
  ∧ hrefs (related_wiki_paragraph "../wiki/")
    = map (λ s, "../wiki/" +:+ s +:+ ".html") related_slugs
  ∧ hrefs (related_wiki_paragraph EmptyString)
    = map (λ s, s +:+ ".html") related_slugs
  ∧ (∀ s, s ∈ related_slugs →
     ∃ q, q ∈ build_wiki_pages ∧ slug q = s
          ∧ resolve THEORY ("../wiki/" +:+ s +:+ ".html") = WIKI ++ [slug q +:+ ".html"]
          ∧ resolve WIKI (s +:+ ".html") = WIKI ++ [slug q +:+ ".html"]
          ∧ store (main fs) !! (WIKI ++ [slug q +:+ ".html"])
            = Some (File (render_page q))).
Proof.
  intros Ho. destruct (main_page_files fs Ho) as [_ Hwp].
  split; [apply render_page_related|].
  split; [apply registry_kinds|]. split; [apply registry_kinds|].
  split; [by vm_compute|]. split; [by vm_compute|].
  intros s Hs. destruct (related_slugs_registered s Hs) as (q & Hq & Hslug).
  destruct (related_links_targets s Hs) as [Ht Hw].
  exists q. rewrite Hslug. split; [done|]. split; [done|]. split; [done|].
  split; [done|]. rewrite <- Hslug. by apply Hwp.
Qed.

Lemma related_links_resolve_witness :
  hrefs (related_wiki_paragraph "../wiki/")
  = map (λ s, "../wiki/" +:+ s +:+ ".html") related_slugs
  ∧ ∀ s, s ∈ related_slugs →
     ∃ q, q ∈ build_wiki_pages ∧ slug q = s
          ∧ resolve THEORY ("../wiki/" +:+ s +:+ ".html") = WIKI ++ [slug q +:+ ".html"]
          ∧ resolve WIKI (s +:+ ".html") = WIKI ++ [slug q +:+ ".html"]
          ∧ store (main site_store) !! (WIKI ++ [slug q +:+ ".html"])
            = Some (File (render_page q)).
Proof.
  destruct (related_links_resolve site_store) as (_ & _ & _ & H4 & _ & H6).
  - vm_compute. reflexivity.
  - exact (conj H4 H6).
Defined.

(** ** Determinism *)

Lemma written_app (t1 t2 : list event) : written (t1 ++ t2) = written t1 ++ written t2.
Proof. apply omap_app. Qed.

Lemma written_unlinks (paths : list path) : written (map Unlink paths) = [].
Proof. by induction paths. Qed.

Lemma written_page_writes (dir : path) (pages : list Page) :
  written (map (page_write dir) pages)
  = map (λ p, (page_path dir p, render_page p)) pages.
Proof. induction pages as [|p pages IH]; [done|]. cbn. by rewrite <- IH. Qed.

Lemma written_cons (e : event) (t : list event) :
  written (e :: t)
  = match e with
    | WriteText p data => (p, data) :: written t
    | _ => written t
    end.
Proof. by destruct e. Qed.

Lemma main_with_written (tp wp : list Page) (fs : gmap path node) :
  outcome (main_with tp wp fs) = inr () →
  written (trace (main_with tp wp fs))
  = (THEORY </> "index.html", theory_index tp)
    :: map (λ p, (page_path THEORY p, render_page p)) tp
    ++ (WIKI </> "index.html", wiki_index wp)
    :: map (λ p, (page_path WIKI p, render_page p)) wp.
Proof.
  intros Ho. destruct (main_with_ok tp wp fs Ho) as (_ & Ho1 & _ & Ho3 & _ & Ht).
  rewrite Ht, (cleanup_ok_trace _ (with_directories_theory fs Ho1) Ho3).
  set (stale := stale_entries (with_directories fs)).
  set (ti := theory_index tp). set (wi := wiki_index wp).
  rewrite !written_cons, written_app, !written_cons.
  rewrite <- (map_map (λ name, THEORY ++ [name]) Unlink), written_unlinks.
  rewrite written_app, written_cons, !written_page_writes.
  reflexivity.
Qed.

Lemma write_pages_write_all (dir : path) (pages : list Page) (fs : gmap path node) :
  write_pages dir pages fs
  = write_all (map (λ p, (page_path dir p, render_page p)) pages) fs.
Proof.
  revert fs. induction pages as [|p pages IH]; intros fs; [done|].
  rewrite write_pages_cons, IH. reflexivity.
Qed.

Lemma write_all_cons (w : path * string) (ws : list (path * string))
    (fs : gmap path node) :
  write_all (w :: ws) fs = write_all ws (<[w.1 := File w.2]> fs).
Proof. reflexivity. Qed.

Lemma write_all_app (ws1 ws2 : list (path * string)) (fs : gmap path node) :
  write_all (ws1 ++ ws2) fs = write_all ws2 (write_all ws1 fs).
Proof. apply foldl_app. Qed.

Lemma main_with_store (tp wp : list Page) (fs : gmap path node) :
  outcome (main_with tp wp fs) = inr () →
  store (main_with tp wp fs)
  = write_all (written (trace (main_with tp wp fs))) (prepared fs).
Proof.
  intros Ho. rewrite (main_with_written tp wp fs Ho).
  destruct (main_with_ok tp wp fs Ho) as (_ & _ & _ & _ & -> & _).
  rewrite !write_pages_write_all.
  set (ti := theory_index tp). set (wi := wiki_index wp).
  rewrite write_all_cons, write_all_app, write_all_cons.
  reflexivity.
Qed.

(** What is at a written path after the writes does not depend on the
    store the writes started from. *)
Lemma write_all_lookup_base (ws : list (path * string)) (fs1 fs2 : gmap path node)
    (q : path) :
  q ∈ ws.*1 → write_all ws fs1 !! q = write_all ws fs2 !! q.
Proof.
  induction ws as [|[p d] ws IH] using rev_ind; intros Hq.
  { by apply elem_of_nil in Hq. }
  rewrite !write_all_app. cbn.
  destruct (decide (p = q)) as [->|Hne].
  - by rewrite !lookup_insert_eq.
  - rewrite !lookup_insert_ne by done. apply IH.
    rewrite fmap_app in Hq. apply elem_of_app in Hq as [Hq|Hq]; [done|].
    apply list_elem_of_singleton in Hq. cbn in Hq. congruence.
Qed.

(** C2. The rendering of a page is a function of the page alone, and in
    fact of its title, kind, diagram, caption, sections and references;
    the shell is a function of its three arguments.  Two builds of the same
    registries that end normally, from whatever stores, write the same
    files with the same contents in the same order, namely the two index
    documents and the renderings of the pages, and leave the same content
    at every path they wrote. *)
Theorem rendering_deterministic :
  (∀ p q : Page,
     title p = title q → kind p = kind q → svg p = svg q →
     caption p = caption q → sections p = sections q →
     references p = references q →
     render_page p = render_page q)
  ∧ (∀ t1 c1 x1 t2 c2 x2 : string,
       t1 = t2 → c1 = c2 → x1 = x2 → html_page t1 c1 x1 = html_page t2 c2 x2)
  ∧ (∀ (tp wp : list Page) (fs1 fs2 : gmap path node),
       outcome (main_with tp wp fs1) = inr () →
       outcome (main_with tp wp fs2) = inr () →
       written (trace (main_with tp wp fs1))
       = (THEORY </> "index.html", theory_index tp)
         :: map (λ p, (page_path THEORY p, render_page p)) tp
         ++ (WIKI </> "index.html", wiki_index wp)
         :: map (λ p, (page_path WIKI p, render_page p)) wp
       ∧ written (trace (main_with tp wp fs1)) = written (trace (main_with tp wp fs2))
       ∧ ∀ q, q ∈ written_paths (trace (main_with tp wp fs1)) →
           store (main_with tp wp fs1) !! q = store (main_with tp wp fs2) !! q).
Proof.
  split; [|split].
  - intros p q Ht Hk Hs Hc Hse Hr. rewrite !render_page_unfold.
    by rewrite Ht, Hk, Hs, Hc, Hse, Hr.
  - by intros t1 c1 x1 t2 c2 x2 -> -> ->.
  - intros tp wp fs1 fs2 Ho1 Ho2.
    pose proof (main_with_written tp wp fs1 Ho1) as Hw1.
    pose proof (main_with_written tp wp fs2 Ho2) as Hw2.
    split; [done|]. split; [congruence|].
    intros q Hq. rewrite (main_with_store tp wp fs1 Ho1), (main_with_store tp wp fs2 Ho2).
    unfold written_paths in Hq. rewrite Hw1 in Hq |- *. rewrite Hw2.
    by apply write_all_lookup_base.
Qed.

Lemma rendering_deterministic_witness :
  written (trace (main_with build_theory_pages build_wiki_pages site_store))
  = written (trace (main_with build_theory_pages build_wiki_pages
                      (<[ ["docs"; "theory"; "notes.txt"] := File "kept" ]>
                         (<[ ["docs"; "theory"] := Dir ]> site_store)))).
Proof.
  destruct rendering_deterministic as (_ & _ & H).
  apply (H build_theory_pages build_wiki_pages site_store
           (<[ ["docs"; "theory"; "notes.txt"] := File "kept" ]>
              (<[ ["docs"; "theory"] := Dir ]> site_store)));
    vm_compute; reflexivity.
Defined.

(** ** Reading integers back *)

Lemma parse_int_str_int (n : Z) : parse_int (str_int n) = Some n.
Proof.
  unfold parse_int, str_int. rewrite NilZero.isi.
  - cbn. by rewrite DecimalZ.of_to.
  - destruct n as [|p|p]; cbn; try done.
    intros [= H]. by apply DecimalPos.Unsigned.to_uint_nonnil in H.
  - destruct n as [|p|p]; cbn; try done.
    intros [= H]. by apply DecimalPos.Unsigned.to_uint_nonnil in H.
Qed.


Lemma no_char_cons (c a : ascii) (s : string) :
  no_char c (String a s) = negb (Ascii.eqb a c) && no_char c s.
Proof. reflexivity. Qed.

Lemma int_char_false (c : ascii) :
  int_char c = false →
  Forall (λ a, negb (Ascii.eqb a c) = true)
    ["-"; "0"; "1"; "2"; "3"; "4"; "5"; "6"; "7"; "8"; "9"]%char.
Proof.
  unfold int_char. intros H%negb_false_iff.
  rewrite !no_char_cons, !andb_true_iff in H.
  repeat (constructor; [tauto|]). constructor.
Qed.

Lemma no_char_uint (c : ascii) (d : Decimal.uint) :
  int_char c = false → no_char c (NilEmpty.string_of_uint d) = true.
Proof.
  intros H%int_char_false.
  repeat (apply Forall_cons in H as [? H]).
  induction d; cbn [NilEmpty.string_of_uint]; [done|..];
    rewrite no_char_cons, andb_true_iff; by split.
Qed.

Lemma no_char_str_int (c : ascii) (n : Z) :
  int_char c = false → no_char c (str_int n) = true.
Proof.
  intros Hc.
  assert (Hz : ∀ d, no_char c (NilZero.string_of_uint d) = true).
  { intros d. destruct d; try apply (no_char_uint c _ Hc).
    apply (no_char_uint c (Decimal.D0 Decimal.Nil) Hc). }
  apply int_char_false, Forall_cons in Hc as [Hm _].
  unfold str_int, NilZero.string_of_int.
  destruct (Z.to_int n); [apply Hz|].
  rewrite no_char_cons, andb_true_iff. by split.
Qed.

Lemma until_app (c : ascii) (a rest : string) :
  no_char c a = true → until c (a +:+ String c rest) = Some (a, rest).
Proof.
  induction a as [|x a IH]; cbn.
  - by rewrite Ascii.eqb_refl.
  - intros [Hx Ha]%andb_true_iff. apply negb_true_iff in Hx.
    by rewrite Hx, (IH Ha).
Qed.

Lemma read_int_app (c : ascii) (n : Z) (rest : string) :
  int_char c = false →
  read_int c (str_int n +:+ String c rest) = Some (n, rest).
Proof.
  intros Hc. unfold read_int.
  rewrite until_app by by apply no_char_str_int.
  cbn. by rewrite parse_int_str_int.
Qed.

Lemma strip_string_app (lit s : string) : strip_string lit (lit +:+ s) = Some s.
Proof.
  induction lit as [|c lit IH]; cbn; [by destruct s|].
  by rewrite Ascii.eqb_refl.
Qed.

Lemma length_append (a b : string) :
  String.length (a +:+ b) = (String.length a + String.length b)%nat.
Proof. induction a as [|c a IH]; cbn; [done|]. by rewrite IH. Qed.

Lemma strip_suffix_app (body suf : string) :
  strip_suffix suf (body +:+ suf) = Some body.
Proof.
  induction body as [|c body IH].
  - cbn [String.append]. destruct suf; cbn [strip_suffix]; by rewrite String.eqb_refl.
  - cbn [String.append strip_suffix].
    assert (String.eqb (String c (body +:+ suf)) suf = false) as ->.
    { apply String.eqb_neq. intros H. apply (f_equal String.length) in H.
      cbn in H. rewrite length_append in H. lia. }
    by rewrite IH.
Qed.

Lemma split_last_None (c : ascii) (s : string) :
  no_char c s = true → split_last c s = None.
Proof.
  induction s as [|a s IH]; [done|].
  rewrite no_char_cons. intros [Ha Hs]%andb_true_iff. apply negb_true_iff in Ha.
  cbn [split_last]. by rewrite (IH Hs), Ha.
Qed.

Lemma split_last_app (c : ascii) (pre post : string) :
  no_char c post = true →
  split_last c (pre +:+ String c post) = Some (pre, post).
Proof.
  intros Hpost. induction pre as [|a pre IH]; cbn [String.append split_last].
  - by rewrite (split_last_None c post Hpost), Ascii.eqb_refl.
  - by rewrite IH.
Qed.

Lemma no_char_app (c : ascii) (a b : string) :
  no_char c (a +:+ b) = no_char c a && no_char c b.
Proof.
  induction a as [|x a IH]; cbn [String.append]; [done|].
  rewrite !no_char_cons, IH. by rewrite andb_assoc.
Qed.
(** ** Connector *)

Lemma svg_arrow_text (x1 y1 x2 y2 : Z) (color : string) :
  svg_arrow x1 y1 x2 y2 color
  = txt "<line x1=`" +:+ str_int x1 +:+ String dquote
      (txt " y1=`" +:+ str_int y1 +:+ String dquote
      (txt " x2=`" +:+ str_int x2 +:+ String dquote
      (txt " y2=`" +:+ str_int y2 +:+ String dquote
      (txt " stroke=`"
       +:+ (color +:+ (txt "` stroke-width=`4` stroke-linecap=`round`/>" +:+ nl))
       +:+ String "<"
      (txt "polygon points=`"
       +:+ str_int (x2 - 10) +:+ String ","
      (str_int (y2 - 7) +:+ String " "
      (str_int (x2 - 10) +:+ String ","
      (str_int (y2 + 7) +:+ String " "
      (str_int (x2 + 10) +:+ String ","
      (str_int y2 +:+ String dquote
      (txt " fill=`#16b879`/>"))))))))))).
Proof. unfold svg_arrow. rewrite !append_assoc. reflexivity. Qed.

Ltac read_fragment :=
  repeat first
    [ rewrite strip_string_app
    | rewrite read_int_app by reflexivity
    | rewrite until_app by assumption
    | progress cbn [mbind option_bind] ].

(** The polygon element holds no [<] after its own. *)
Lemma polygon_no_lt (a b c d e f : Z) :
  no_char "<"
    (txt "polygon points=`"
     +:+ str_int a +:+ String ","
    (str_int b +:+ String " "
    (str_int c +:+ String ","
    (str_int d +:+ String " "
    (str_int e +:+ String ","
    (str_int f +:+ String dquote
    (txt " fill=`#16b879`/>"))))))) = true.
Proof.
  rewrite no_char_app.
  repeat (rewrite no_char_app, no_char_cons, no_char_str_int by reflexivity).
  reflexivity.
Qed.

(** Reading an arrow fragment back gives the arguments it was made from,
    whatever the colour, and the triangle the code computes. *)
Lemma arrow_shape_svg_arrow (x1 y1 x2 y2 : Z) (color : string) :
  arrow_shape (svg_arrow x1 y1 x2 y2 color)
  = Some ((x1, y1), (x2, y2), color,
          [(x2 - 10, y2 - 7); (x2 - 10, y2 + 7); (x2 + 10, y2)]).
Proof.
  rewrite svg_arrow_text. unfold arrow_shape.
  read_fragment.
  rewrite split_last_app by apply polygon_no_lt.
  cbn [mbind option_bind]. rewrite strip_suffix_app.
  read_fragment.
  change (txt " fill=`#16b879`/>") with (txt " fill=`#16b879`/>" +:+ EmptyString) at 2.
  read_fragment. reflexivity.
Qed.

(** The two base vertices of the code are where the specification puts
    them exactly when the line is horizontal and drawn left to right. *)
Lemma base_vertices_iff (x1 y1 x2 y2 : Z) :
  (base_vertex (x1, y1) (x2, y2) (x2 - 10, y2 - 7)
   ∧ base_vertex (x1, y1) (x2, y2) (x2 - 10, y2 + 7))
  ↔ (y1 = y2 ∧ x1 < x2).
Proof.
  unfold base_vertex. cbn [fst snd].
  replace (x2 - 10 - x2) with (-10) by lia.
  replace (y2 - 7 - y2) with (-7) by lia.
  replace (y2 + 7 - y2) with 7 by lia.
  remember (x2 - x1) as dx eqn:Edx. remember (y2 - y1) as dy eqn:Edy.
  split.
  - intros [(H0 & H1 & H2 & _) (_ & _ & G2 & _)].
    assert (E1 : (-10 * dx + -7 * dy) ^ 2 - (-10 * dx + 7 * dy) ^ 2 = 280 * (dx * dy))
      by ring.
    assert (Hxy : dx * dy = 0) by (rewrite H2, G2 in E1; lia).
    assert (E2 : (-10 * dx + -7 * dy) ^ 2 = 100 * dx ^ 2 + 140 * (dx * dy) + 49 * dy ^ 2)
      by ring.
    assert (Hyy : dy ^ 2 = 0) by (rewrite E2, Hxy in H2; lia).
    assert (Hy : dy = 0) by (destruct (Z.eq_dec dy 0); [done|]; nia).
    subst dy. rewrite Hy in H0, H1.
    split; [lia|].
    assert (Hx : dx ≠ 0) by (intros Hx; rewrite Hx in H0; cbn in H0; lia).
    lia.
  - intros [Hy Hlt].
    assert (Hd : dy = 0) by lia. rewrite Hd.
    assert (Hx : 0 < dx) by lia.
    assert (Hsq : 0 < dx ^ 2) by nia.
    split; (split; [lia|split; [lia|split; ring]]).
Qed.

(** C3, as the code has it.  Read back, the fragment of every call is the
    line from [(x1, y1)] to [(x2, y2)] in the given colour and the
    triangle [(x2 - 10, y2 - 7)], [(x2 - 10, y2 + 7)], [(x2 + 10, y2)]:
    the triangle depends on the end point only, the end point is none of
    its vertices, its tip is 10 units to the right of the end point and its
    base 10 units to the left, 7 units above and below.  The two base
    vertices are where the specification puts them, 10 units back along
    the line and 7 units to each side, exactly when the line is horizontal
    and drawn left to right. *)
Theorem connector_fixed_triangle (x1 y1 x2 y2 : Z) (color : string) :
  arrow_shape (svg_arrow x1 y1 x2 y2 color)
  = Some ((x1, y1), (x2, y2), color,
          [(x2 - 10, y2 - 7); (x2 - 10, y2 + 7); (x2 + 10, y2)])
  ∧ ((x2, y2) ∉ [(x2 - 10, y2 - 7); (x2 - 10, y2 + 7); (x2 + 10, y2)])
  ∧ ((base_vertex (x1, y1) (x2, y2) (x2 - 10, y2 - 7)
      ∧ base_vertex (x1, y1) (x2, y2) (x2 - 10, y2 + 7))
     ↔ (y1 = y2 ∧ x1 < x2)).
Proof.
  split; [apply arrow_shape_svg_arrow|]. split; [|apply base_vertices_iff].
  rewrite !elem_of_cons, elem_of_nil.
  intros [H|[H|[H|[]]]]; injection H; lia.
Qed.

Lemma connector_fixed_triangle_witness :
  arrow_shape (svg_arrow 310 105 330 105 (txt "url(#deep)` id=`a"))
  = Some ((310, 105), (330, 105), txt "url(#deep)` id=`a",
          [(330 - 10, 105 - 7); (330 - 10, 105 + 7); (330 + 10, 105)])
  ∧ ((330, 105) ∉ [(330 - 10, 105 - 7); (330 - 10, 105 + 7); (330 + 10, 105)])
  ∧ ((base_vertex (310, 105) (330, 105) (330 - 10, 105 - 7)
      ∧ base_vertex (310, 105) (330, 105) (330 - 10, 105 + 7))
     ↔ (105 = 105 ∧ 310 < 330)).
Proof.
  apply (connector_fixed_triangle 310 105 330 105 (txt "url(#deep)` id=`a")).
Defined.

(** The first connector of the registry, [svg_arrow(310, 105, 330, 105)],
    is not the connector the specification describes: no vertex of its
    triangle is the end point [(330, 105)]. *)
Lemma connector_tip_off_end :
  ¬ connector_as_specified 310 105 330 105 svg_arrow_color.
Proof.
  intros (pts & b1 & b2 & Hshape & Hperm & _).
  rewrite arrow_shape_svg_arrow in Hshape.
  injection Hshape as <-.
  assert (Hin : (330, 105) ∈ [(330 - 10, 105 - 7); (330 - 10, 105 + 7); (330 + 10, 105)]).
  { rewrite Hperm. by left. }
  rewrite !elem_of_cons, elem_of_nil in Hin.
  destruct Hin as [[=]|[[=]|[[=]|[]]]].
Qed.

(** ** Legend *)

Lemma svg_legend_loop (x : Z) (lines : list string) (parts : list string) (yy : Z) :
  foldl (svg_legend_step x) (parts, yy) lines
  = (parts ++ imap (λ i line, legend_text (x + 16) (yy + 18 * Z.of_nat i) line) lines,
     yy + 18 * Z.of_nat (length lines)).
Proof.
  revert parts yy. induction lines as [|line lines IH]; intros parts yy.
  - cbn. by rewrite app_nil_r, Z.add_0_r.
  - cbn [foldl]. unfold svg_legend_step at 2. rewrite IH.
    rewrite <- app_assoc. cbn [app imap length].
    f_equal; [|lia]. f_equal. f_equal.
    + unfold legend_text. replace (yy + 18 * Z.of_nat 0) with yy by lia. reflexivity.
    + apply imap_ext. intros i l _. unfold compose. f_equal. lia.
Qed.

Lemma svg_legend_parts_eq (x y : Z) (lines : list string) :
  svg_legend_parts x y lines
  = legend_box x y (24 + 18 * Z.of_nat (length lines))
    :: legend_text (x + 16) (y + 22) "Legend"
    :: imap (λ i line, legend_text (x + 16) (y + 44 + 18 * Z.of_nat i) line) lines.
Proof. unfold svg_legend_parts. rewrite svg_legend_loop. reflexivity. Qed.

Lemma legend_box_text (x y h : Z) :
  legend_box x y h
  = txt "<rect x=`" +:+ str_int x +:+ String dquote
      (txt " y=`" +:+ str_int y +:+ String dquote
      (txt " width=`" +:+ str_int 360 +:+ String dquote
      (txt " height=`" +:+ str_int h +:+ String dquote
      (txt " rx=`16` ry=`16` fill=`none` stroke=`#7fb3e6` stroke-width=`2`/>")))).
Proof. reflexivity. Qed.

Lemma box_shape_legend_box (x y h : Z) :
  box_shape (legend_box x y h) = Some (x, y, 360, h).
Proof. rewrite legend_box_text. unfold box_shape. read_fragment. reflexivity. Qed.

Lemma legend_text_text (x y : Z) (text : string) :
  legend_text x y text
  = txt "<text x=`" +:+ str_int x +:+ String dquote
      (txt " y=`" +:+ str_int y +:+ String dquote
      (txt " text-anchor=`start` font-size=`12` fill=`#2f4a63` font-family=`Space Grotesk`>"
       +:+ text +:+ "</text>")).
Proof. reflexivity. Qed.

Lemma text_position_legend_text (x y : Z) (text : string) :
  text_position (legend_text x y text) = Some (x, y).
Proof. rewrite legend_text_text. unfold text_position. read_fragment. reflexivity. Qed.

(** C7. The legend of [n] lines is, joined by newlines, a box whose height
    reads back as [24 + 18 n] (at [(x, y)], 360 wide), the title line, and
    for each line in order a text element that reads back at abscissa
    [x + 16] and ordinate [y + 44 + 18 i] for the line of index [i]; with no
    line it is the box of height 24 and the title, nothing else. *)
Theorem legend_layout (x y : Z) (lines : list string) :
  svg_legend x y lines
  = String.concat nl
      (legend_box x y (24 + 18 * Z.of_nat (length lines))
       :: legend_text (x + 16) (y + 22) "Legend"
       :: imap (λ i line, legend_text (x + 16) (y + 44 + 18 * Z.of_nat i) line) lines)
  ∧ box_shape (legend_box x y (24 + 18 * Z.of_nat (length lines)))
    = Some (x, y, 360, 24 + 18 * Z.of_nat (length lines))
  ∧ (∀ i line, lines !! i = Some line →
     ∃ part, svg_legend_parts x y lines !! (2 + i)%nat = Some part
             ∧ part = legend_text (x + 16) (y + 44 + 18 * Z.of_nat i) line
             ∧ text_position part = Some (x + 16, y + 44 + 18 * Z.of_nat i))
  ∧ length (svg_legend_parts x y lines) = (2 + length lines)%nat
  ∧ svg_legend x y []
    = legend_box x y 24 +:+ nl +:+ legend_text (x + 16) (y + 22) "Legend".
Proof.
  split; [|split; [|split; [|split]]].
  - unfold svg_legend. by rewrite svg_legend_parts_eq.
  - apply box_shape_legend_box.
  - intros i line Hi. eexists. split; [|split; [reflexivity|]].
    + rewrite svg_legend_parts_eq.
      change ((?a :: ?b :: ?l) !! (2 + i)%nat) with (l !! i).
      rewrite list_lookup_imap, Hi. reflexivity.
    + apply text_position_legend_text.
  - rewrite svg_legend_parts_eq. cbn [length]. by rewrite length_imap.
  - reflexivity.
Qed.

(** ** Page body *)

Lemma h2_sections_in_order (l : list (string * string)) :
  h2_sections l = sections_in_order l.
Proof.
  unfold h2_sections. induction l as [|[h t] l IH]; [done|].
  destruct l as [|s l]; [done|].
  change (String.concat nl (map ?f ((h, t) :: s :: l)))
    with (f (h, t) +:+ nl +:+ String.concat nl (map f (s :: l))).
  rewrite IH. cbn [sections_in_order]. unfold section_block. cbn [fst snd].
  by rewrite !append_assoc.
Qed.

Lemma references_links_in_order (l : list (string * string)) :
  references_paragraph l
  = "<h2>References</h2>" +:+ nl +:+ "<p>" +:+ links_in_order l +:+ "</p>".
Proof.
  unfold references_paragraph. do 4 f_equal.
  induction l as [|[name url] l IH]; [done|].
  destruct l as [|r l]; [done|].
  change (String.concat " " (map ?f ((name, url) :: r :: l)))
    with (f (name, url) +:+ " " +:+ String.concat " " (map f (r :: l))).
  rewrite IH. cbn [links_in_order]. unfold reference_link. cbn [fst snd].
  by rewrite !append_assoc.
Qed.

Lemma sections_in_order_app (l1 l2 : list (string * string)) :
  l1 ≠ [] → l2 ≠ [] →
  sections_in_order (l1 ++ l2)
  = sections_in_order l1 +:+ nl +:+ sections_in_order l2.
Proof.
  intros H1 H2. induction l1 as [|s l1 IH]; [done|].
  destruct l1 as [|s' l1].
  - destruct l2; [done|]. reflexivity.
  - change (sections_in_order ((s :: s' :: l1) ++ l2))
      with (section_block s +:+ nl +:+ sections_in_order ((s' :: l1) ++ l2)).
    rewrite IH by done. cbn [sections_in_order]. by rewrite !append_assoc.
Qed.

(** C6. The content block of a rendered page is, in this order and with a
    newline between the parts: the title heading, the two introductory
    paragraphs chosen by the kind, the related-pages paragraph chosen by
    the kind, the sections in list order, each a subheading and a paragraph,
    the figure around the diagram with the caption, and the references
    heading and paragraph with one link per reference in list order.  The
    section block of a concatenation of two lists is the block of the first
    followed by the block of the second. *)
Theorem page_body_in_order (page : Page) :
  render_page page
  = html_page (title page) (spec_page_body page) (page_prefix (kind page))
  ∧ (∀ l1 l2 : list (string * string), l1 ≠ [] → l2 ≠ [] →
     h2_sections (l1 ++ l2) = h2_sections l1 +:+ nl +:+ h2_sections l2)
  ∧ h2_sections [("Overview", "A"); ("Details", "B")]
    = "<h2>Overview</h2>" +:+ nl +:+ "<p>A</p>" +:+ nl
      +:+ "<h2>Details</h2>" +:+ nl +:+ "<p>B</p>".
Proof.
  split; [|split].
  - rewrite render_page_unfold. f_equal.
    rewrite !concat_cons2. cbn [String.concat].
    rewrite h2_sections_in_order, references_links_in_order.
    unfold spec_page_body, figure_block. rewrite !append_assoc. reflexivity.
  - intros l1 l2 H1 H2. rewrite !h2_sections_in_order.
    by apply sections_in_order_app.
  - reflexivity.
Qed.

Lemma page_body_in_order_witness :
  h2_sections ([("Overview", "A")] ++ [("Details", "B")])
  = h2_sections [("Overview", "A")] +:+ nl +:+ h2_sections [("Details", "B")].
Proof.
  apply (page_body_in_order sample_page); discriminate.
Defined.

Lemma legend_layout_witness :
  ∃ part, svg_legend_parts 70 255 ["first"; "second"] !! (2 + 1)%nat = Some part
          ∧ part = legend_text (70 + 16) (255 + 44 + 18 * Z.of_nat 1) "second"
          ∧ text_position part = Some (70 + 16, 255 + 44 + 18 * Z.of_nat 1).
Proof.
  apply (legend_layout 70 255 ["first"; "second"]). reflexivity.
Defined.

(** ** Directory preparation, further *)

Lemma os_mkdir_cases (p : path) (fs : gmap path node) :
  (outcome (os_mkdir p fs) = inr ()
   ∧ store (os_mkdir p fs) = <[p := Dir]> fs
   ∧ fs !! p = None ∧ p ≠ []
   ∧ lookup_node fs (parent p) = Some Dir)
  ∨ (∃ e, outcome (os_mkdir p fs) = inl e ∧ store (os_mkdir p fs) = fs).
Proof.
  rewrite os_mkdir_run.
  destruct (lookup_node fs p) eqn:Hp; [right; by eexists|].
  apply lookup_node_None in Hp as [Hne Hp].
  destruct (lookup_node fs (parent p)) as [[]|] eqn:Hpar;
    [right; by eexists|left; by repeat split|right; by eexists].
Qed.

Lemma unless_is_dir_store (p : path) (e : exn) (fs : gmap path node) :
  store (unless_is_dir p e fs) = fs.
Proof. by destruct (unless_is_dir_spec p e fs) as (_ & -> & _). Qed.

Lemma prefix_of_snoc (q p : path) (c : string) :
  q `prefix_of` p → q `prefix_of` p ++ [c].
Proof. intros [k ->]. exists (k ++ [c]). by rewrite app_assoc. Qed.

(** Whatever the outcome, [mkdir] changes the store only by adding
    directories at paths leading to the one asked for. *)
Lemma mkdir_rev_frame (rp : list string) (b : bool) (fs : gmap path node) (q : path) :
  store (mkdir_rev b rp fs) !! q = fs !! q
  ∨ (fs !! q = None ∧ store (mkdir_rev b rp fs) !! q = Some Dir
     ∧ q `prefix_of` reverse rp ∧ q ≠ []).
Proof.
  revert b fs. induction rp as [|c rp IH]; intros b fs.
  - left. cbn [mkdir_rev]. rewrite catch_run.
    destruct (os_mkdir_cases (reverse []) fs) as [(_ & _ & _ & Hne & _)|(e & He & Hs)]; [done|].
    rewrite He, Hs. cbn [store].
    destruct e; cbn [store raise]; rewrite ?unless_is_dir_store; try done.
  - cbn [mkdir_rev]. set (p := reverse (c :: rp)). rewrite catch_run.
    assert (Hins : ∀ fs0 : gmap path node, fs0 !! p = None →
              (fs0 !! q = fs !! q
               ∨ (fs !! q = None ∧ fs0 !! q = Some Dir ∧ q `prefix_of` reverse rp ∧ q ≠ [])) →
              <[p := Dir]> fs0 !! q = fs !! q
              ∨ (fs !! q = None ∧ <[p := Dir]> fs0 !! q = Some Dir ∧ q `prefix_of` p ∧ q ≠ [])).
    { intros fs0 Hp0 Hq. destruct (decide (q = p)) as [->|Hne].
      - right. rewrite lookup_insert_eq. split; [|split; [done|split; [done|]]].
        + destruct Hq as [Hq|(Hq & _)]; congruence.
        + unfold p. rewrite reverse_cons. by destruct (reverse rp).
      - rewrite lookup_insert_ne by done.
        destruct Hq as [Hq|(H1 & H2 & H3 & H4)]; [by left|right].
        split; [done|]. split; [done|]. split; [|done].
        unfold p. rewrite reverse_cons. by apply prefix_of_snoc. }
    destruct (os_mkdir_cases p fs) as [(Ho & Hs & Hp & _)|(e & He & Hs)].
    { rewrite Ho, Hs. apply Hins; [done|by left]. }
    rewrite He, Hs. cbn [store].
    destruct e as [msg|q'|q'|q'|q']; rewrite ?unless_is_dir_store; try by left.
    destruct b; [|by left].
    rewrite bind_run.
    destruct (outcome (mkdir_rev true rp fs)) as [e|[]] eqn:Hrec; cbn [store].
    { destruct (IH true fs) as [H|(H1 & H2 & H3 & H4)]; [by left|right].
      split; [done|]. split; [done|]. split; [|done].
      unfold p. rewrite reverse_cons. by apply prefix_of_snoc. }
    rewrite catch_run.
    destruct (os_mkdir_cases p (store (mkdir_rev true rp fs)))
      as [(Ho1 & Hs1 & Hp1 & _)|(e & He1 & Hs1)].
    { rewrite Ho1, Hs1. apply Hins; [done|apply IH]. }
    rewrite He1, Hs1. cbn [store].
    assert (Hrest : store (mkdir_rev true rp fs) !! q = fs !! q
              ∨ (fs !! q = None ∧ store (mkdir_rev true rp fs) !! q = Some Dir
                 ∧ q `prefix_of` p ∧ q ≠ [])).
    { destruct (IH true fs) as [H|(H1 & H2 & H3 & H4)]; [by left|right].
      split; [done|]. split; [done|]. split; [|done].
      unfold p. rewrite reverse_cons. by apply prefix_of_snoc. }
    destruct e; rewrite ?unless_is_dir_store; exact Hrest.
Qed.

Lemma mkdir_frame (p : path) (fs : gmap path node) (q : path) :
  store (mkdir p fs) !! q = fs !! q
  ∨ (fs !! q = None ∧ store (mkdir p fs) !! q = Some Dir ∧ q `prefix_of` p ∧ q ≠ []).
Proof.
  unfold mkdir. rewrite bind_run. cbn [log outcome store].
  destruct (mkdir_rev_frame (reverse p) true fs q) as [H|H]; [by left|right].
  by rewrite reverse_involutive in H.
Qed.

(** On a directory that exists, [mkdir] does nothing. *)
Lemma mkdir_existing (p : path) (fs : gmap path node) :
  lookup_node fs p = Some Dir → mkdir p fs = Result (inr ()) fs [Mkdir p].
Proof.
  intros Hp. unfold mkdir. rewrite bind_run. cbn [log outcome store trace].
  assert (H : mkdir_rev true (reverse p) fs = Result (inr ()) fs []).
  { destruct (reverse p) as [|c rp] eqn:Hrp.
    - apply (f_equal reverse) in Hrp. rewrite reverse_involutive in Hrp. subst p.
      reflexivity.
    - cbn [mkdir_rev]. rewrite <- Hrp, reverse_involutive, catch_run, os_mkdir_run, Hp.
      cbn [outcome store trace]. unfold unless_is_dir.
      rewrite bind_run, is_dir_run, Hp. reflexivity. }
  by rewrite H.
Qed.

(** On a path that is a regular file, [mkdir] raises and changes nothing. *)
Lemma mkdir_on_file (p : path) (content : string) (fs : gmap path node) :
  lookup_node fs p = Some (File content) →
  mkdir p fs = Result (inl (FileExistsError p)) fs [Mkdir p].
Proof.
  intros Hp. unfold mkdir. rewrite bind_run. cbn [log outcome store trace].
  assert (H : mkdir_rev true (reverse p) fs = Result (inl (FileExistsError p)) fs []).
  { destruct (reverse p) as [|c rp] eqn:Hrp.
    - apply (f_equal reverse) in Hrp. rewrite reverse_involutive in Hrp. by subst p.
    - cbn [mkdir_rev]. rewrite <- Hrp, reverse_involutive, catch_run, os_mkdir_run, Hp.
      cbn [outcome store trace]. unfold unless_is_dir.
      rewrite bind_run, is_dir_run, Hp. reflexivity. }
  by rewrite H.
Qed.

Lemma parent_snoc (p : path) (c : string) : parent (p ++ [c]) = p.
Proof. unfold parent. apply removelast_last. Qed.

Lemma lookup_node_snoc (fs : gmap path node) (p : path) (c : string) :
  lookup_node fs (p ++ [c]) = fs !! (p ++ [c]).
Proof. by destruct p. Qed.

Lemma os_mkdir_snoc_run (d : path) (c : string) (fs : gmap path node) :
  os_mkdir (d ++ [c]) fs =
  match fs !! (d ++ [c]) with
  | Some _ => Result (inl (FileExistsError (d ++ [c]))) fs []
  | None =>
      match lookup_node fs d with
      | None => Result (inl (FileNotFoundError (d ++ [c]))) fs []
      | Some (File _) => Result (inl (NotADirectoryError (d ++ [c]))) fs []
      | Some Dir => Result (inr ()) (<[d ++ [c] := Dir]> fs) []
      end
  end.
Proof. by rewrite os_mkdir_run, lookup_node_snoc, parent_snoc. Qed.

Lemma unless_is_dir_snoc_run (d : path) (c : string) (e : exn) (fs : gmap path node) :
  unless_is_dir (d ++ [c]) e fs =
  match fs !! (d ++ [c]) with
  | Some Dir => Result (inr ()) fs []
  | _ => Result (inl e) fs []
  end.
Proof.
  unfold unless_is_dir. rewrite bind_run, is_dir_run, lookup_node_snoc.
  by destruct (fs !! (d ++ [c])) as [[]|].
Qed.

(** [mkdir] ends normally when nothing on the way is a regular file. *)
Lemma mkdir_rev_ok (rp : list string) (fs : gmap path node) :
  (∀ q, q `prefix_of` reverse rp → q ≠ [] → fs !! q = None ∨ fs !! q = Some Dir) →
  outcome (mkdir_rev true rp fs) = inr ().
Proof.
  revert fs. induction rp as [|c rp IH]; intros fs Hfree; [done|].
  cbn [mkdir_rev]. rewrite reverse_cons in *.
  assert (Hp : fs !! (reverse rp ++ [c]) = None ∨ fs !! (reverse rp ++ [c]) = Some Dir).
  { apply Hfree; [done|]. by destruct (reverse rp). }
  assert (Hpar : lookup_node fs (reverse rp) = None ∨ lookup_node fs (reverse rp) = Some Dir).
  { destruct (reverse rp) as [|d r] eqn:Hr; [by right|]. cbn [lookup_node].
    apply Hfree; [|done]. by apply prefix_of_snoc. }
  rewrite catch_run, os_mkdir_snoc_run.
  destruct Hp as [Hp|Hp]; rewrite Hp; cbn [outcome store trace].
  2:{ by rewrite unless_is_dir_snoc_run, Hp. }
  destruct Hpar as [Hpar|Hpar]; rewrite Hpar; cbn [outcome store trace]; [|done].
  rewrite bind_run.
  assert (Hrec : outcome (mkdir_rev true rp fs) = inr ()).
  { apply IH. intros q Hq Hne. apply Hfree; [|done]. by apply prefix_of_snoc. }
  rewrite Hrec. cbn [outcome store trace].
  destruct (mkdir_rev_spec rp true fs) as (_ & _ & Hdir). specialize (Hdir Hrec).
  rewrite catch_run, os_mkdir_snoc_run, Hdir.
  destruct (mkdir_rev_frame rp true fs (reverse rp ++ [c])) as [H|(_ & _ & Hpre & _)].
  - by rewrite H, Hp.
  - apply prefix_length in Hpre. rewrite length_app in Hpre. cbn in Hpre. lia.
Qed.

Lemma mkdir_ok (p : path) (fs : gmap path node) :
  (∀ q, q `prefix_of` p → q ≠ [] → fs !! q = None ∨ fs !! q = Some Dir) →
  outcome (mkdir p fs) = inr ().
Proof.
  intros H. unfold mkdir. rewrite bind_run. cbn [log outcome store trace].
  apply mkdir_rev_ok. by rewrite reverse_involutive.
Qed.

(** ** Confinement *)

Lemma confined_weaken {A} (P Q : path → Prop) (m : io A) :
  (∀ q, P q → Q q) → confined P m → confined Q m.
Proof. intros HPQ Hm fs q. destruct (Hm fs q); auto. Qed.

Lemma confined_bind {A B} (P : path → Prop) (m : io A) (f : A → io B) :
  confined P m → (∀ a, confined P (f a)) → confined P (m ≫= f).
Proof.
  intros Hm Hf fs q. rewrite bind_run.
  destruct (outcome (m fs)) as [e|a]; cbn [store]; [apply Hm|].
  destruct (Hf a (store (m fs)) q) as [H|H]; [|by right].
  rewrite H. apply Hm.
Qed.

Lemma confined_ret {A} (P : path → Prop) (a : A) : confined P (mret a).
Proof. intros fs q. by left. Qed.

Lemma confined_raise {A} (P : path → Prop) (e : exn) : confined P (raise e : io A).
Proof. intros fs q. by left. Qed.

Lemma confined_path_exists (P : path → Prop) (p : path) : confined P (path_exists p).
Proof. intros fs q. by left. Qed.

Lemma confined_mkdir (p : path) :
  confined (λ q, q `prefix_of` p ∧ q ≠ []) (mkdir p).
Proof.
  intros fs q. destruct (mkdir_frame p fs q) as [H|(_ & _ & H1 & H2)]; auto.
Qed.

Lemma confined_write_text (p : path) (data : string) :
  confined (λ q, q = p) (write_text p data).
Proof.
  intros fs q. rewrite write_text_run.
  destruct (lookup_node fs (parent p)) as [[]|]; cbn [store]; try by left.
  destruct (lookup_node fs p) as [[]|]; cbn [store]; try by left.
  all: destruct (decide (q = p)) as [->|Hne]; [by right|left; by apply lookup_insert_ne].
Qed.

Lemma confined_for_each {A} (P : path → Prop) (l : list A) (body : A → io unit) :
  (∀ a, a ∈ l → confined P (body a)) → confined P (for_each l body).
Proof.
  induction l as [|a l IH]; intros Hbody; [apply confined_ret|].
  cbn [for_each]. apply confined_bind.
  - apply Hbody. by left.
  - intros _. apply IH. intros a' Ha'. apply Hbody. by right.
Qed.

Lemma confined_unlink (p : path) : confined (λ q, q = p) (unlink p).
Proof.
  intros fs q. rewrite unlink_run.
  destruct (lookup_node fs p) as [[]|]; cbn [store]; try by left.
  destruct (decide (q = p)) as [->|Hne]; [by right|left; by apply lookup_delete_ne].
Qed.

Lemma confined_cleanup :
  confined (λ q, ∃ name, q = THEORY ++ [name]) remove_legacy_theory_pages.
Proof.
  unfold remove_legacy_theory_pages.
  apply confined_bind; [apply confined_path_exists|]. intros e.
  destruct (negb e); [apply confined_ret|].
  intros fs q. rewrite bind_run. cbn [glob log bind_run outcome store].
  change (store (glob THEORY "ds*.html" fs)) with fs.
  change (outcome (glob THEORY "ds*.html" fs))
    with (inr (map (λ name, THEORY ++ [name]) (stale_entries fs)) : exn + list path).
  cbn [store].
  apply (confined_for_each (λ q, ∃ name, q = THEORY ++ [name])).
  intros p (name & -> & _)%list_elem_of_fmap.
  eapply confined_weaken; [|apply confined_unlink]. intros ? ->. by eexists.
Qed.

Lemma prefix_of_theory (q : path) :
  q `prefix_of` THEORY → q ≠ [] → q = ["docs"] ∨ q = THEORY.
Proof.
  intros [k Hk] Hne. destruct q as [|a [|b [|c q]]]; [done|..].
  - injection Hk as <- _. by left.
  - injection Hk as <- <- _. by right.
  - discriminate Hk.
Qed.

Lemma prefix_of_wiki (q : path) :
  q `prefix_of` WIKI → q ≠ [] → q = ["docs"] ∨ q = WIKI.
Proof.
  intros [k Hk] Hne. destruct q as [|a [|b [|c q]]]; [done|..].
  - injection Hk as <- _. by left.
  - injection Hk as <- <- _. by right.
  - discriminate Hk.
Qed.

Lemma slugs_plain_elem (pages : list Page) (p : Page) :
  slugs_plain pages = true → p ∈ pages → slug_plain (slug p) = true.
Proof.
  unfold slugs_plain. rewrite forallb_forall. intros H Hp. by apply H, list_elem_of_In.
Qed.

Lemma main_with_confined (tp wp : list Page) :
  slugs_plain tp = true → slugs_plain wp = true →
  confined output_path (main_with tp wp).
Proof.
  intros Htp Hwp. unfold main_with.
  apply confined_bind; [apply confined_path_exists|]. intros css.
  destruct (negb css); [apply confined_raise|].
  apply confined_bind.
  { eapply confined_weaken; [|apply confined_mkdir].
    intros q [H1 H2]. unfold output_path.
    destruct (prefix_of_theory q H1 H2); auto. }
  intros _. apply confined_bind.
  { eapply confined_weaken; [|apply confined_mkdir].
    intros q [H1 H2]. unfold output_path.
    destruct (prefix_of_wiki q H1 H2); auto. }
  intros _. apply confined_bind.
  { eapply confined_weaken; [|apply confined_cleanup].
    intros q H. unfold output_path. auto. }
  intros _. apply confined_bind.
  { eapply confined_weaken; [|apply confined_write_text].
    intros q ->. unfold output_path. right. right. right. left. by exists "index.html". }
  intros _. apply confined_bind.
  { apply confined_for_each. intros p Hp.
    eapply confined_weaken; [|apply confined_write_text].
    intros q ->. unfold output_path. right. right. right. left.
    exists (slug p +:+ ".html").
    apply (page_path_plain THEORY p), (slugs_plain_elem tp); done. }
  intros _. apply confined_bind.
  { eapply confined_weaken; [|apply confined_write_text].
    intros q ->. unfold output_path. right. right. right. right. by exists "index.html". }
  intros _. apply confined_for_each. intros p Hp.
  eapply confined_weaken; [|apply confined_write_text].
  intros q ->. unfold output_path. right. right. right. right.
  exists (slug p +:+ ".html").
  apply (page_path_plain WIKI p), (slugs_plain_elem wp); done.
Qed.

(** ** Legacy cleanup, further *)

Lemma stale_are_files_iff (fs : gmap path node) :
  stale_are_files fs = true ↔
  ∀ name, fnmatch "ds*.html" name = true → fs !! (THEORY ++ [name]) ≠ Some Dir.
Proof.
  unfold stale_are_files. rewrite forallb_forall. split.
  - intros H name Hm Hd.
    assert (Hin : name ∈ stale_entries fs)
      by (apply elem_of_stale_entries; rewrite Hd; eauto).
    apply list_elem_of_In, H in Hin. by rewrite Hd in Hin.
  - intros H name [Hm _]%list_elem_of_In%elem_of_stale_entries.
    specialize (H name Hm). by destruct (fs !! (THEORY ++ [name])) as [[]|].
Qed.

Lemma stale_paths_spec (fs : gmap path node) (q : path) :
  q ∈ map (λ name, THEORY ++ [name]) (stale_entries fs) ↔
  ∃ name, q = THEORY ++ [name] ∧ fnmatch "ds*.html" name = true ∧ is_Some (fs !! q).
Proof.
  rewrite list_elem_of_fmap. setoid_rewrite elem_of_stale_entries. split.
  - intros (name & -> & Hm & Hs). eauto.
  - intros (name & -> & Hm & Hs). eauto.
Qed.

Lemma stale_paths_nonempty (fs : gmap path node) :
  Forall (λ p : path, p ≠ []) (map (λ name, THEORY ++ [name]) (stale_entries fs)).
Proof. apply Forall_forall. intros p (name & -> & _)%list_elem_of_fmap. done. Qed.

Lemma cleanup_frame (fs : gmap path node) (q : path) :
  store (remove_legacy_theory_pages fs) !! q = fs !! q
  ∨ ∃ name content,
      q = THEORY ++ [name] ∧ fnmatch "ds*.html" name = true
      ∧ fs !! q = Some (File content)
      ∧ store (remove_legacy_theory_pages fs) !! q = None.
Proof.
  rewrite remove_legacy_theory_pages_run.
  destruct (fs !! THEORY); [|by left]. cbn [store].
  destruct (for_each_unlink_spec _ fs (stale_paths_nonempty fs)) as (Hframe & _ & _).
  destruct (Hframe q) as [H|(Hq & [c Hc] & H)]; [by left|].
  right. apply stale_paths_spec in Hq as (name & -> & Hm & _). by exists name, c.
Qed.

Lemma cleanup_ok (fs : gmap path node) :
  (∀ name, fnmatch "ds*.html" name = true → fs !! (THEORY ++ [name]) ≠ Some Dir) →
  outcome (remove_legacy_theory_pages fs) = inr ()
  ∧ (is_Some (fs !! THEORY) →
     ∀ name, fnmatch "ds*.html" name = true →
       store (remove_legacy_theory_pages fs) !! (THEORY ++ [name]) = None).
Proof.
  intros Hfiles. rewrite remove_legacy_theory_pages_run.
  destruct (fs !! THEORY) as [d|] eqn:Hd; cbn [outcome store].
  2:{ split; [done|]. by intros [? [=]]. }
  destruct (for_each_unlink_spec _ fs (stale_paths_nonempty fs)) as (Hframe & _ & Hok).
  destruct Hok as (Ho & _ & Hgone).
  { intros p (name & -> & Hm & _)%stale_paths_spec. by apply Hfiles. }
  split; [done|]. intros _ name Hm.
  destruct (fs !! (THEORY ++ [name])) as [v|] eqn:Hv.
  - apply Hgone, stale_paths_spec. exists name. rewrite Hv. eauto.
  - destruct (Hframe (THEORY ++ [name])) as [H|(_ & _ & H)]; [|done].
    by rewrite H.
Qed.

(** The [unlink] loop stops at the first directory it meets. *)
Lemma for_each_unlink_raises (paths : list path) (fs : gmap path node) :
  Forall (λ p, p ≠ []) paths →
  (∃ p, p ∈ paths ∧ fs !! p = Some Dir) →
  ∃ p, p ∈ paths ∧ fs !! p = Some Dir
       ∧ outcome (for_each paths unlink fs) = inl (IsADirectoryError p).
Proof.
  intros Hne. revert fs. induction Hne as [|p0 paths Hp0 Hne IH]; intros fs (p & Hin & Hd).
  { by apply elem_of_nil in Hin. }
  rewrite for_each_cons, unlink_run.
  assert (Hl : lookup_node fs p0 = fs !! p0) by (by destruct p0).
  rewrite Hl. destruct (fs !! p0) as [[c|]|] eqn:Hfp; cbn [outcome store trace].
  - apply elem_of_cons in Hin as [->|Hin]; [congruence|].
    destruct (IH (delete p0 fs)) as (p' & Hin' & Hd' & Ho).
    { exists p. split; [done|]. rewrite lookup_delete_ne; [done|]. congruence. }
    exists p'. split; [by right|]. split; [|done].
    destruct (decide (p0 = p')) as [->|Hne']; [by rewrite lookup_delete_eq in Hd'|].
    by rewrite lookup_delete_ne in Hd'.
  - exists p0. split; [by left|]. done.
  - apply elem_of_cons in Hin as [->|Hin]; [congruence|].
    destruct (IH fs) as (p' & Hin' & Hd' & Ho); [by eauto|].
    exists p'. split; [by right|]. done.
Qed.

Lemma forallb_false_elem {A} (f : A → bool) (l : list A) :
  forallb f l = false → ∃ x, x ∈ l ∧ f x = false.
Proof.
  induction l as [|a l IH]; [done|]. cbn.
  destruct (f a) eqn:Ha; cbn.
  - intros (x & Hx & Hf)%IH. exists x. split; [by right|done].
  - intros _. exists a. split; [by left|done].
Qed.

Lemma cleanup_raises (fs : gmap path node) :
  is_Some (fs !! THEORY) → stale_are_files fs = false →
  ∃ name, fnmatch "ds*.html" name = true
          ∧ fs !! (THEORY ++ [name]) = Some Dir
          ∧ outcome (remove_legacy_theory_pages fs)
            = inl (IsADirectoryError (THEORY ++ [name])).
Proof.
  intros [d Hd] Hfiles. rewrite remove_legacy_theory_pages_run, Hd. cbn [outcome].
  unfold stale_are_files in Hfiles.
  apply forallb_false_elem in Hfiles as (name0 & Hin & Hf).
  assert (Hex : ∃ p, p ∈ map (λ name, THEORY ++ [name]) (stale_entries fs)
                     ∧ fs !! p = Some Dir).
  { exists (THEORY ++ [name0]). split; [apply list_elem_of_fmap; by exists name0|].
    by destruct (fs !! (THEORY ++ [name0])) as [[]|]. }
  destruct (for_each_unlink_raises _ fs (stale_paths_nonempty fs) Hex)
    as (p & Hp & Hdir & Ho).
  apply stale_paths_spec in Hp as (name & Heq & Hm & _). subst p.
  by exists name.
Qed.

Lemma cleanup_ok_inv (fs : gmap path node) :
  is_Some (fs !! THEORY) →
  outcome (remove_legacy_theory_pages fs) = inr () →
  ∀ name, fnmatch "ds*.html" name = true →
    store (remove_legacy_theory_pages fs) !! (THEORY ++ [name]) = None.
Proof.
  intros Ht Ho.
  destruct (stale_are_files fs) eqn:Hfiles.
  - pose proof (proj1 (stale_are_files_iff fs) Hfiles) as Hf.
    destruct (cleanup_ok fs Hf) as [_ H]. exact (H Ht).
  - destruct (cleanup_raises fs Ht Hfiles) as (name & _ & _ & H). congruence.
Qed.

Lemma stale_entries_nil (fs : gmap path node) :
  (∀ name, fnmatch "ds*.html" name = true → fs !! (THEORY ++ [name]) = None) →
  stale_entries fs = [].
Proof.
  intros H. destruct (stale_entries fs) as [|name l] eqn:Hl; [done|].
  assert (Hin : name ∈ stale_entries fs) by (rewrite Hl; by left).
  apply elem_of_stale_entries in Hin as [Hm [v Hv]]. by rewrite (H name Hm) in Hv.
Qed.

Lemma cleanup_twice (fs : gmap path node) :
  outcome (remove_legacy_theory_pages fs) = inr () →
  outcome (remove_legacy_theory_pages (store (remove_legacy_theory_pages fs))) = inr ()
  ∧ store (remove_legacy_theory_pages (store (remove_legacy_theory_pages fs)))
    = store (remove_legacy_theory_pages fs)
  ∧ Forall (λ e, mutating e = false)
      (trace (remove_legacy_theory_pages (store (remove_legacy_theory_pages fs)))).
Proof.
  intros Ho. set (fs' := store (remove_legacy_theory_pages fs)).
  destruct (fs !! THEORY) as [d|] eqn:Hd.
  - assert (Hgone := cleanup_ok_inv fs (mk_is_Some _ _ Hd) Ho).
    assert (Hd' : fs' !! THEORY = Some d).
    { destruct (cleanup_frame fs THEORY) as [H|(name & c & Heq & _)].
      - unfold fs'. by rewrite H.
      - apply (f_equal length) in Heq. by cbn in Heq. }
    rewrite (remove_legacy_theory_pages_run fs'), Hd'.
    rewrite (stale_entries_nil fs' Hgone). cbn. repeat split; by repeat constructor.
  - assert (Hfs : fs' = fs).
    { unfold fs'. by rewrite remove_legacy_theory_pages_run, Hd. }
    rewrite Hfs, remove_legacy_theory_pages_run, Hd. cbn.
    repeat split; by repeat constructor.
Qed.

(** ** When the build ends normally *)

Lemma write_all_lookup_other (ws : list (path * string)) (fs : gmap path node) (q : path) :
  q ∉ ws.*1 → write_all ws fs !! q = fs !! q.
Proof.
  revert fs. induction ws as [|[p d] ws IH]; intros fs Hq; [done|].
  rewrite write_all_cons, IH; cbn [fst snd].
  - apply lookup_insert_ne. intros ->. apply Hq. by left.
  - intros H. apply Hq. by right.
Qed.

Lemma write_all_lookup_in (ws : list (path * string)) (fs : gmap path node) (q : path) :
  q ∈ ws.*1 → ∃ data, write_all ws fs !! q = Some (File data).
Proof.
  induction ws as [|[p d] ws IH] using rev_ind; intros Hq.
  { by apply elem_of_nil in Hq. }
  rewrite write_all_app. cbn.
  destruct (decide (p = q)) as [->|Hne].
  - exists d. apply lookup_insert_eq.
  - rewrite lookup_insert_ne by done. apply IH.
    rewrite fmap_app in Hq. apply elem_of_app in Hq as [Hq|Hq]; [done|].
    apply list_elem_of_singleton in Hq. cbn in Hq. congruence.
Qed.

Lemma write_all_not_dir (ws : list (path * string)) (fs : gmap path node) (q : path) :
  fs !! q ≠ Some Dir → write_all ws fs !! q ≠ Some Dir.
Proof.
  intros Hq. destruct (decide (q ∈ ws.*1)) as [Hin|Hout].
  - destruct (write_all_lookup_in ws fs q Hin) as [d ->]. done.
  - by rewrite write_all_lookup_other.
Qed.

Lemma lookup_node_insert_ne (fs : gmap path node) (p q : path) (v : node) :
  p ≠ q → lookup_node (<[p := v]> fs) q = lookup_node fs q.
Proof. intros Hne. destruct q; [done|]. by apply lookup_insert_ne. Qed.

Lemma write_text_entry_ok (dir : path) (name data : string) (fs : gmap path node) :
  lookup_node fs dir = Some Dir → fs !! (dir ++ [name]) ≠ Some Dir →
  write_text (dir ++ [name]) data fs
  = Result (inr ()) (<[dir ++ [name] := File data]> fs) [WriteText (dir ++ [name]) data].
Proof.
  intros Hdir Hp. rewrite write_text_run, parent_snoc, Hdir, lookup_node_snoc.
  by destruct (fs !! (dir ++ [name])) as [[]|].
Qed.

Lemma for_each_write_succeeds (dir : path) (pages : list Page) (fs : gmap path node) :
  slugs_plain pages = true →
  lookup_node fs dir = Some Dir →
  (∀ p, p ∈ pages → fs !! page_path dir p ≠ Some Dir) →
  outcome (for_each pages (λ p, write_text (page_path dir p) (render_page p)) fs) = inr ().
Proof.
  intros Hplain. revert fs. induction pages as [|p pages IH]; intros fs Hdir Hfree; [done|].
  cbn in Hplain. apply andb_true_iff in Hplain as [Hp Hplain].
  rewrite for_each_cons, (page_path_plain dir p Hp).
  rewrite write_text_entry_ok;
    [|done|rewrite <- (page_path_plain dir p Hp); apply Hfree; by left].
  cbn [outcome store]. apply IH; [done|..].
  - rewrite lookup_node_insert_ne; [done|].
    intros H. apply (f_equal length) in H. rewrite length_app in H. cbn in H. lia.
  - intros p' Hp'. destruct (decide (dir ++ [slug p +:+ ".html"] = page_path dir p')) as [<-|Hne].
    + by rewrite lookup_insert_eq.
    + rewrite lookup_insert_ne by done. apply Hfree. by right.
Qed.

Lemma bind_outcome {A B} (m : io A) (f : A → io B) (fs : gmap path node) (a : A) :
  outcome (m fs) = inr a →
  outcome ((m ≫= f) fs) = outcome (f a (store (m fs))).
Proof. intros H. by rewrite bind_run, H. Qed.

Lemma site_writes_paths (tp wp : list Page) (q : path) :
  slugs_plain tp = true → slugs_plain wp = true →
  q ∈ (site_writes tp wp).*1 →
  ∃ name, q = THEORY ++ [name] ∨ q = WIKI ++ [name].
Proof.
  intros Htp Hwp. unfold site_writes.
  rewrite fmap_cons, fmap_app, fmap_cons, elem_of_cons, elem_of_app, elem_of_cons.
  rewrite <- !list_fmap_compose.
  intros [->|[(p & -> & Hp)%list_elem_of_fmap|[->|(p & -> & Hp)%list_elem_of_fmap]]].
  - exists "index.html". by left.
  - exists (slug p +:+ ".html"). left.
    apply (page_path_plain THEORY p), (slugs_plain_elem tp); done.
  - exists "index.html". by right.
  - exists (slug p +:+ ".html"). right.
    apply (page_path_plain WIKI p), (slugs_plain_elem wp); done.
Qed.

Lemma with_directories_entry (fs : gmap path node) (q : path) :
  (3 ≤ length q)%nat → with_directories fs !! q = fs !! q.
Proof.
  intros Hlen. unfold with_directories.
  destruct (mkdir_frame WIKI (store (mkdir THEORY fs)) q) as [->|(_ & _ & H & _)].
  - destruct (mkdir_frame THEORY fs q) as [->|(_ & _ & H & _)]; [done|].
    apply prefix_length in H. cbn in H. lia.
  - apply prefix_length in H. cbn in H. lia.
Qed.

Lemma prepared_directories (fs : gmap path node) :
  outcome (mkdir THEORY fs) = inr () →
  outcome (mkdir WIKI (store (mkdir THEORY fs))) = inr () →
  prepared fs !! THEORY = Some Dir ∧ prepared fs !! WIKI = Some Dir.
Proof.
  intros Ho1 Ho2.
  destruct (mkdir_spec THEORY fs) as (_ & _ & Hd1). specialize (Hd1 Ho1).
  destruct (mkdir_spec WIKI (store (mkdir THEORY fs))) as (_ & Hkeep & Hd2).
  specialize (Hd2 Ho2).
  assert (H1 : with_directories fs !! THEORY = Some Dir) by (by apply Hkeep).
  assert (H2 : with_directories fs !! WIKI = Some Dir) by done.
  unfold prepared. split.
  - destruct (cleanup_frame (with_directories fs) THEORY) as [->|(name & c & Heq & _)]; [done|].
    apply (f_equal length) in Heq. by cbn in Heq.
  - destruct (cleanup_frame (with_directories fs) WIKI) as [->|(name & c & Heq & _)]; [done|].
    apply (f_equal length) in Heq. by cbn in Heq.
Qed.

Lemma insert_file_not_dir (fs : gmap path node) (p q : path) (data : string) :
  fs !! q ≠ Some Dir → <[p := File data]> fs !! q ≠ Some Dir.
Proof.
  intros Hq. destruct (decide (p = q)) as [->|Hne].
  - by rewrite lookup_insert_eq.
  - by rewrite lookup_insert_ne.
Qed.

Lemma write_pages_not_dir (dir : path) (pages : list Page) (fs : gmap path node) (q : path) :
  fs !! q ≠ Some Dir → write_pages dir pages fs !! q ≠ Some Dir.
Proof. rewrite write_pages_write_all. apply write_all_not_dir. Qed.

Lemma site_writes_elem (tp wp : list Page) (q : path) :
  q ∈ (site_writes tp wp).*1 ↔
  q = THEORY </> "index.html" ∨ (∃ p, p ∈ tp ∧ q = page_path THEORY p)
  ∨ q = WIKI </> "index.html" ∨ (∃ p, p ∈ wp ∧ q = page_path WIKI p).
Proof.
  unfold site_writes.
  rewrite fmap_cons, fmap_app, fmap_cons, elem_of_cons, elem_of_app, elem_of_cons.
  rewrite <- !list_fmap_compose, !list_elem_of_fmap. cbn [fst].
  split.
  - intros [->|[(p & -> & Hp)|[->|(p & -> & Hp)]]]; eauto 6.
  - intros [->|[(p & Hp & ->)|[->|(p & Hp & ->)]]]; eauto 6.
Qed.

(** The four write steps end normally on a store where the two output
    directories exist and no path to be written is a directory. *)
Lemma writes_succeed (ti wi : string) (tp wp : list Page) (fs3 : gmap path node) :
  slugs_plain tp = true → slugs_plain wp = true →
  fs3 !! THEORY = Some Dir → fs3 !! WIKI = Some Dir →
  (∀ q, q = THEORY </> "index.html" ∨ (∃ p, p ∈ tp ∧ q = page_path THEORY p)
        ∨ q = WIKI </> "index.html" ∨ (∃ p, p ∈ wp ∧ q = page_path WIKI p) →
        fs3 !! q ≠ Some Dir) →
  outcome
    ((write_text (THEORY </> "index.html") ti ;;
      for_each tp (λ p, write_text (page_path THEORY p) (render_page p)) ;;
      write_text (WIKI </> "index.html") wi ;;
      for_each wp (λ p, write_text (page_path WIKI p) (render_page p))) fs3)
  = inr ().
Proof.
  intros Htp Hwp Hdt Hdw Hfree.
  change (THEORY </> "index.html") with (THEORY ++ ["index.html"]) in *.
  change (WIKI </> "index.html") with (WIKI ++ ["index.html"]) in *.
  rewrite bind_run, (write_text_entry_ok THEORY "index.html" ti fs3); [|done|auto].
  cbn [outcome store].
  set (fs4 := <[THEORY ++ ["index.html"] := File ti]> fs3).
  assert (Ho5 : outcome (for_each tp (λ p, write_text (page_path THEORY p) (render_page p)) fs4)
                = inr ()).
  { apply for_each_write_succeeds; [done|..].
    - unfold fs4. by rewrite lookup_node_insert_ne.
    - intros p Hp. apply insert_file_not_dir, Hfree. eauto 6. }
  rewrite (bind_outcome _ _ _ () Ho5).
  destruct (for_each_write_ok THEORY tp fs4 Ho5) as [-> _].
  set (fs5 := write_pages THEORY tp fs4).
  assert (Hdw5 : lookup_node fs5 WIKI = Some Dir).
  { unfold fs5. change (lookup_node ?m WIKI) with (m !! WIKI).
    rewrite write_pages_lookup_other by (intros p _; by intros [=]).
    unfold fs4. by rewrite lookup_insert_ne. }
  rewrite bind_run, (write_text_entry_ok WIKI "index.html" wi fs5); [|done|].
  2:{ apply write_pages_not_dir, insert_file_not_dir, Hfree. auto. }
  cbn [outcome store].
  apply for_each_write_succeeds; [done|..].
  - by rewrite lookup_node_insert_ne.
  - intros p Hp. apply insert_file_not_dir, write_pages_not_dir, insert_file_not_dir, Hfree.
    eauto 6.
Qed.

(** The build ends normally when its steps before the writes do and no
    path it writes is a directory. *)
Lemma main_with_succeeds (tp wp : list Page) (fs : gmap path node) :
  slugs_plain tp = true → slugs_plain wp = true →
  is_Some (fs !! (ASSETS </> "site.css")) →
  outcome (mkdir THEORY fs) = inr () →
  outcome (mkdir WIKI (store (mkdir THEORY fs))) = inr () →
  outcome (remove_legacy_theory_pages (with_directories fs)) = inr () →
  (∀ q, q ∈ (site_writes tp wp).*1 → prepared fs !! q ≠ Some Dir) →
  outcome (main_with tp wp fs) = inr ().
Proof.
  intros Htp Hwp [v Hcss] Ho1 Ho2 Ho3 Hfree.
  destruct (prepared_directories fs Ho1 Ho2) as [Hdt Hdw].
  rewrite main_with_run, Hcss. cbv zeta. cbn [outcome].
  rewrite (bind_outcome _ _ _ () Ho1), (bind_outcome _ _ _ () Ho2),
    (bind_outcome _ _ _ () Ho3).
  apply (writes_succeed (theory_index tp) (wiki_index wp) tp wp (prepared fs));
    [exact Htp|exact Hwp|exact Hdt|exact Hdw|].
  intros q Hq. apply Hfree, site_writes_elem. exact Hq.
Qed.

Lemma build_ready_succeeds (tp wp : list Page) (fs : gmap path node) :
  slugs_plain tp = true → slugs_plain wp = true →
  build_ready tp wp fs = true →
  outcome (main_with tp wp fs) = inr ().
Proof.
  intros Htp Hwp. unfold build_ready. rewrite !andb_true_iff.
  intros ((((((Hcss%bool_decide_eq_true_1 & Hdirs) & Hstale) & Hti) & Hwi) & Htpd) & Hwpd).
  cbn [forallb] in Hdirs. rewrite !andb_true_iff in Hdirs.
  destruct Hdirs as (Hdocs & Htheory & Hwiki & _).
  assert (Hfree : ∀ q, dir_or_absent fs q = true → fs !! q = None ∨ fs !! q = Some Dir).
  { intros q. unfold dir_or_absent. destruct (fs !! q) as [[]|]; auto. discriminate. }
  assert (Ho1 : outcome (mkdir THEORY fs) = inr ()).
  { apply mkdir_ok. intros q Hq Hne.
    destruct (prefix_of_theory q Hq Hne) as [->| ->]; by apply Hfree. }
  assert (Ho2 : outcome (mkdir WIKI (store (mkdir THEORY fs))) = inr ()).
  { apply mkdir_ok. intros q Hq Hne.
    destruct (mkdir_frame THEORY fs q) as [->|(_ & -> & _)]; [|by right].
    destruct (prefix_of_wiki q Hq Hne) as [->| ->]; by apply Hfree. }
  assert (Hentry : ∀ (dir : path) name, length dir = 2%nat →
            with_directories fs !! (dir ++ [name]) = fs !! (dir ++ [name])).
  { intros dir name Hlen. apply with_directories_entry. rewrite length_app, Hlen. cbn. lia. }
  assert (Ho3 : outcome (remove_legacy_theory_pages (with_directories fs)) = inr ()).
  { apply cleanup_ok. intros name Hm. rewrite (Hentry THEORY) by done.
    by apply (proj1 (stale_are_files_iff fs)). }
  apply main_with_succeeds; try done.
  intros q Hq.
  destruct (site_writes_paths tp wp q Htp Hwp Hq) as [name Hname].
  assert (Hfs : fs !! q ≠ Some Dir).
  { apply site_writes_elem in Hq as [->|[(p & Hp & ->)|[->|(p & Hp & ->)]]].
    - unfold not_dir in Hti. by destruct (fs !! (THEORY </> "index.html")) as [[]|].
    - rewrite forallb_forall in Htpd. apply list_elem_of_In, Htpd in Hp.
      unfold not_dir in Hp. by destruct (fs !! page_path THEORY p) as [[]|].
    - unfold not_dir in Hwi. by destruct (fs !! (WIKI </> "index.html")) as [[]|].
    - rewrite forallb_forall in Hwpd. apply list_elem_of_In, Hwpd in Hp.
      unfold not_dir in Hp. by destruct (fs !! page_path WIKI p) as [[]|]. }
  unfold prepared.
  destruct (cleanup_frame (with_directories fs) q) as [->|(_ & _ & _ & _ & _ & ->)]; [|done].
  destruct Hname as [-> | ->]; by rewrite Hentry.
Qed.

(** ** Building twice *)

Lemma main_with_store_writes (tp wp : list Page) (fs : gmap path node) :
  outcome (main_with tp wp fs) = inr () →
  store (main_with tp wp fs) = write_all (site_writes tp wp) (prepared fs).
Proof.
  intros Ho. rewrite (main_with_store tp wp fs Ho), (main_with_written tp wp fs Ho).
  reflexivity.
Qed.

Lemma css_not_output : ¬ output_path (ASSETS </> "site.css").
Proof.
  intros [H|[H|[H|[[name H]|[name H]]]]]; discriminate H.
Qed.

Lemma output_dirs_not_written (tp wp : list Page) :
  slugs_plain tp = true → slugs_plain wp = true →
  (THEORY ∉ (site_writes tp wp).*1) ∧ (WIKI ∉ (site_writes tp wp).*1).
Proof.
  intros Htp Hwp.
  split; intros H; destruct (site_writes_paths tp wp _ Htp Hwp H) as [name [Heq|Heq]];
    discriminate Heq.
Qed.

Lemma main_with_twice (tp wp : list Page) (fs : gmap path node) :
  slugs_plain tp = true → slugs_plain wp = true →
  outcome (main_with tp wp fs) = inr () →
  outcome (main_with tp wp (store (main_with tp wp fs))) = inr ()
  ∧ store (main_with tp wp (store (main_with tp wp fs))) = store (main_with tp wp fs).
Proof.
  intros Htp Hwp Ho.
  destruct (main_with_ok tp wp fs Ho) as (Hcss & Ho1 & Ho2 & Ho3 & _ & _).
  pose proof (main_with_store_writes tp wp fs Ho) as Hstore.
  destruct (prepared_directories fs Ho1 Ho2) as [Hdt Hdw].
  destruct (output_dirs_not_written tp wp Htp Hwp) as [Hnt Hnw].
  set (ws := site_writes tp wp) in *.
  set (fs' := store (main_with tp wp fs)) in *.
  assert (Hcss' : is_Some (fs' !! (ASSETS </> "site.css"))).
  { destruct (main_with_confined tp wp Htp Hwp fs (ASSETS </> "site.css")) as [H|H].
    - unfold fs'. by rewrite H.
    - by apply css_not_output in H. }
  assert (Hdt' : fs' !! THEORY = Some Dir).
  { rewrite Hstore, write_all_lookup_other; done. }
  assert (Hdw' : fs' !! WIKI = Some Dir).
  { rewrite Hstore, write_all_lookup_other; done. }
  assert (Hwd : with_directories fs' = fs').
  { unfold with_directories. rewrite (mkdir_existing THEORY fs') by done.
    cbn [store]. by rewrite (mkdir_existing WIKI fs'). }
  assert (Hgone : ∀ name, fnmatch "ds*.html" name = true →
            prepared fs !! (THEORY ++ [name]) = None).
  { apply cleanup_ok_inv; [|done]. by apply with_directories_theory. }
  assert (Hstale : ∀ name, fnmatch "ds*.html" name = true →
            fs' !! (THEORY ++ [name]) ≠ Some Dir).
  { intros name Hm. rewrite Hstore. apply write_all_not_dir. by rewrite Hgone. }
  assert (Hprep : ∀ q, prepared fs' !! q = fs' !! q
            ∨ ((q ∉ ws.*1 → False) ∧ prepared fs' !! q = None)).
  { intros q. unfold prepared. rewrite Hwd.
    destruct (cleanup_frame fs' q) as [H|(name & c & -> & Hm & Hc & Hn)]; [by left|].
    right. split; [|done]. intros Hout.
    rewrite Hstore, write_all_lookup_other, Hgone in Hc; done. }
  assert (Ho' : outcome (main_with tp wp fs') = inr ()).
  { apply main_with_succeeds; try done.
    - by rewrite (mkdir_existing THEORY fs').
    - rewrite (mkdir_existing THEORY fs') by done. cbn [store].
      by rewrite (mkdir_existing WIKI fs').
    - rewrite Hwd. by apply cleanup_ok.
    - intros q Hq. destruct (Hprep q) as [->|[_ ->]]; [|done].
      rewrite Hstore. destruct (write_all_lookup_in ws (prepared fs) q Hq) as [d ->]. done. }
  split; [done|].
  rewrite (main_with_store_writes tp wp fs' Ho'). fold ws.
  apply map_eq. intros q. destruct (decide (q ∈ ws.*1)) as [Hin|Hout].
  - rewrite Hstore. by apply write_all_lookup_base.
  - rewrite write_all_lookup_other by done.
    destruct (Hprep q) as [->|[Hf _]]; [done|]. by destruct (Hf Hout).
Qed.

(** * Further properties of the build *)

(** X1. Whatever its outcome, a build of registries with slash-free slugs
    changes the store only at the [docs] directory, at the two output
    directories and at entries directly inside them; in particular what
    is at the stylesheet path stays as it was. *)
Theorem build_confined_to_output (tp wp : list Page) (fs : gmap path node) :
  slugs_plain tp = true → slugs_plain wp = true →
  (∀ q, store (main_with tp wp fs) !! q ≠ fs !! q → output_path q)
  ∧ store (main_with tp wp fs) !! (ASSETS </> "site.css")
    = fs !! (ASSETS </> "site.css").
Proof.
  intros Htp Hwp. split.
  - intros q Hq. by destruct (main_with_confined tp wp Htp Hwp fs q).
  - destruct (main_with_confined tp wp Htp Hwp fs (ASSETS </> "site.css")) as [H|H];
      [done|]. by apply css_not_output in H.
Qed.

Lemma build_confined_to_output_witness :
  (∀ q, store (main_with build_theory_pages build_wiki_pages used_store) !! q
        ≠ used_store !! q → output_path q)
  ∧ store (main_with build_theory_pages build_wiki_pages used_store)
      !! (ASSETS </> "site.css")
    = used_store !! (ASSETS </> "site.css").
Proof.
  apply (build_confined_to_output build_theory_pages build_wiki_pages used_store);
    vm_compute; reflexivity.
Defined.

(** X2. When the stylesheet is there and the theory path is a regular
    file, the build raises [FileExistsError] on it having changed nothing
    and written nothing; when the wiki path is a regular file and the
    theory directory could be prepared, the build raises on the wiki path,
    nothing is deleted or written, and what the preparation of the theory
    directory created stays. *)
Theorem build_stops_at_file_in_place_of_directory
    (tp wp : list Page) (fs : gmap path node) (content : string) :
  is_Some (fs !! (ASSETS </> "site.css")) →
  (fs !! THEORY = Some (File content) →
   main_with tp wp fs
   = Result (inl (FileExistsError THEORY)) fs
       [Exists (ASSETS </> "site.css"); Mkdir THEORY])
  ∧ (fs !! WIKI = Some (File content) → outcome (mkdir THEORY fs) = inr () →
     main_with tp wp fs
     = Result (inl (FileExistsError WIKI)) (store (mkdir THEORY fs))
         [Exists (ASSETS </> "site.css"); Mkdir THEORY; Mkdir WIKI]).
Proof.
  intros [v Hcss]. split.
  - intros Hfile. rewrite main_with_run, Hcss. cbv zeta.
    rewrite bind_run, (mkdir_on_file THEORY content fs Hfile). reflexivity.
  - intros Hfile Ho1. rewrite main_with_run, Hcss. cbv zeta.
    destruct (mkdir_spec THEORY fs) as (Ht1 & Hkeep & _).
    rewrite bind_run, Ho1, bind_run.
    rewrite (mkdir_on_file WIKI content (store (mkdir THEORY fs)) (Hkeep _ _ Hfile)).
    cbn [outcome store trace]. by rewrite Ht1.
Qed.

Lemma build_stops_at_file_in_place_of_directory_witness :
  main_with build_theory_pages build_wiki_pages blocked_store
  = Result (inl (FileExistsError WIKI)) (store (mkdir THEORY blocked_store))
      [Exists (ASSETS </> "site.css"); Mkdir THEORY; Mkdir WIKI].
Proof.
  apply (build_stops_at_file_in_place_of_directory build_theory_pages build_wiki_pages
           blocked_store "not a directory").
  - by eexists.
  - reflexivity.
  - vm_compute. reflexivity.
Defined.

(** X3. On a store that grants every operation, a build of registries
    with slash-free slugs whose page file names the operating system
    accepts ends normally wherever something is at the stylesheet path
    (a directory will do), neither [docs] nor an output directory is a
    regular file, no entry selected by the cleanup is a directory and no
    path to be written is a directory. *)
Theorem build_succeeds_when_ready (tp wp : list Page) (fs : gmap path node) :
  slugs_plain tp = true → slugs_plain wp = true →
  names_fit tp = true → names_fit wp = true →
  build_ready tp wp fs = true →
  outcome (main_with tp wp fs) = inr ().
Proof. intros Htp Hwp _ _. by apply build_ready_succeeds. Qed.

Lemma build_succeeds_when_ready_witness :
  outcome (main_with build_theory_pages build_wiki_pages used_store) = inr ().
Proof.
  apply (build_succeeds_when_ready build_theory_pages build_wiki_pages used_store);
    vm_compute; reflexivity.
Defined.

(** X4. Building again from the store a build left: for registries with
    slash-free slugs, when a build ends normally, the build from the store
    it left ends normally too and leaves that same store. *)
Theorem build_idempotent (tp wp : list Page) (fs : gmap path node) :
  slugs_plain tp = true → slugs_plain wp = true →
  outcome (main_with tp wp fs) = inr () →
  outcome (main_with tp wp (store (main_with tp wp fs))) = inr ()
  ∧ store (main_with tp wp (store (main_with tp wp fs))) = store (main_with tp wp fs).
Proof. apply main_with_twice. Qed.

Lemma build_idempotent_witness :
  outcome (main_with build_theory_pages build_wiki_pages
             (store (main_with build_theory_pages build_wiki_pages used_store)))
  = inr ()
  ∧ store (main_with build_theory_pages build_wiki_pages
             (store (main_with build_theory_pages build_wiki_pages used_store)))
    = store (main_with build_theory_pages build_wiki_pages used_store).
Proof.
  apply (build_idempotent build_theory_pages build_wiki_pages used_store);
    vm_compute; reflexivity.
Defined.

(** X5. The cleanup run again on the store a cleanup left ends normally,
    changes nothing and deletes nothing. *)
Theorem cleanup_idempotent (fs : gmap path node) :
  outcome (remove_legacy_theory_pages fs) = inr () →
  outcome (remove_legacy_theory_pages (store (remove_legacy_theory_pages fs))) = inr ()
  ∧ store (remove_legacy_theory_pages (store (remove_legacy_theory_pages fs)))
    = store (remove_legacy_theory_pages fs)
  ∧ Forall (λ e, mutating e = false)
      (trace (remove_legacy_theory_pages (store (remove_legacy_theory_pages fs)))).
Proof. apply cleanup_twice. Qed.

Lemma cleanup_idempotent_witness :
  outcome (remove_legacy_theory_pages (store (remove_legacy_theory_pages legacy_store)))
  = inr ()
  ∧ store (remove_legacy_theory_pages (store (remove_legacy_theory_pages legacy_store)))
    = store (remove_legacy_theory_pages legacy_store)
  ∧ Forall (λ e, mutating e = false)
      (trace (remove_legacy_theory_pages (store (remove_legacy_theory_pages legacy_store)))).
Proof.
  apply (cleanup_idempotent legacy_store). vm_compute. reflexivity.
Defined.

(** X6. When the theory directory exists and an entry selected by the
    cleanup is a directory, the cleanup raises [IsADirectoryError] on such
    an entry; whatever it deleted before stays deleted and nothing else
    changes. *)
Theorem cleanup_raises_on_directory (fs : gmap path node) :
  is_Some (fs !! THEORY) → stale_are_files fs = false →
  (∃ name, fnmatch "ds*.html" name = true
           ∧ fs !! (THEORY ++ [name]) = Some Dir
           ∧ outcome (remove_legacy_theory_pages fs)
             = inl (IsADirectoryError (THEORY ++ [name])))
  ∧ ∀ q, store (remove_legacy_theory_pages fs) !! q = fs !! q
         ∨ ∃ name content,
             q = THEORY ++ [name] ∧ fnmatch "ds*.html" name = true
             ∧ fs !! q = Some (File content)
             ∧ store (remove_legacy_theory_pages fs) !! q = None.
Proof.
  intros Ht Hfiles. split; [by apply cleanup_raises|]. apply cleanup_frame.
Qed.

Lemma cleanup_raises_on_directory_witness :
  ∃ name, fnmatch "ds*.html" name = true
          ∧ stale_dir_store !! (THEORY ++ [name]) = Some Dir
          ∧ outcome (remove_legacy_theory_pages stale_dir_store)
            = inl (IsADirectoryError (THEORY ++ [name])).
Proof.
  apply (cleanup_raises_on_directory stale_dir_store).
  - by eexists.
  - vm_compute. reflexivity.
Defined.

(** * Further properties of the diagram primitives *)

Lemma svg_note_text (x y w h : Z) (text : string) :
  svg_note x y w h text
  = txt "<rect x=`" +:+ str_int x +:+ String dquote
      (txt " y=`" +:+ str_int y +:+ String dquote
      (txt " rx=`16` ry=`16` width=`" +:+ str_int w +:+ String dquote
      (txt " height=`" +:+ str_int h +:+ String dquote
      (txt " fill=`none` stroke=`#7fb3e6` stroke-width=`2`/>" +:+ nl
       +:+ txt "<text x=`" +:+ str_int (x + 16) +:+ String dquote
      (txt " y=`" +:+ str_int (y + 22) +:+ String dquote
      (txt " text-anchor=`start` font-size=`12` fill=`#2f4a63` font-family=`Space Grotesk`>"
       +:+ text +:+ "</text>")))))).
Proof. reflexivity. Qed.

(** X7. A note fragment reads back as the rectangle it was asked for and
    the given text, anchored 16 units right of and 22 units below the
    corner, whatever the text. *)
Theorem note_reads_back (x y w h : Z) (text : string) :
  note_shape (svg_note x y w h text) = Some (x, y, w, h, (x + 16, y + 22), text).
Proof.
  rewrite svg_note_text. unfold note_shape. read_fragment.
  rewrite strip_suffix_app. reflexivity.
Qed.

Lemma svg_wrap_text (viewbox label body : string) :
  svg_wrap viewbox label body
  = txt "<svg viewBox=`" +:+ viewbox +:+ String dquote
      (txt " role=`img` aria-label=`" +:+ label +:+ String dquote
      (svg_defs +:+ body +:+ (nl +:+ "</svg>"))).
Proof. reflexivity. Qed.

Lemma wrap_shape_svg_wrap (viewbox label body : string) :
  no_char dquote viewbox = true → no_char dquote label = true →
  wrap_shape (svg_wrap viewbox label body) = Some (viewbox, label, body).
Proof.
  intros Hv Hl. rewrite svg_wrap_text. unfold wrap_shape.
  rewrite strip_string_app. cbn [mbind option_bind].
  rewrite (until_app dquote viewbox) by done. cbn [mbind option_bind].
  rewrite strip_string_app. cbn [mbind option_bind].
  rewrite (until_app dquote label) by done. cbn [mbind option_bind].
  rewrite strip_string_app. cbn [mbind option_bind].
  rewrite strip_suffix_app. reflexivity.
Qed.

(** X8. A frame reads back as its view box, its label and its body: the
    body is embedded as it is, whatever it holds, and the view box and the
    label are recovered when they hold no double quote. *)
Theorem frame_reads_back (viewbox label body : string) :
  no_char dquote viewbox = true → no_char dquote label = true →
  wrap_shape (svg_wrap viewbox label body) = Some (viewbox, label, body).
Proof. apply wrap_shape_svg_wrap. Qed.

Lemma frame_reads_back_witness :
  wrap_shape (svg_wrap "0 0 900 320" "System vision diagram"
                (svg_arrow 310 105 330 105 svg_arrow_color))
  = Some ("0 0 900 320", "System vision diagram",
          svg_arrow 310 105 330 105 svg_arrow_color).
Proof.
  apply (frame_reads_back "0 0 900 320" "System vision diagram"); reflexivity.
Defined.

(** ** The label of a chip *)

Lemma str_int_neg (p : positive) :
  str_int (Z.neg p) = String "-" (str_int (Z.pos p)).
Proof. reflexivity. Qed.

Lemma str_int_head (k : Z) :
  0 ≤ k → ∃ c r, str_int k = String c r ∧ Ascii.eqb c "-" = false.
Proof.
  intros Hk.
  assert (Hd : ∀ d, ∃ c r, NilZero.string_of_uint d = String c r
                           ∧ Ascii.eqb c "-" = false).
  { intros d. destruct d; cbn; eexists _, _; split; reflexivity. }
  destruct k as [|p|p]; [| |lia]; apply Hd.
Qed.

Lemma parse_halves_digits (k : Z) (decimal : string) (twice : Z) :
  0 ≤ k →
  (if String.eqb decimal "0" then Some (2 * k)
   else if String.eqb decimal "5" then Some (2 * k + 1) else None) = Some twice →
  parse_halves (str_int k +:+ String "." decimal) = Some twice
  ∧ parse_halves (String "-" (str_int k +:+ String "." decimal)) = Some (- twice).
Proof.
  intros Hk Hd.
  assert (Hu : until "." (str_int k +:+ String "." decimal)
               = Some (str_int k, decimal))
    by (apply until_app, no_char_str_int; reflexivity).
  split.
  - destruct (str_int_head k Hk) as (c & r & Hs & Hc).
    unfold parse_halves. rewrite Hs in *. cbn [String.append]. rewrite Hc.
    cbn [String.append] in Hu. rewrite Hu. cbn [mbind option_bind].
    rewrite <- Hs, parse_int_str_int. cbn [mbind option_bind].
    rewrite Hd. reflexivity.
  - unfold parse_halves. rewrite Ascii.eqb_refl, Hu. cbn [mbind option_bind].
    rewrite parse_int_str_int. cbn [mbind option_bind].
    rewrite Hd. reflexivity.
Qed.

(** Python's [repr] of a multiple of one half reads back as that number. *)
Lemma parse_halves_repr (a : halves) : parse_halves (repr_halves a) = Some a.
Proof.
  unfold repr_halves. destruct (Z.even a) eqn:He.
  - apply Z.even_spec in He as [k ->].
    rewrite (Z.mul_comm 2 k), Z.div_mul by lia.
    destruct k as [|p|p].
    + reflexivity.
    + destruct (parse_halves_digits (Z.pos p) "0" (2 * Z.pos p)) as [H _];
        [lia|reflexivity|].
      rewrite H. f_equal. lia.
    + rewrite str_int_neg.
      destruct (parse_halves_digits (Z.pos p) "0" (2 * Z.pos p)) as [_ H];
        [lia|reflexivity|].
      cbn [String.append]. rewrite H. f_equal. lia.
  - assert (Z.odd a = true) as [k ->]%Z.odd_spec
      by (rewrite <- Z.negb_even, He; reflexivity).
    destruct (Z.ltb_spec (2 * k + 1) 0) as [Hn|Hn].
    + assert (Z.abs (2 * k + 1) / 2 = - k - 1) as ->.
      { rewrite Z.abs_neq by lia.
        replace (- (2 * k + 1)) with (1 + (- k - 1) * 2) by lia.
        rewrite Z.div_add by lia. reflexivity. }
      destruct (parse_halves_digits (- k - 1) "5" (2 * (- k - 1) + 1)) as [_ H];
        [lia|reflexivity|].
      cbn [String.append]. rewrite H. f_equal. lia.
    + assert (Z.abs (2 * k + 1) / 2 = k) as ->.
      { rewrite Z.abs_eq by lia.
        replace (2 * k + 1) with (1 + k * 2) by lia.
        rewrite Z.div_add by lia. reflexivity. }
      destruct (parse_halves_digits k "5" (2 * k + 1)) as [H _];
        [lia|reflexivity|].
      cbn [String.append]. rewrite H. reflexivity.
Qed.

Lemma no_char_repr_halves (a : halves) : no_char dquote (repr_halves a) = true.
Proof.
  unfold repr_halves.
  destruct (Z.even a), (a <? 0); rewrite ?no_char_app, ?andb_true_iff;
    repeat split; try reflexivity; by apply no_char_str_int.
Qed.

Lemma read_halves_app (a : halves) (rest : string) :
  read_halves dquote (repr_halves a +:+ String dquote rest) = Some (a, rest).
Proof.
  unfold read_halves. rewrite until_app by apply no_char_repr_halves.
  cbn [mbind option_bind]. rewrite parse_halves_repr. reflexivity.
Qed.

Lemma svg_chip_text (x y w h : Z) (text : string) :
  svg_chip x y w h text
  = txt "<rect x=`" +:+ str_int x +:+ String dquote
      (txt " y=`" +:+ str_int y +:+ String dquote
      (txt " rx=`18` ry=`18` width=`" +:+ str_int w +:+ String dquote
      (txt " height=`" +:+ str_int h +:+ String dquote
      (txt " fill=`url(#sky)` stroke=`#7fb3e6` stroke-width=`2`/>" +:+ nl
       +:+ txt "<text x=`" +:+ repr_halves (2 * x + w) +:+ String dquote
      (txt " y=`" +:+ repr_halves (2 * y + h + 2 * 4) +:+ String dquote
      (txt " text-anchor=`middle` font-size=`13` fill=`#0b1a2b` font-family=`Space Grotesk`>"
       +:+ text +:+ "</text>")))))).
Proof. reflexivity. Qed.

Lemma chip_shape_svg_chip (x y w h : Z) (text : string) :
  chip_shape (svg_chip x y w h text)
  = Some (x, y, w, h, (2 * x + w, 2 * y + h + 8), text).
Proof.
  rewrite svg_chip_text. unfold chip_shape. read_fragment.
  rewrite read_halves_app. read_fragment.
  rewrite read_halves_app. read_fragment.
  rewrite strip_suffix_app. reflexivity.
Qed.

(** X9. A chip reads back as the rectangle it was asked for and the given
    text, whose anchor is printed with one decimal at the centre of the
    rectangle lowered by 4 units: twice its abscissa is [2 x + w] and twice
    its ordinate [2 y + h + 8], also for odd sizes and negative
    coordinates.  The sizes are bounded to the range where the floats of
    the code are exact and printed positionally. *)
Theorem chip_label_centred (x y w h : Z) (text : string) :
  Z.abs x ≤ 10 ^ 15 → Z.abs y ≤ 10 ^ 15 →
  Z.abs w ≤ 10 ^ 15 → Z.abs h ≤ 10 ^ 15 →
  chip_shape (svg_chip x y w h text)
  = Some (x, y, w, h, (2 * x + w, 2 * y + h + 8), text).
Proof. intros _ _ _ _. apply chip_shape_svg_chip. Qed.

Lemma chip_label_centred_witness :
  chip_shape (svg_chip 110 245 325 65 "Deterministic expansion")
  = Some (110, 245, 325, 65, (545, 563), "Deterministic expansion").
Proof.
  apply (chip_label_centred 110 245 325 65 "Deterministic expansion");
    vm_compute; discriminate.
Defined.

(** ** The last line of a legend *)

Lemma last_imap {A B} (f : nat → A → B) (l : list A) :
  last (imap f l) = f (pred (length l)) <$> last l.
Proof.
  rewrite !last_lookup, length_imap, list_lookup_imap. reflexivity.
Qed.

(** X10. In a legend of at least one line the text of the last line is
    anchored 2 units below the bottom edge of the box: the box of [n] lines
    ends at [y + 24 + 18 n] and the last baseline is at [y + 26 + 18 n]. *)
Theorem legend_last_line_below_box (x y : Z) (lines : list string) (line : string) :
  last lines = Some line →
  ∃ box part h yb,
    head (svg_legend_parts x y lines) = Some box
    ∧ last (svg_legend_parts x y lines) = Some part
    ∧ box_shape box = Some (x, y, 360, h)
    ∧ text_position part = Some (x + 16, yb)
    ∧ h = 24 + 18 * Z.of_nat (length lines)
    ∧ yb = y + h + 2.
Proof.
  intros Hl. rewrite svg_legend_parts_eq.
  assert (Hm : ∃ m, length lines = S m ∧ lines !! m = Some line).
  { rewrite last_lookup in Hl. destruct lines as [|l0 ls]; [discriminate|].
    by exists (length ls). }
  destruct Hm as (m & Hlen & Hm).
  exists (legend_box x y (24 + 18 * Z.of_nat (length lines))),
         (legend_text (x + 16) (y + 44 + 18 * Z.of_nat m) line),
         (24 + 18 * Z.of_nat (length lines)),
         (y + 44 + 18 * Z.of_nat m).
  split; [reflexivity|].
  split; [|split; [apply box_shape_legend_box|
           split; [apply text_position_legend_text|split; [reflexivity|]]]].
  - rewrite last_lookup. cbn [length]. rewrite length_imap, Hlen.
    cbn [pred].
    change ((?a :: ?b :: ?l) !! S (S ?m)) with (l !! m).
    rewrite list_lookup_imap, Hm. reflexivity.
  - rewrite Hlen. lia.
Qed.

Lemma legend_last_line_below_box_witness :
  ∃ box part h yb,
    head (svg_legend_parts 70 255 ["first"; "second"]) = Some box
    ∧ last (svg_legend_parts 70 255 ["first"; "second"]) = Some part
    ∧ box_shape box = Some (70, 255, 360, h)
    ∧ text_position part = Some (70 + 16, yb)
    ∧ h = 24 + 18 * Z.of_nat (length ["first"; "second"])
    ∧ yb = 255 + h + 2.
Proof.
  apply (legend_last_line_below_box 70 255 ["first"; "second"] "second").
  reflexivity.
Defined.

(** * A build stopped at a write *)











(** * The shell of a document *)

Lemma html_page_text (title content prefix : string) :
  html_page title content prefix
  = shell_open +:+ (title +:+ " | VSAVM") +:+ String "<"
      (shell_fonts +:+ (prefix +:+ "assets/site.css") +:+ String dquote
      (shell_header +:+ (prefix +:+ "index.html") +:+ String dquote
      (shell_next "Home" +:+ (prefix +:+ "specs.html") +:+ String dquote
      (shell_next "Specs" +:+ (prefix +:+ "theory/index.html") +:+ String dquote
      (shell_next "Theory" +:+ (prefix +:+ "wiki/index.html") +:+ String dquote
      (shell_main +:+ content +:+ html_foot)))))).
Proof. unfold html_page. rewrite !append_assoc. reflexivity. Qed.

Lemma shell_shape_html_page (title content prefix : string) :
  no_char "<" title = true → no_char dquote prefix = true →
  shell_shape (html_page title content prefix)
  = Some (title,
          [prefix +:+ "assets/site.css"; prefix +:+ "index.html";
           prefix +:+ "specs.html"; prefix +:+ "theory/index.html";
           prefix +:+ "wiki/index.html"],
          content).
Proof.
  intros Ht Hp. rewrite html_page_text. unfold shell_shape.
  assert (Hl : ∀ lit, no_char dquote lit = true →
                 no_char dquote (prefix +:+ lit) = true).
  { intros lit Hlit. by rewrite no_char_app, Hp, Hlit. }
  rewrite strip_string_app. cbn [mbind option_bind].
  rewrite (until_app "<" (title +:+ " | VSAVM"))
    by (rewrite no_char_app, Ht; reflexivity).
  cbn [mbind option_bind]. rewrite strip_suffix_app. cbn [mbind option_bind].
  repeat (rewrite strip_string_app; cbn [mbind option_bind];
          rewrite (until_app dquote (prefix +:+ _)) by (apply Hl; reflexivity);
          cbn [mbind option_bind]).
  rewrite strip_string_app. cbn [mbind option_bind].
  rewrite strip_suffix_app. reflexivity.
Qed.

(** X12. The shell of a document reads back as the title, the content
    block and five links that all start with the prefix: the stylesheet
    and the home, specs, theory-index and wiki-index documents, in this
    order.  The title must hold no [<] and the prefix no double quote; the
    content block is embedded as it is, whatever it holds. *)
Theorem shell_reads_back (title content prefix : string) :
  no_char "<" title = true → no_char dquote prefix = true →
  shell_shape (html_page title content prefix)
  = Some (title,
          map (String.append prefix)
            ["assets/site.css"; "index.html"; "specs.html";
             "theory/index.html"; "wiki/index.html"],
          content).
Proof. apply shell_shape_html_page. Qed.

Lemma shell_reads_back_witness :
  shell_shape (html_page "Theory" (txt "<a href=`x.html`>x</a>") "../")
  = Some ("Theory",
          map (String.append "../")
            ["assets/site.css"; "index.html"; "specs.html";
             "theory/index.html"; "wiki/index.html"],
          txt "<a href=`x.html`>x</a>").
Proof.
  apply (shell_reads_back "Theory" (txt "<a href=`x.html`>x</a>") "../"); reflexivity.
Defined.

(** * Navigation of the generated pages *)

Lemma registry_titles_plain (p : Page) :
  p ∈ build_theory_pages ++ build_wiki_pages → no_char "<" (title p) = true.
Proof.
  assert (H : forallb (λ p, no_char "<" (title p))
                (build_theory_pages ++ build_wiki_pages) = true)
    by (vm_compute; reflexivity).
  rewrite forallb_forall in H. intros Hp%list_elem_of_In. by apply H.
Qed.

Lemma registry_page_shell (p : Page) :
  p ∈ build_theory_pages ++ build_wiki_pages →
  ∃ body,
    shell_shape (render_page p)
    = Some (title p,
            ["../assets/site.css"; "../index.html"; "../specs.html";
             "../theory/index.html"; "../wiki/index.html"],
            body).
Proof.
  intros Hp. destruct registry_kinds as [Ht Hw].
  assert (Hk : page_prefix (kind p) = "../").
  { apply elem_of_app in Hp as [Hp|Hp].
    - rewrite Forall_forall in Ht. by rewrite (Ht p Hp).
    - rewrite Forall_forall in Hw. by rewrite (Hw p Hp). }
  rewrite render_page_unfold, Hk. eexists.
  apply shell_shape_html_page; [by apply registry_titles_plain|reflexivity].
Qed.

Lemma not_output_unchanged (tp wp : list Page) (fs : gmap path node) (q : path) :
  slugs_plain tp = true → slugs_plain wp = true → ¬ output_path q →
  store (main_with tp wp fs) !! q = fs !! q.
Proof.
  intros Htp Hwp Hq. by destruct (main_with_confined tp wp Htp Hwp fs q).
Qed.

(** X13. After a build that ends normally, the shell of every page file
    reads back with the page's title and five links that, resolved from
    the page's directory, point at the stylesheet, at [docs/index.html],
    at [docs/specs.html] and at the two index documents.  The stylesheet
    and the two index documents are in the store; the home and specs
    documents are whatever the store held before, the build does not
    produce them. *)
Theorem page_navigation_resolves (fs : gmap path node) (p : Page) (dir : path) :
  outcome (main fs) = inr () →
  (p ∈ build_theory_pages ∧ dir = THEORY) ∨ (p ∈ build_wiki_pages ∧ dir = WIKI) →
  ∃ doc links body,
    store (main fs) !! (dir ++ [slug p +:+ ".html"]) = Some (File doc)
    ∧ shell_shape doc = Some (title p, links, body)
    ∧ map (resolve dir) links = shell_targets
    ∧ is_Some (store (main fs) !! (ASSETS </> "site.css"))
    ∧ (∃ d, store (main fs) !! (THEORY </> "index.html") = Some (File d))
    ∧ (∃ d, store (main fs) !! (WIKI </> "index.html") = Some (File d))
    ∧ store (main fs) !! ["docs"; "index.html"] = fs !! ["docs"; "index.html"]
    ∧ store (main fs) !! ["docs"; "specs.html"] = fs !! ["docs"; "specs.html"].
Proof.
  intros Ho Hp.
  assert (Hplain : slugs_plain build_theory_pages = true
                   ∧ slugs_plain build_wiki_pages = true)
    by (split; vm_compute; reflexivity).
  destruct Hplain as [Htp Hwp].
  assert (Hin : p ∈ build_theory_pages ++ build_wiki_pages).
  { apply elem_of_app. destruct Hp as [[Hp _]|[Hp _]]; auto. }
  destruct (registry_page_shell p Hin) as [body Hshell].
  destruct (main_page_files fs Ho) as [Hfiles_t Hfiles_w].
  destruct (main_index_documents fs Ho) as [Hti Hwi].
  assert (Hdoc : store (main fs) !! (dir ++ [slug p +:+ ".html"])
                 = Some (File (render_page p))).
  { destruct Hp as [[Hp ->]|[Hp ->]].
    - by destruct (Hfiles_t p Hp).
    - by destruct (Hfiles_w p Hp). }
  assert (Hres : map (resolve dir)
                   ["../assets/site.css"; "../index.html"; "../specs.html";
                    "../theory/index.html"; "../wiki/index.html"]
                 = shell_targets).
  { destruct Hp as [[_ ->]|[_ ->]]; reflexivity. }
  exists (render_page p),
         ["../assets/site.css"; "../index.html"; "../specs.html";
          "../theory/index.html"; "../wiki/index.html"], body.
  split; [exact Hdoc|]. split; [exact Hshell|]. split; [exact Hres|].
  split; [|split; [|split; [|split]]].
  - unfold main in *.
    rewrite (not_output_unchanged _ _ fs _ Htp Hwp css_not_output).
    by destruct (main_with_ok _ _ fs Ho) as (Hcss & _).
  - eexists. exact Hti.
  - eexists. exact Hwi.
  - apply (not_output_unchanged _ _ fs _ Htp Hwp).
    intros [H|[H|[H|[[name H]|[name H]]]]]; discriminate H.
  - apply (not_output_unchanged _ _ fs _ Htp Hwp).
    intros [H|[H|[H|[[name H]|[name H]]]]]; discriminate H.
Qed.

Lemma page_navigation_resolves_witness :
  outcome (main site_store) = inr ()
  ∧ ∀ p, p ∈ build_wiki_pages →
      ∃ doc links body,
        store (main site_store) !! (WIKI ++ [slug p +:+ ".html"]) = Some (File doc)
        ∧ shell_shape doc = Some (title p, links, body)
        ∧ map (resolve WIKI) links = shell_targets
        ∧ is_Some (store (main site_store) !! (ASSETS </> "site.css"))
        ∧ (∃ d, store (main site_store) !! (THEORY </> "index.html") = Some (File d))
        ∧ (∃ d, store (main site_store) !! (WIKI </> "index.html") = Some (File d))
        ∧ store (main site_store) !! ["docs"; "index.html"]
          = site_store !! ["docs"; "index.html"]
        ∧ store (main site_store) !! ["docs"; "specs.html"]
          = site_store !! ["docs"; "specs.html"].
Proof.
  assert (Ho : outcome (main site_store) = inr ()) by (vm_compute; reflexivity).
  split; [exact Ho|].
  intros p Hp. apply (page_navigation_resolves site_store p WIKI Ho).
  right. split; [exact Hp|reflexivity].
Defined.

(** * Colliding output paths *)

Lemma write_all_last (ws1 ws2 : list (path * string)) (w : path * string)
    (fs : gmap path node) :
  w.1 ∉ ws2.*1 → write_all (ws1 ++ w :: ws2) fs !! w.1 = Some (File w.2).
Proof.
  intros Hw. rewrite write_all_app, write_all_cons.
  rewrite write_all_lookup_other by done. apply lookup_insert_eq.
Qed.

(** X14. Colliding paths are not detected: after a build that ends
    normally, a path written more than once (two pages of a kind with the
    same slug, or a page whose slug is [index]) holds the text of the last
    write to it, in the order of the writes. *)
Theorem last_write_wins (tp wp : list Page) (fs : gmap path node)
    (ws1 ws2 : list (path * string)) (w : path * string) :
  outcome (main_with tp wp fs) = inr () →
  site_writes tp wp = ws1 ++ w :: ws2 →
  w.1 ∉ ws2.*1 →
  store (main_with tp wp fs) !! w.1 = Some (File w.2).
Proof.
  intros Ho Hsplit Hw.
  rewrite (main_with_store_writes tp wp fs Ho), Hsplit.
  by apply write_all_last.
Qed.

Lemma last_write_wins_witness :
  page_path WIKI sample_page = page_path WIKI twin_page
  ∧ store (main_with [] [sample_page; twin_page] site_store) !! page_path WIKI sample_page
    = Some (File (render_page twin_page)).
Proof.
  split; [reflexivity|].
  apply (last_write_wins [] [sample_page; twin_page] site_store
           [(THEORY </> "index.html", theory_index []);
            (WIKI </> "index.html", wiki_index [sample_page; twin_page]);
            (page_path WIKI sample_page, render_page sample_page)]
           []
           (page_path WIKI twin_page, render_page twin_page)).
  - vm_compute. reflexivity.
  - reflexivity.
  - cbn. apply not_elem_of_nil.
Defined.
